(** * refresh_moodle_stats.py: a shallow embedding and its properties

    The script logs into a Moodle site, reads a list of quiz course-module
    ids from a text file and visits the statistics page of each one.  Its
    interaction with the outside (HTTP client, clock, file system, parsed
    HTML) is modelled by a [world] of oracles; every run is a function from
    the configuration and the world to the list of observable events and the
    exit status of the process. *)

From Stdlib Require Import String Ascii ZArith List Bool Lia QArith.
From Stdlib Require Import DecimalString.
Import ListNotations.

Open Scope string_scope.
Open Scope Z_scope.
Open Scope list_scope.

(** ** Python string operations used by the script

    Text is a [string] of 8-bit characters, and the operations below are
    those of Python's [str] on ASCII text.  (Python also counts some
    characters beyond ASCII as blanks, digits or cased letters.) *)

Module PyStr.

(** [str.isspace] on the ASCII range: TAB..CR, FS..US and the space. *)
Definition isspace (c : ascii) : bool :=
  let n := nat_of_ascii c in
  ((9 <=? n)%nat && (n <=? 13)%nat) || ((28 <=? n)%nat && (n <=? 32)%nat).

Fixpoint lstrip (s : string) : string :=
  match s with
  | String c s' => if isspace c then lstrip s' else s
  | EmptyString => EmptyString
  end.

Fixpoint rstrip (s : string) : string :=
  match s with
  | EmptyString => EmptyString
  | String c s' =>
      match rstrip s' with
      | EmptyString => if isspace c then EmptyString else String c EmptyString
      | r => String c r
      end
  end.

(** [s.strip()] *)
Definition strip (s : string) : string := rstrip (lstrip s).

(** [s.lstrip(c)] and [s.rstrip(c)] for a one-character argument. *)
Fixpoint lstrip_char (c : ascii) (s : string) : string :=
  match s with
  | String d s' => if Ascii.eqb d c then lstrip_char c s' else s
  | EmptyString => EmptyString
  end.

Fixpoint rstrip_char (c : ascii) (s : string) : string :=
  match s with
  | EmptyString => EmptyString
  | String d s' =>
      match rstrip_char c s' with
      | EmptyString => if Ascii.eqb d c then EmptyString else String d EmptyString
      | r => String d r
      end
  end.

(** [s.startswith(p)] *)
Definition startswith (s p : string) : bool := String.prefix p s.

(** [needle in hay] *)
Fixpoint contains (needle hay : string) : bool :=
  String.prefix needle hay ||
  match hay with
  | EmptyString => false
  | String _ hay' => contains needle hay'
  end.

Definition lower_char (c : ascii) : ascii :=
  let n := nat_of_ascii c in
  if ((65 <=? n)%nat && (n <=? 90)%nat) then ascii_of_nat (n + 32) else c.

(** [s.lower()] *)
Fixpoint lower (s : string) : string :=
  match s with
  | EmptyString => EmptyString
  | String c s' => String (lower_char c) (lower s')
  end.

(** [str(n)] for an integer. *)
Definition str_of_int (n : Z) : string := NilZero.string_of_int (Z.to_int n).

(** Truth value of a string: empty is false. *)
Definition truthy (s : string) : bool :=
  match s with EmptyString => false | _ => true end.

Definition digit_value (c : ascii) : option Z :=
  let n := nat_of_ascii c in
  if ((48 <=? n)%nat && (n <=? 57)%nat) then Some (Z.of_nat (n - 48)) else None.

(** The digit scan of [int()] in base ten: digits, with single underscores
    allowed between two digits.  Returns the number of digits read and the
    value. *)
Fixpoint scan_digits (s : string) (prev_underscore : bool) (digits : nat) (acc : Z)
  : option (nat * Z) :=
  match s with
  | EmptyString => if prev_underscore then None else Some (digits, acc)
  | String c s' =>
      if Ascii.eqb c "_" then
        if prev_underscore then None else scan_digits s' true digits acc
      else
        match digit_value c with
        | Some d => scan_digits s' false (S digits) (acc * 10 + d)
        | None => None
        end
  end.

(** [int(s)]: [None] stands for [ValueError].  Surrounding whitespace is
    ignored, one sign is allowed, and [max_str_digits] is the interpreter's
    limit on the number of digits ([sys.get_int_max_str_digits()]: 0 for no
    limit, otherwise at least 640; 4300 unless it was changed). *)
Definition int (max_str_digits : nat) (s : string) : option Z :=
  let s := strip s in
  let '(negative, body) :=
    match s with
    | String "+" r => (false, r)
    | String "-" r => (true, r)
    | _ => (false, s)
    end in
  match body with
  | EmptyString => None
  | String "_" _ => None
  | _ =>
      match scan_digits body false 0 0 with
      | Some (n, v) =>
          if (max_str_digits =? 0)%nat || (n <=? max_str_digits)%nat
          then Some (if negative then - v else v)
          else None
      | None => None
      end
  end.

End PyStr.

(** ** The outside world: responses, exceptions, events *)

(** What the script reads off a parsed page ([BeautifulSoup(text, 'html.parser')]):
    one field per query it makes. *)
Record soup := {
  (** [find('input', {'name': 'logintoken'})]: [None] when there is no such
      tag, [Some None] when the tag has no [value] attribute. *)
  logintoken_input : option (option string);
  (** text of [find('div', {'id': 'loginerrormessage'})], when found *)
  div_loginerrormessage : option string;
  (** text of [find('div', class_='loginerrors')], when found *)
  div_loginerrors : option string;
  (** text of [find('div', class_='alert-danger')], when found *)
  div_alert_danger : option string;
  (** [find(class_='errorbox')] found something *)
  has_errorbox : bool;
  (** [find(id='page-login-index')] found something *)
  has_page_login_index : bool;
  (** [find(class_='errormessage')] found something *)
  has_errormessage : bool;
  (** [soup.title]: [None] when the page has no title tag; [Some None] when
      it has one whose [.string] is [None] (no single text child). *)
  title : option (option string)
}.

(** A [requests.Response]: the final URL after redirects, the status line,
    the body, and what [BeautifulSoup(text, 'html.parser')] makes of the
    body: [None] when the parser rejects the markup and the call raises. *)
Record response := {
  url : string;
  status_code : Z;
  reason : string;
  text : string;
  parsed : option soup
}.

(** The exception classes that matter to the script's handlers.  ImportError
    is left out: every import is done before the [try] statement, so no call
    inside it raises one and the clause of line 265 is never taken. *)
Inductive exn :=
| SSLError                      (* requests: a ConnectionError *)
| ConnectTimeout                (* requests: a ConnectionError and a Timeout *)
| ReadTimeout                   (* requests: a Timeout *)
| ConnectionError               (* requests: any other ConnectionError *)
| HTTPError (r : response)      (* requests: raised by raise_for_status *)
| RequestException (r : option response)
    (* requests: any other RequestException, with its [response] attribute *)
| ParserRejectedMarkup
    (* bs4: the parser could not take the markup (in older versions the
       parser's own error comes through); a subclass of Exception *)
| KeyError
| AttributeError
| NameError
| ValueError
| OtherException                (* any other subclass of Exception *)
| SystemExit (code : Z)         (* BaseException only *)
| KeyboardInterrupt.            (* BaseException only *)

Definition is_Timeout (e : exn) : bool :=
  match e with ConnectTimeout | ReadTimeout => true | _ => false end.

Definition is_HTTPError (e : exn) : bool :=
  match e with HTTPError _ => true | _ => false end.

Definition is_SSLError (e : exn) : bool :=
  match e with SSLError => true | _ => false end.

Definition is_ConnectionError (e : exn) : bool :=
  match e with SSLError | ConnectTimeout | ConnectionError => true | _ => false end.

Definition is_RequestException (e : exn) : bool :=
  match e with
  | SSLError | ConnectTimeout | ReadTimeout | ConnectionError
  | HTTPError _ | RequestException _ => true
  | _ => false
  end.

Definition is_Exception (e : exn) : bool :=
  match e with SystemExit _ | KeyboardInterrupt => false | _ => true end.

(** The result of a call into the outside. *)
Inductive answer :=
| Returned (r : response)
| Raised (e : exn).

(** What is found at the path of the quiz id file. *)
Inductive file_content :=
| NotAFile                                        (* os.path.isfile is false *)
| Lines (lines : list string) (fails : bool).
    (* the lines the file yields; [fails]: opening or reading raises after them *)

(** One constructor per [print] of the script, with the values it formats. *)
Inductive message :=
| MsgAccessingLogin (login_url : string)                    (* line 175 *)
| MsgFoundLogintoken (logintoken : string)                  (* line 182 *)
| MsgNoLogintoken                                           (* line 183 *)
| MsgSubmittingLogin (username : string)                    (* line 188 *)
| MsgLoginFailed (error_text : string)                      (* line 198 *)
| MsgLoginSuccessful (current_url : string)                 (* line 201 *)
| MsgNoSessionCookie                                        (* line 205 *)
| MsgFoundSessionCookie (name : string)                     (* line 206 *)
| MsgInputFileNotFound (file_path : string)                 (* line 145 *)
| MsgReadingFrom (file_path : string)                       (* line 149 *)
| MsgSkippingInvalid (line_num : nat) (line : string)       (* line 159 *)
| MsgNoValidIds                                             (* line 160 *)
| MsgFoundValidIds (n : nat)                                (* line 161 *)
| MsgErrorReadingFile (file_path : string)                  (* line 164 *)
| MsgNothingToProcess                                       (* line 211 *)
| MsgProcessing (n : nat)                                   (* line 214 *)
| MsgSkippingRemaining                                      (* line 221 *)
| MsgVisiting (quiz_id : Z) (position total : nat) (stats_url : string) (* line 226 *)
| MsgSessionLikelyExpired (quiz_id : Z)                     (* line 232 *)
| MsgPotentialIssue (quiz_id : Z)                           (* line 242 *)
| MsgVisited (quiz_id : Z)                                  (* line 244 *)
| MsgTimedOut (quiz_id : Z)                                 (* line 247 *)
| MsgHTTPErrorFor (quiz_id : Z) (status : Z) (reason : string) (* line 249 *)
| MsgAuthenticationError                                    (* line 250 *)
| MsgNetworkError (quiz_id : Z)                             (* line 251 *)
| MsgUnexpectedErrorFor (quiz_id : Z)                       (* line 252 *)
| MsgSSLError (verify : bool)                               (* lines 257-258 *)
| MsgConnectionError (base_url : string)                    (* lines 260-261 *)
| MsgHTTPErrorDuringSetup                                   (* line 263 *)
| MsgStatusAndBody (status : Z) (body : string)             (* line 264 *)
| MsgUnexpectedError                                        (* lines 268-269 *)
| MsgSummaryHeader                                          (* line 272 *)
| MsgTotalRead (n : nat)                                    (* line 274 *)
| MsgAttempted (n : Z)                                      (* line 275 *)
| MsgSucceeded (n : Z)                                      (* line 276 *)
| MsgFailedSkipped (n : Z)                                  (* line 277 *)
| MsgScriptFinished.                                        (* line 280 *)

(** The observable events of a run, oldest first in a trace. *)
Inductive event :=
| EGet (url : string)                                  (* session.get issued *)
| EPost (url : string) (data : list (string * string)) (* session.post issued *)
| ESleep (seconds : Q)                                 (* time.sleep returned *)
| EPrint (m : message)
| EClose.                                              (* session.close() *)

(** The settings the main stage uses, as the configuration stage leaves them
    (before the URLs are normalised). *)
Record config := {
  cfg_base_url : string;
  cfg_username : string;
  cfg_password : string;
  cfg_login_path : string;
  quiz_id_file_to_use : string;
  request_delay_seconds : Q;
  VERIFY_SSL : bool
}.

(** The fallback of [request_delay_seconds] (lines 47 and 59). *)
Definition default_request_delay_seconds : Q := (1 # 2)%Q.

(** The answers of the outside to the calls of one run. *)
Record world := {
  (** [session.get(LOGIN_URL)] *)
  login_page : answer;
  (** [session.post(LOGIN_URL, data=login_payload)] *)
  login_submit : list (string * string) -> answer;
  (** [session.cookies.keys()] after the login *)
  cookie_names : list string;
  (** the file at [quiz_id_file_to_use] *)
  quiz_file : file_content;
  (** [session.get(stats_url)] in iteration [i] (from 0) for [quiz_id] *)
  stats_page : nat -> Z -> answer;
  (** [time.sleep] in iteration [i]: [None] when it returns *)
  sleep_raises : nat -> option exn;
  (** [sys.get_int_max_str_digits()] *)
  max_str_digits : nat
}.

(** ** Output and exceptions: a writer monad with errors *)

Inductive res (A : Type) : Type :=
| Ret (a : A)
| Exc (e : exn).
Arguments Ret {A} a.
Arguments Exc {A} e.

Definition io (A : Type) : Type := (list event * res A)%type.

Definition ret {A : Type} (a : A) : io A := ([], Ret a).

Definition bind {A B : Type} (m : io A) (k : A -> io B) : io B :=
  match m with
  | (t, Ret a) => let (t', r) := k a in (t ++ t', r)
  | (t, Exc e) => (t, Exc e)
  end.

Notation "x <- m ;; k" := (bind m (fun x => k))
  (at level 61, m at next level, right associativity).
Notation "m ;; k" := (bind m (fun _ => k))
  (at level 61, right associativity).

Definition emit (e : event) : io unit := ([e], Ret tt).
Definition print (m : message) : io unit := emit (EPrint m).
Definition raise {A : Type} (e : exn) : io A := ([], Exc e).
Definition sys_exit {A : Type} (code : Z) : io A := raise (SystemExit code).

Definition call (a : answer) : io response :=
  match a with
  | Returned r => ret r
  | Raised e => raise e
  end.

(** [response.raise_for_status()] *)
Definition raise_for_status (r : response) : io unit :=
  if (400 <=? status_code r) && (status_code r <? 600) then raise (HTTPError r) else ret tt.

(** [BeautifulSoup(r.text, 'html.parser')] *)
Definition BeautifulSoup (r : response) : io soup :=
  match parsed r with
  | Some page => ret page
  | None => raise ParserRejectedMarkup
  end.

(** [a or b or ...] over query results: the first one found. *)
Fixpoint first_found {A : Type} (l : list (option A)) : option A :=
  match l with
  | [] => None
  | Some a :: _ => Some a
  | None :: l' => first_found l'
  end.

(** ** The script *)

(** The counters of stage 4 (lines 215-217). *)
Record counters := {
  success_count : Z;
  failure_count : Z;
  session_expired : bool
}.

Definition incr_success (c : counters) : counters :=
  {| success_count := success_count c + 1;
     failure_count := failure_count c;
     session_expired := session_expired c |}.

Definition incr_failure (c : counters) : counters :=
  {| success_count := success_count c;
     failure_count := failure_count c + 1;
     session_expired := session_expired c |}.

Definition set_failure (n : Z) (c : counters) : counters :=
  {| success_count := success_count c;
     failure_count := n;
     session_expired := session_expired c |}.

Definition set_expired (c : counters) : counters :=
  {| success_count := success_count c;
     failure_count := failure_count c;
     session_expired := true |}.

(** The names the [finally] block looks up: [quiz_ids] is unbound ([None]),
    bound to [None] ([Some None]) or to a list; the counters are bound once
    stage 4 has started. *)
Record locals := {
  quiz_ids : option (option (list Z));
  counts : option counters
}.

(** How an iteration of the loop leaves the [try] statement. *)
Inductive ctl :=
| Fallthrough        (* on to the pause of line 254 *)
| Continue.          (* [continue]: straight to the next iteration *)

(** How the process ends. *)
Inductive ending :=
| Exited (status : Z)        (* end of script (status 0), or SystemExit *)
| Uncaught (e : exn).        (* any other exception: traceback, non-zero status *)

Section Script.

Variable cfg : config.
Variable w : world.

(** Lines 126-130. *)
Definition moodle_base_url : string := PyStr.rstrip_char "/" (cfg_base_url cfg).
Definition login_path : string :=
  (String "/" EmptyString ++ PyStr.lstrip_char "/" (cfg_login_path cfg))%string.
Definition LOGIN_URL : string := (moodle_base_url ++ login_path)%string.

(** *** Reading the identifier file (lines 142-165) *)

(** The [for line_num, line in enumerate(f, 1)] loop; [quiz_ids] is the list
    built so far. *)
Fixpoint read_lines (line_num : nat) (lines : list string) (quiz_ids : list Z)
  : list event * list Z :=
  match lines with
  | [] => ([], quiz_ids)
  | line :: rest =>
      let line := PyStr.strip line in
      if negb (PyStr.truthy line) || PyStr.startswith line "#" then
        read_lines (S line_num) rest quiz_ids
      else
        match PyStr.int (max_str_digits w) line with
        | Some quiz_id => read_lines (S line_num) rest (quiz_ids ++ [quiz_id])
        | None =>
            let (t, r) := read_lines (S line_num) rest quiz_ids in
            (EPrint (MsgSkippingInvalid line_num line) :: t, r)
        end
  end.

Definition read_quiz_ids_from_file (file_path : string) (f : file_content)
  : list event * option (list Z) :=
  match f with
  | NotAFile => ([EPrint (MsgInputFileNotFound file_path)], None)
  | Lines lines fails =>
      let (t, quiz_ids) := read_lines 1 lines [] in
      if fails then
        (EPrint (MsgReadingFrom file_path) :: t ++ [EPrint (MsgErrorReadingFile file_path)],
         None)
      else
        (EPrint (MsgReadingFrom file_path) :: t ++
           [EPrint (match quiz_ids with
                    | [] => MsgNoValidIds
                    | _ => MsgFoundValidIds (length quiz_ids)
                    end)],
         Some quiz_ids)
  end.

(** *** Stage 1: login (lines 175-201) *)

Definition session_get (u : string) (a : answer) : io response :=
  emit (EGet u) ;; call a.

Definition session_post (u : string) (data : list (string * string))
  (a : list (string * string) -> answer) : io response :=
  emit (EPost u data) ;; call (a data).

Definition unknown_reason : string := "Unknown reason (check credentials/URL in config)".

(** Lines 180-181: [logintoken_input['value'] if logintoken_input else None]. *)
Definition read_logintoken (page : soup) : io (option string) :=
  match logintoken_input page with
  | Some (Some v) => ret (Some v)
  | Some None => raise KeyError
  | None => ret None
  end.

(** Lines 185-186. *)
Definition login_payload (logintoken : option string) : list (string * string) :=
  [("username", cfg_username cfg); ("password", cfg_password cfg)] ++
  match logintoken with
  | Some v => if PyStr.truthy v then [("logintoken", v)] else []
  | None => []
  end.

(** Lines 192-201: the verdict on the response to the credentials. *)
Definition check_login (response_post : response) : io unit :=
  if PyStr.contains LOGIN_URL (url response_post)
     || PyStr.contains login_path (url response_post)
  then
    error_div_soup <- BeautifulSoup response_post ;;
    let error_div :=
      first_found [div_loginerrormessage error_div_soup;
                   div_loginerrors error_div_soup;
                   div_alert_danger error_div_soup] in
    let error_text :=
      match error_div with Some t => t | None => unknown_reason end in
    print (MsgLoginFailed error_text) ;;
    sys_exit 1
  else
    print (MsgLoginSuccessful (url response_post)).

Definition stage1_login : io unit :=
  print (MsgAccessingLogin LOGIN_URL) ;;
  response_get <- session_get LOGIN_URL (login_page w) ;;
  raise_for_status response_get ;;
  soup_login <- BeautifulSoup response_get ;;
  logintoken <- read_logintoken soup_login ;;
  (match logintoken with
   | Some v => if PyStr.truthy v then print (MsgFoundLogintoken v) else print MsgNoLogintoken
   | None => print MsgNoLogintoken
   end) ;;
  print (MsgSubmittingLogin (cfg_username cfg)) ;;
  response_post <- session_post LOGIN_URL (login_payload logintoken) (login_submit w) ;;
  raise_for_status response_post ;;
  check_login response_post.

(** *** Stage 2: the session cookie (lines 204-206) *)

Definition stage2_cookie : io unit :=
  let moodle_session_cookie_name :=
    List.find (fun n => PyStr.contains "moodlesession" (PyStr.lower n)) (cookie_names w) in
  match moodle_session_cookie_name with
  | Some n =>
      if PyStr.truthy n then print (MsgFoundSessionCookie n)
      else (print MsgNoSessionCookie ;; sys_exit 1)
  | None => print MsgNoSessionCookie ;; sys_exit 1
  end.

(** *** Stage 4: the batch loop (lines 214-254) *)

Definition stats_url (quiz_id : Z) : string :=
  (moodle_base_url ++ "/mod/quiz/report.php?id=" ++ PyStr.str_of_int quiz_id
     ++ "&mode=statistics")%string.

(** Lines 231-245: what is done with the response to a statistics request. *)
Definition inspect_stats (quiz_id : Z) (c : counters) (response_stats : response)
  : io (counters * ctl) :=
  if PyStr.contains LOGIN_URL (url response_stats)
     || PyStr.contains login_path (url response_stats)
  then
    print (MsgSessionLikelyExpired quiz_id) ;;
    ret (set_expired (incr_failure c), Continue)
  else
    raise_for_status response_stats ;;
    soup_stats <- BeautifulSoup response_stats ;;
    let error_box :=
      has_errorbox soup_stats || has_page_login_index soup_stats
      || has_errormessage soup_stats in
    page_title <-
      match title soup_stats with
      | Some (Some s) => ret (PyStr.lower s)
      | Some None => raise AttributeError
      | None => ret EmptyString
      end ;;
    (if error_box
        || PyStr.contains "error" page_title
        || PyStr.contains "notice" page_title
        || PyStr.contains "invalid course module id" (PyStr.lower (text response_stats))
        || PyStr.contains "you do not have permission" (PyStr.lower (text response_stats))
     then print (MsgPotentialIssue quiz_id)
     else ret tt) ;;
    print (MsgVisited quiz_id) ;;
    ret (incr_success c, Fallthrough).

(** The body of the [try] of lines 229-245.  Nothing is counted before the
    last raising call, so an exception leaves the counters as they were. *)
Definition try_body (i : nat) (quiz_id : Z) (c : counters) : io (counters * ctl) :=
  response_stats <- session_get (stats_url quiz_id) (stats_page w i quiz_id) ;;
  inspect_stats quiz_id c response_stats.

(** The [except] clauses of lines 247-252, tried in order. *)
Definition except_item (quiz_id : Z) (e : exn) (c : counters)
  : list event * counters * res ctl :=
  if is_Timeout e then
    ([EPrint (MsgTimedOut quiz_id)], incr_failure c, Ret Fallthrough)
  else
    match e with
    | HTTPError r =>
        if (status_code r =? 401) || (status_code r =? 403) then
          ([EPrint (MsgHTTPErrorFor quiz_id (status_code r) (reason r));
            EPrint MsgAuthenticationError],
           set_expired (incr_failure c), Ret Fallthrough)
        else
          ([EPrint (MsgHTTPErrorFor quiz_id (status_code r) (reason r))],
           incr_failure c, Ret Fallthrough)
    | _ =>
        if is_RequestException e then
          ([EPrint (MsgNetworkError quiz_id)], incr_failure c, Ret Fallthrough)
        else if is_Exception e then
          ([EPrint (MsgUnexpectedErrorFor quiz_id)], incr_failure c, Ret Fallthrough)
        else ([], c, Exc e)
    end.

(** Lines 225-252: one item, from building the URL to the end of the [try]
    statement.  [n] is [len(quiz_ids)]. *)
Definition visit (n i : nat) (quiz_id : Z) (c : counters)
  : list event * counters * res ctl :=
  let announce := EPrint (MsgVisiting quiz_id (i + 1) n (stats_url quiz_id)) in
  match try_body i quiz_id c with
  | (t, Ret (c', k)) => (announce :: t, c', Ret k)
  | (t, Exc e) =>
      let '(t', c', r) := except_item quiz_id e c in
      (announce :: t ++ t', c', r)
  end.

(** Line 254. *)
Definition pause (n i : nat) : io unit :=
  if Z.of_nat i <? Z.of_nat n - 1 then
    match sleep_raises w i with
    | None => emit (ESleep (request_delay_seconds cfg))
    | Some e => raise e
    end
  else ret tt.

(** The [for i, quiz_id in enumerate(quiz_ids)] loop from index [i] on, with
    [rest] the identifiers not yet reached. *)
Fixpoint for_loop (n i : nat) (rest : list Z) (c : counters)
  : list event * counters * res unit :=
  match rest with
  | [] => ([], c, Ret tt)
  | quiz_id :: rest' =>
      if session_expired c then
        ([EPrint MsgSkippingRemaining], set_failure (Z.of_nat n - Z.of_nat i) c, Ret tt)
      else
        match visit n i quiz_id c with
        | (t, c', Exc e) => (t, c', Exc e)
        | (t, c', Ret Continue) =>
            let '(t', c'', r) := for_loop n (S i) rest' c' in
            (t ++ t', c'', r)
        | (t, c', Ret Fallthrough) =>
            match pause n i with
            | (tp, Exc e) => (t ++ tp, c', Exc e)
            | (tp, Ret _) =>
                let '(t', c'', r) := for_loop n (S i) rest' c' in
                (t ++ tp ++ t', c'', r)
            end
        end
  end.

Definition initial_counters : counters :=
  {| success_count := 0; failure_count := 0; session_expired := false |}.

Definition stage4_batch (quiz_ids : list Z) : list event * counters * res unit :=
  let '(t, c, r) := for_loop (length quiz_ids) 0 quiz_ids initial_counters in
  (EPrint (MsgProcessing (length quiz_ids)) :: t, c, r).

(** *** The main [try] statement (lines 173-280) *)

Definition unbound : locals := {| quiz_ids := None; counts := None |}.

(** The [try] block: stages 1 to 4.  Returns the trace, the names bound when
    the block is left, and how it is left. *)
Definition try_block : list event * locals * res unit :=
  match stage1_login ;; stage2_cookie with
  | (t12, Exc e) => (t12, unbound, Exc e)
  | (t12, Ret _) =>
      let (t3, read) := read_quiz_ids_from_file (quiz_id_file_to_use cfg) (quiz_file w) in
      match read with
      | None =>
          (t12 ++ t3, {| quiz_ids := Some None; counts := None |}, Exc (SystemExit 1))
      | Some [] =>
          (t12 ++ t3 ++ [EPrint MsgNothingToProcess],
           {| quiz_ids := Some (Some []); counts := None |}, Exc (SystemExit 0))
      | Some ids =>
          let '(t4, c, r) := stage4_batch ids in
          (t12 ++ t3 ++ t4, {| quiz_ids := Some (Some ids); counts := Some c |}, r)
      end
  end.

(** The [except] clauses of lines 256-269: the trace of the matching handler
    and the exception still pending after it. *)
Definition except_main (e : exn) : list event * option exn :=
  if is_SSLError e then ([EPrint (MsgSSLError (VERIFY_SSL cfg))], None)
  else if is_ConnectionError e then ([EPrint (MsgConnectionError moodle_base_url)], None)
  else if is_RequestException e then
    (EPrint MsgHTTPErrorDuringSetup ::
       match e with
       | HTTPError r | RequestException (Some r) =>
           [EPrint (MsgStatusAndBody (status_code r) (substring 0 500 (text r)))]
       | _ => []
       end,
     None)
  else if is_Exception e then ([EPrint MsgUnexpectedError], None)
  else ([], Some e).

(** The [finally] block (lines 270-280). *)
Definition finally_block (l : locals) : io unit :=
  (match quiz_ids l with
   | Some (Some ids) =>
       print MsgSummaryHeader ;;
       match counts l with
       | None => raise NameError
       | Some c =>
           let total_attempted := success_count c + failure_count c in
           print (MsgTotalRead (length ids)) ;;
           print (MsgAttempted total_attempted) ;;
           print (MsgSucceeded (success_count c)) ;;
           print (MsgFailedSkipped (failure_count c))
       end
   | _ => ret tt
   end) ;;
  emit EClose ;;
  print MsgScriptFinished.

(** The whole main stage: trace and ending of the process. *)
Definition main : list event * ending :=
  let '(t, l, r) := try_block in
  let (th, pending) :=
    match r with
    | Ret _ => ([], None)
    | Exc e => except_main e
    end in
  match finally_block l with
  | (tf, Exc e) => (t ++ th ++ tf, Uncaught e)
  | (tf, Ret _) =>
      (t ++ th ++ tf,
       match pending with
       | None => Exited 0
       | Some (SystemExit code) => Exited code
       | Some e => Uncaught e
       end)
  end.

End Script.

(** ** Concrete configurations and worlds *)

Module Examples.

Definition cfg : config :=
  {| cfg_base_url := "https://example.org/";
     cfg_username := "teacher";
     cfg_password := "secret";
     cfg_login_path := "login/index.php";
     quiz_id_file_to_use := "quiz_ids.txt";
     request_delay_seconds := default_request_delay_seconds;
     VERIFY_SSL := false |}.

Definition blank_soup : soup :=
  {| logintoken_input := None;
     div_loginerrormessage := None;
     div_loginerrors := None;
     div_alert_danger := None;
     has_errorbox := false;
     has_page_login_index := false;
     has_errormessage := false;
     title := None |}.

Definition page (u : string) (status : Z) (s : soup) : response :=
  {| url := u; status_code := status; reason := "OK"; text := EmptyString;
     parsed := Some s |}.

(** The login form, with a token. *)
Definition login_form : response :=
  page "https://example.org/login/index.php" 200
    {| logintoken_input := Some (Some "tok123");
       div_loginerrormessage := None;
       div_loginerrors := None;
       div_alert_danger := None;
       has_errorbox := false;
       has_page_login_index := true;
       has_errormessage := false;
       title := Some (Some "Log in to the site") |}.

(** The dashboard a successful login redirects to. *)
Definition dashboard : response := page "https://example.org/my/" 200 blank_soup.

(** The login page shown again, with Moodle's error message. *)
Definition login_rejected : response :=
  page "https://example.org/login/index.php" 200
    {| logintoken_input := Some (Some "tok456");
       div_loginerrormessage := None;
       div_loginerrors := Some "Invalid login, please try again";
       div_alert_danger := Some "Invalid login";
       has_errorbox := false;
       has_page_login_index := true;
       has_errormessage := false;
       title := Some (Some "Log in to the site") |}.

(** The login URL answering with a server error. *)
Definition login_unavailable : response :=
  {| url := "https://example.org/login/index.php"; status_code := 503;
     reason := "Service Unavailable"; text := "maintenance";
     parsed := Some blank_soup |}.

(** A statistics page. *)
Definition stats_ok (quiz_id : Z) : response :=
  page ("https://example.org/mod/quiz/report.php?id=" ++ PyStr.str_of_int quiz_id
          ++ "&mode=statistics")%string 200
    {| logintoken_input := None;
       div_loginerrormessage := None;
       div_loginerrors := None;
       div_alert_danger := None;
       has_errorbox := false;
       has_page_login_index := false;
       has_errormessage := false;
       title := Some (Some "Statistics") |}.

(** A statistics page carrying an error box and an error title. *)
Definition stats_with_marker : response :=
  {| url := "https://example.org/mod/quiz/report.php?id=7&mode=statistics";
     status_code := 200; reason := "OK";
     text := "You do not have permission to view this report";
     parsed :=
       Some {| logintoken_input := None;
               div_loginerrormessage := None;
               div_loginerrors := None;
               div_alert_danger := None;
               has_errorbox := true;
               has_page_login_index := false;
               has_errormessage := false;
               title := Some (Some "Error") |} |}.

(** A statistics page whose title tag is empty: [soup.title.string] is [None]. *)
Definition stats_empty_title : response :=
  {| url := "https://example.org/mod/quiz/report.php?id=7&mode=statistics";
     status_code := 200; reason := "OK"; text := "<title></title>";
     parsed :=
       Some {| logintoken_input := None;
               div_loginerrormessage := None;
               div_loginerrors := None;
               div_alert_danger := None;
               has_errorbox := false;
               has_page_login_index := false;
               has_errormessage := false;
               title := Some None |} |}.

(** A statistics page whose markup the parser rejects. *)
Definition stats_rejected_markup : response :=
  {| url := "https://example.org/mod/quiz/report.php?id=7&mode=statistics";
     status_code := 200; reason := "OK"; text := "<![foo[bar]]>";
     parsed := None |}.

(** A statistics request redirected to the login page. *)
Definition redirected_to_login : response :=
  page "https://example.org/login/index.php" 200 blank_soup.

Definition forbidden : response :=
  {| url := "https://example.org/mod/quiz/report.php?id=7&mode=statistics";
     status_code := 403; reason := "Forbidden"; text := EmptyString;
     parsed := Some blank_soup |}.

Definition not_found : response :=
  {| url := "https://example.org/mod/quiz/report.php?id=7&mode=statistics";
     status_code := 404; reason := "Not Found"; text := EmptyString;
     parsed := Some blank_soup |}.

(** A world in which the login succeeds, the file yields [lines] and the
    statistics requests are answered by [stats]. *)
Definition logged_in (lines : list string) (stats : nat -> Z -> answer) : world :=
  {| login_page := Returned login_form;
     login_submit := fun _ => Returned dashboard;
     cookie_names := ["MoodleSession"];
     quiz_file := Lines lines false;
     stats_page := stats;
     sleep_raises := fun _ => None;
     max_str_digits := 4300 |}.

(** Every statistics page loads. *)
Definition all_ok : nat -> Z -> answer := fun _ quiz_id => Returned (stats_ok quiz_id).

(** The request of iteration [k] (from 0) is redirected to the login page. *)
Definition expiry_at (k : nat) : nat -> Z -> answer :=
  fun i quiz_id => if (i =? k)%nat then Returned redirected_to_login
                   else Returned (stats_ok quiz_id).

(** The login is rejected by the site. *)
Definition login_fails : world :=
  {| login_page := Returned login_form;
     login_submit := fun _ => Returned login_rejected;
     cookie_names := [];
     quiz_file := Lines ["101"] false;
     stats_page := all_ok;
     sleep_raises := fun _ => None;
     max_str_digits := 4300 |}.

(** The login URL answers the credentials with 503. *)
Definition login_down : world :=
  {| login_page := Returned login_form;
     login_submit := fun _ => Returned login_unavailable;
     cookie_names := [];
     quiz_file := Lines ["101"] false;
     stats_page := all_ok;
     sleep_raises := fun _ => None;
     max_str_digits := 4300 |}.

Definition newline : string := String (ascii_of_nat 10) EmptyString.

(** An identifier file with a comment, a blank line, a bad line, signed
    values and a duplicate. *)
Definition sample_lines : list string :=
  [("# quizzes of term 1" ++ newline)%string;
   newline;
   ("101" ++ newline)%string;
   ("abc" ++ newline)%string;
   ("  102  " ++ newline)%string;
   ("101" ++ newline)%string;
   ("-5" ++ newline)%string;
   ("+7" ++ newline)%string;
   "0"].

End Examples.

(** ** Vocabulary of the properties *)

(** [needle] occurs in [hay] as a substring. *)
Definition occurs_in (needle hay : string) : Prop :=
  exists pre post, hay = (pre ++ needle ++ post)%string.

(** A line the reader drops without a word: blank, or a comment. *)
Definition blank_or_comment (line : string) : bool :=
  negb (PyStr.truthy (PyStr.strip line)) || PyStr.startswith (PyStr.strip line) "#".

(** The integer values of the lines that parse, in the order of the lines. *)
Definition valid_ids (limit : nat) (lines : list string) : list Z :=
  flat_map (fun line => match PyStr.int limit line with
                        | Some quiz_id => [quiz_id]
                        | None => []
                        end) lines.

(** One warning for each line that is neither blank nor a comment and does
    not parse, numbered from [line_num]. *)
Fixpoint warnings_from (limit : nat) (line_num : nat) (lines : list string) : list event :=
  match lines with
  | [] => []
  | line :: rest =>
      (if blank_or_comment line then []
       else match PyStr.int limit line with
            | Some _ => []
            | None => [EPrint (MsgSkippingInvalid line_num (PyStr.strip line))]
            end)
      ++ warnings_from limit (S line_num) rest
  end.

(** What starts with no blank. *)
Definition trimmed_left (s : string) : Prop :=
  match s with
  | EmptyString => True
  | String c _ => PyStr.isspace c = false
  end.

(** Reading the triples the loop returns. *)
Definition trace_of {A B : Type} (x : list event * A * B) : list event := fst (fst x).
Definition counters_of {A B : Type} (x : list event * A * B) : A := snd (fst x).
Definition result_of {A B : Type} (x : list event * A * B) : B := snd x.

Definition is_request (e : event) : bool :=
  match e with
  | EGet _ | EPost _ _ => true
  | _ => false
  end.

Definition is_sleep (e : event) : bool :=
  match e with
  | ESleep _ => true
  | _ => false
  end.

(** Network and clock events: everything but output and the final close. *)
Definition is_effect (e : event) : bool := is_request e || is_sleep e.

(** The lines of the closing summary. *)
Definition is_summary (e : event) : bool :=
  match e with
  | EPrint MsgSummaryHeader | EPrint (MsgTotalRead _) | EPrint (MsgAttempted _)
  | EPrint (MsgSucceeded _) | EPrint (MsgFailedSkipped _) => true
  | _ => false
  end.

(** The two messages that tell of a lost session. *)
Definition is_expiry_notice (e : event) : bool :=
  match e with
  | EPrint (MsgSessionLikelyExpired _) | EPrint MsgAuthenticationError => true
  | _ => false
  end.

(** The closing summary for [n] identifiers read and counters [c]. *)
Definition summary (n : nat) (c : counters) : list event :=
  [EPrint MsgSummaryHeader;
   EPrint (MsgTotalRead n);
   EPrint (MsgAttempted (success_count c + failure_count c));
   EPrint (MsgSucceeded (success_count c));
   EPrint (MsgFailedSkipped (failure_count c))].

(** Requests separated by pauses: what a full run does on the network and
    the clock. *)
Fixpoint paced (d : Q) (urls : list string) : list event :=
  match urls with
  | [] => []
  | u :: rest =>
      EGet u :: match rest with
                | [] => []
                | _ => ESleep d :: paced d rest
                end
  end.

(** What one answer means for the item it answers. *)
Inductive verdict :=
| Success                (* counted as visited *)
| Redirect               (* landed on the login page: failed, session expired *)
| Failure                (* counted as failed *)
| AuthFailure            (* HTTP 401 or 403: failed, session expired *)
| Escape (e : exn).      (* not an Exception: leaves the loop *)

Definition auth_status (s : Z) : bool := (s =? 401) || (s =? 403).

Definition judge (cfg : config) (a : answer) : verdict :=
  match a with
  | Returned r =>
      if PyStr.contains (LOGIN_URL cfg) (url r) || PyStr.contains (login_path cfg) (url r)
      then Redirect
      else if (400 <=? status_code r) && (status_code r <? 600) then
        if auth_status (status_code r) then AuthFailure else Failure
      else
        match parsed r with
        | None => Failure
        | Some page =>
            match title page with
            | Some None => Failure
            | _ => Success
            end
        end
  | Raised e =>
      match e with
      | HTTPError r => if auth_status (status_code r) then AuthFailure else Failure
      | SystemExit _ | KeyboardInterrupt => Escape e
      | _ => Failure
      end
  end.

Definition settle (v : verdict) (c : counters) : counters * res ctl :=
  match v with
  | Success => (incr_success c, Ret Fallthrough)
  | Redirect => (set_expired (incr_failure c), Ret Continue)
  | Failure => (incr_failure c, Ret Fallthrough)
  | AuthFailure => (set_expired (incr_failure c), Ret Fallthrough)
  | Escape e => (c, Exc e)
  end.

(** The verdicts that stop the batch. *)
Definition expiring (v : verdict) : bool :=
  match v with
  | Redirect | AuthFailure => true
  | _ => false
  end.

(** The verdicts after which the batch goes on. *)
Definition benign (v : verdict) : bool :=
  match v with
  | Success | Failure => true
  | _ => false
  end.

(** A computation that prints no line of the summary. *)
Definition quiet {A : Type} (m : io A) : Prop := filter is_summary (fst m) = [].

(** The text of the login error: the first of the three places that is
    present, or the fallback. *)
Definition login_error_text (page : soup) : string :=
  match div_loginerrormessage page with
  | Some t => t
  | None =>
      match div_loginerrors page with
      | Some t => t
      | None =>
          match div_alert_danger page with
          | Some t => t
          | None => "Unknown reason (check credentials/URL in config)"
          end
      end
  end.

(** The token the login form carries, when it carries a non-empty one. *)
Definition token_of (page : soup) : option string :=
  match logintoken_input page with
  | Some (Some v) => if PyStr.truthy v then Some v else None
  | _ => None
  end.

(** ** More vocabulary *)

(** [l1] is an initial part of [l2]. *)
Definition prefix_of {A : Type} (l1 l2 : list A) : Prop :=
  exists rest, l2 = l1 ++ rest.

Definition is_post (e : event) : bool :=
  match e with
  | EPost _ _ => true
  | _ => false
  end.

Definition is_close (e : event) : bool :=
  match e with
  | EClose => true
  | _ => false
  end.

(** The line that reports a successful visit (line 244). *)
Definition is_visited (e : event) : bool :=
  match e with
  | EPrint (MsgVisited _) => true
  | _ => false
  end.

(** The warning of the identifier file reader (line 159). *)
Definition is_skip_warning (e : event) : bool :=
  match e with
  | EPrint (MsgSkippingInvalid _ _) => true
  | _ => false
  end.

(** The verdicts on the answers to the requests for [quiz_ids], the first
    of them made in iteration [i]. *)
Fixpoint verdicts_from (cfg : config) (w : world) (i : nat) (quiz_ids : list Z)
  : list verdict :=
  match quiz_ids with
  | [] => []
  | quiz_id :: rest =>
      judge cfg (stats_page w i quiz_id) :: verdicts_from cfg w (S i) rest
  end.

Definition is_success (v : verdict) : bool :=
  match v with
  | Success => true
  | _ => false
  end.

Definition is_escape (v : verdict) : bool :=
  match v with
  | Escape _ => true
  | _ => false
  end.

(** A computation whose trace has no event of the kind [p]. *)
Definition avoids {A : Type} (p : event -> bool) (m : io A) : Prop :=
  filter p (fst m) = [].

(** A kind of event that no output line, GET request or pause belongs to. *)
Definition outside_batch (p : event -> bool) : Prop :=
  (forall m, p (EPrint m) = false)
  /\ (forall u, p (EGet u) = false)
  /\ (forall s, p (ESleep s) = false).

(** [k] copies of the character [c]. *)
Fixpoint run_of (c : ascii) (k : nat) : string :=
  match k with
  | O => EmptyString
  | S k' => String c (run_of c k')
  end.

(** [s] does not end with the character [c]. *)
Definition no_trailing (c : ascii) (s : string) : Prop :=
  forall t, s <> (t ++ String c EmptyString)%string.

(** [s] does not start with the character [c]. *)
Definition no_leading (c : ascii) (s : string) : Prop :=
  forall t, s <> String c t.

(** The ending of a run whose [finally] block returns, given the exception
    still pending after the handlers. *)
Definition ending_after (pending : option exn) : ending :=
  match pending with
  | None => Exited 0
  | Some (SystemExit code) => Exited code
  | Some e => Uncaught e
  end.

(** The last two events of a run that reaches the end of the [finally]
    block. *)
Definition farewell : list event := [EClose; EPrint MsgScriptFinished].

(** ** More worlds *)

Module MoreExamples.

(** The site cannot be reached. *)
Definition site_down : world :=
  {| login_page := Raised ConnectionError;
     login_submit := fun _ => Raised ConnectionError;
     cookie_names := [];
     quiz_file := Lines ["101"] false;
     stats_page := Examples.all_ok;
     sleep_raises := fun _ => None;
     max_str_digits := 4300 |}.

(** The login succeeds and there is no identifier file. *)
Definition no_file : world :=
  {| login_page := Returned Examples.login_form;
     login_submit := fun _ => Returned Examples.dashboard;
     cookie_names := ["MoodleSession"];
     quiz_file := NotAFile;
     stats_page := Examples.all_ok;
     sleep_raises := fun _ => None;
     max_str_digits := 4300 |}.

(** Every statistics request is answered with 404. *)
Definition all_missing : nat -> Z -> answer := fun _ _ => Returned Examples.not_found.

End MoreExamples.

(** ** The configuration stage (lines 12-139)

    What comes before the main [try] statement: the command line, the
    configuration file and the settings derived from them.  The calls into
    [os.path] and [configparser] are answered by a [config_source]; the
    checks, fallbacks and exits around them are the script's. *)

(** [args] after [parser.parse_args()] (lines 13-30). *)
Record args := {
  (** [args.quiz_file]: [None] unless [-q] is given *)
  quiz_file_arg : option string;
  (** [args.config]: ['config.ini'] unless [-C] is given *)
  config_arg : string
}.

(** What a call into the configuration library may raise. *)
Inductive cfg_exn :=
| ConfigparserError        (* configparser.Error: syntax, missing section or option, ... *)
| ConfigValueError         (* ValueError *)
| ConfigOtherException     (* any other Exception *)
| ConfigInterrupt.         (* KeyboardInterrupt: not an Exception *)

Inductive outcome (A : Type) : Type :=
| Value (a : A)
| Throws (e : cfg_exn).
Arguments Value {A} a.
Arguments Throws {A} e.

(** The answers of the file system and of the parser for one configuration
    file. *)
Record config_source := {
  (** [os.path.exists(config_file_path)] *)
  path_exists : bool;
  (** [config.read(config_file_path)]: [None] when it returns *)
  read_config : option cfg_exn;
  (** ['Moodle' in config] *)
  moodle_in_config : bool;
  (** [config.get('Moodle', 'base_url', fallback=None)] *)
  get_base_url : outcome (option string);
  (** [config.get('Moodle', 'username', fallback=None)] *)
  get_username : outcome (option string);
  (** [config.get('Moodle', 'password', fallback=None)] *)
  get_password : outcome (option string);
  (** [config.get('Paths', 'login_path')] *)
  get_login_path : outcome string;
  (** [config.get('Paths', 'post_login_check_path')] *)
  get_post_login_check_path : outcome string;
  (** [config.get('Paths', 'quiz_id_file_path')] *)
  get_quiz_id_file_path : outcome string;
  (** [config.getfloat('Settings', 'request_delay_seconds')] *)
  getfloat_request_delay : outcome Q;
  (** [config.getboolean('Settings', 'verify_ssl')] *)
  getboolean_verify_ssl : outcome bool
}.

(** The three settings checked by lines 75-77. *)
Inductive required := BaseUrl | Username | Password.

(** What is raised inside the [try] of lines 62-101. *)
Inductive raised :=
| FromLibrary (e : cfg_exn)
| MissingSetting (which : required).      (* the ValueError of lines 75-77 *)

(** One constructor per [print] of lines 34-138. *)
Inductive startup_message :=
| MsgUsingConfig (path : string)                              (* line 34 *)
| MsgConfigNotFound (path : string)                           (* lines 37-38 *)
| MsgMissingMoodleSection (path : string)                     (* line 67 *)
| MsgLoadedBaseUrl (base_url : string)                        (* line 79 *)
| MsgLoadedUsername (username : string)                       (* line 80 *)
| MsgLoginPath (p : string)                                   (* line 86 *)
| MsgPostLoginCheckPath (p : string)                          (* line 87 *)
| MsgQuizIdFilePath (p : string)                              (* line 88 *)
| MsgRequestDelay (seconds : Q)                               (* line 93 *)
| MsgInvalidRequestDelay (kept : Q)                           (* line 95 *)
| MsgSslVerification (verify : bool)                          (* line 99 *)
| MsgInvalidVerifySsl (kept : bool)                           (* line 101 *)
| MsgConfigParseError (path : string)                         (* line 104 *)
| MsgConfigurationError (path : string) (which : option required) (* line 107 *)
| MsgUnexpectedConfigError                                    (* line 110 *)
| MsgQuizFileFromCommandLine (p : string)                     (* line 118 *)
| MsgQuizFileFromConfig (p : string)                          (* line 121 *)
| MsgSslDisabled                                              (* line 135 *)
| MsgSslEnabled.                                              (* line 138 *)

Inductive startup_event :=
| SPrint (m : startup_message)
| SDisableWarnings.                       (* urllib3.disable_warnings, line 136 *)

(** Output, exceptions and [sys.exit] of the configuration stage. *)
Inductive bres (A : Type) : Type :=
| Done (a : A)
| Raising (e : raised)
| Exiting (status : Z).
Arguments Done {A} a.
Arguments Raising {A} e.
Arguments Exiting {A} status.

Definition boot (A : Type) : Type := (list startup_event * bres A)%type.

Definition boot_ret {A : Type} (a : A) : boot A := ([], Done a).

Definition boot_bind {A B : Type} (m : boot A) (k : A -> boot B) : boot B :=
  match m with
  | (t, Done a) => let (t', r) := k a in (t ++ t', r)
  | (t, Raising e) => (t, Raising e)
  | (t, Exiting status) => (t, Exiting status)
  end.

Notation "x <-- m ;;; k" := (boot_bind m (fun x => k))
  (at level 61, m at next level, right associativity).
Notation "m ;;; k" := (boot_bind m (fun _ => k))
  (at level 61, right associativity).

Definition say (m : startup_message) : boot unit := ([SPrint m], Done tt).
Definition throw {A : Type} (e : raised) : boot A := ([], Raising e).
Definition leave {A : Type} (status : Z) : boot A := ([], Exiting status).

Definition ask {A : Type} (o : outcome A) : boot A :=
  match o with
  | Value a => boot_ret a
  | Throws e => throw (FromLibrary e)
  end.

(** [try: m except ...: h] *)
Definition boot_try {A : Type} (m : boot A) (h : raised -> boot A) : boot A :=
  match m with
  | (t, Raising e) => let (t', r) := h e in (t ++ t', r)
  | other => other
  end.

(** The values loaded by lines 63-101. *)
Record settings := {
  loaded_base_url : string;
  loaded_username : string;
  loaded_password : string;
  loaded_login_path : string;
  loaded_post_login_check_path : string;
  loaded_quiz_id_file_path : string;
  loaded_request_delay : Q;
  loaded_verify_ssl : bool
}.

(** The body of the [try] of lines 62-101. *)
Definition load_settings (config_file_path : string) (src : config_source)
  : boot settings :=
  (match read_config src with
   | None => boot_ret tt
   | Some e => throw (FromLibrary e)
   end) ;;;
  (if moodle_in_config src then boot_ret tt
   else say (MsgMissingMoodleSection config_file_path) ;;; leave 1) ;;;
  moodle_base_url <-- ask (get_base_url src) ;;;
  moodle_username <-- ask (get_username src) ;;;
  moodle_password <-- ask (get_password src) ;;;
  base_url <--
    (match moodle_base_url with
     | Some b => if PyStr.truthy b then boot_ret b else throw (MissingSetting BaseUrl)
     | None => throw (MissingSetting BaseUrl)
     end) ;;;
  username <--
    (match moodle_username with
     | Some u => if PyStr.truthy u then boot_ret u else throw (MissingSetting Username)
     | None => throw (MissingSetting Username)
     end) ;;;
  password <--
    (match moodle_password with
     | Some p => boot_ret p
     | None => throw (MissingSetting Password)
     end) ;;;
  say (MsgLoadedBaseUrl base_url) ;;;
  say (MsgLoadedUsername username) ;;;
  login_path <-- ask (get_login_path src) ;;;
  post_login_check_path <-- ask (get_post_login_check_path src) ;;;
  quiz_id_file_path_from_config <-- ask (get_quiz_id_file_path src) ;;;
  say (MsgLoginPath login_path) ;;;
  say (MsgPostLoginCheckPath post_login_check_path) ;;;
  say (MsgQuizIdFilePath quiz_id_file_path_from_config) ;;;
  request_delay_seconds <--
    (match getfloat_request_delay src with
     | Value d => say (MsgRequestDelay d) ;;; boot_ret d
     | Throws ConfigValueError =>
         say (MsgInvalidRequestDelay default_request_delay_seconds) ;;;
         boot_ret default_request_delay_seconds
     | Throws e => throw (FromLibrary e)
     end) ;;;
  verify_ssl <--
    (match getboolean_verify_ssl src with
     | Value b => say (MsgSslVerification b) ;;; boot_ret b
     | Throws ConfigValueError => say (MsgInvalidVerifySsl false) ;;; boot_ret false
     | Throws e => throw (FromLibrary e)
     end) ;;;
  boot_ret {| loaded_base_url := base_url;
              loaded_username := username;
              loaded_password := password;
              loaded_login_path := login_path;
              loaded_post_login_check_path := post_login_check_path;
              loaded_quiz_id_file_path := quiz_id_file_path_from_config;
              loaded_request_delay := request_delay_seconds;
              loaded_verify_ssl := verify_ssl |}.

(** The [except] clauses of lines 103-111. *)
Definition config_handlers (config_file_path : string) (e : raised) : boot settings :=
  match e with
  | FromLibrary ConfigparserError =>
      say (MsgConfigParseError config_file_path) ;;; leave 1
  | FromLibrary ConfigValueError =>
      say (MsgConfigurationError config_file_path None) ;;; leave 1
  | MissingSetting which =>
      say (MsgConfigurationError config_file_path (Some which)) ;;; leave 1
  | FromLibrary ConfigOtherException =>
      say MsgUnexpectedConfigError ;;; leave 1
  | FromLibrary ConfigInterrupt => throw e
  end.

(** Lines 32-139: from the parsed command line to the settings of the main
    stage. *)
Definition startup (a : args) (src : config_source) : boot config :=
  let config_file_path := config_arg a in
  say (MsgUsingConfig config_file_path) ;;;
  (if path_exists src then boot_ret tt
   else say (MsgConfigNotFound config_file_path) ;;; leave 1) ;;;
  s <-- boot_try (load_settings config_file_path src) (config_handlers config_file_path) ;;;
  quiz_id_file_to_use <--
    (match quiz_file_arg a with
     | Some f =>
         if PyStr.truthy f then say (MsgQuizFileFromCommandLine f) ;;; boot_ret f
         else say (MsgQuizFileFromConfig (loaded_quiz_id_file_path s)) ;;;
              boot_ret (loaded_quiz_id_file_path s)
     | None =>
         say (MsgQuizFileFromConfig (loaded_quiz_id_file_path s)) ;;;
         boot_ret (loaded_quiz_id_file_path s)
     end) ;;;
  (if negb (loaded_verify_ssl s) then say MsgSslDisabled ;;; ([SDisableWarnings], Done tt)
   else say MsgSslEnabled) ;;;
  boot_ret {| cfg_base_url := loaded_base_url s;
              cfg_username := loaded_username s;
              cfg_password := loaded_password s;
              cfg_login_path := loaded_login_path s;
              quiz_id_file_to_use := quiz_id_file_to_use;
              request_delay_seconds := loaded_request_delay s;
              VERIFY_SSL := loaded_verify_ssl s |}.

(** The whole script: the configuration stage, then the main stage with the
    settings it produced.  An exception that leaves the configuration stage
    is an interrupt. *)
Definition script (a : args) (src : config_source) (w : world)
  : list startup_event * list event * ending :=
  match startup a src with
  | (t, Done cfg) => (t, fst (main cfg w), snd (main cfg w))
  | (t, Exiting status) => (t, [], Exited status)
  | (t, Raising _) => (t, [], Uncaught KeyboardInterrupt)
  end.

(** A configuration with which the configuration stage goes through. *)
Definition config_complete (src : config_source) : Prop :=
  path_exists src = true
  /\ read_config src = None
  /\ moodle_in_config src = true
  /\ (exists b, get_base_url src = Value (Some b) /\ PyStr.truthy b = true)
  /\ (exists u, get_username src = Value (Some u) /\ PyStr.truthy u = true)
  /\ (exists p, get_password src = Value (Some p))
  /\ (exists l, get_login_path src = Value l)
  /\ (exists c, get_post_login_check_path src = Value c)
  /\ (exists q, get_quiz_id_file_path src = Value q)
  /\ (getfloat_request_delay src = Throws ConfigValueError
      \/ exists d, getfloat_request_delay src = Value d)
  /\ (getboolean_verify_ssl src = Throws ConfigValueError
      \/ exists v, getboolean_verify_ssl src = Value v).

(** The settings the main stage gets from a complete configuration. *)
Definition settings_of (a : args) (src : config_source) : config :=
  {| cfg_base_url :=
       match get_base_url src with Value (Some b) => b | _ => EmptyString end;
     cfg_username :=
       match get_username src with Value (Some u) => u | _ => EmptyString end;
     cfg_password :=
       match get_password src with Value (Some p) => p | _ => EmptyString end;
     cfg_login_path :=
       match get_login_path src with Value l => l | _ => EmptyString end;
     quiz_id_file_to_use :=
       match quiz_file_arg a with
       | Some (String c f) => String c f
       | _ => match get_quiz_id_file_path src with Value q => q | _ => EmptyString end
       end;
     request_delay_seconds :=
       match getfloat_request_delay src with
       | Value d => d
       | _ => default_request_delay_seconds
       end;
     VERIFY_SSL :=
       match getboolean_verify_ssl src with
       | Value v => v
       | _ => false
       end |}.

Module StartupExamples.

(** A configuration file with every setting. *)
Definition full : config_source :=
  {| path_exists := true;
     read_config := None;
     moodle_in_config := true;
     get_base_url := Value (Some "https://example.org/");
     get_username := Value (Some "teacher");
     get_password := Value (Some "secret");
     get_login_path := Value "/login/index.php";
     get_post_login_check_path := Value "/my/";
     get_quiz_id_file_path := Value "quiz_ids.txt";
     getfloat_request_delay := Value (2 # 1)%Q;
     getboolean_verify_ssl := Value true |}.

(** An empty password, a delay that is no number and a flag that is no
    boolean. *)
Definition sloppy : config_source :=
  {| path_exists := true;
     read_config := None;
     moodle_in_config := true;
     get_base_url := Value (Some "https://example.org");
     get_username := Value (Some "teacher");
     get_password := Value (Some EmptyString);
     get_login_path := Value "/login/index.php";
     get_post_login_check_path := Value "/my/";
     get_quiz_id_file_path := Value "quiz_ids.txt";
     getfloat_request_delay := Throws ConfigValueError;
     getboolean_verify_ssl := Throws ConfigValueError |}.

(** No [username] in the [Moodle] section. *)
Definition no_username : config_source :=
  {| path_exists := true;
     read_config := None;
     moodle_in_config := true;
     get_base_url := Value (Some "https://example.org");
     get_username := Value None;
     get_password := Value (Some "secret");
     get_login_path := Value "/login/index.php";
     get_post_login_check_path := Value "/my/";
     get_quiz_id_file_path := Value "quiz_ids.txt";
     getfloat_request_delay := Value (1 # 2)%Q;
     getboolean_verify_ssl := Value false |}.

Definition plain_args : args := {| quiz_file_arg := None; config_arg := "config.ini" |}.

Definition args_with_file : args :=
  {| quiz_file_arg := Some "mine.txt"; config_arg := "config.ini" |}.

End StartupExamples.

(** ** Identifier files written in decimal *)

From Stdlib Require DecimalPos.

(** Every character of [s] satisfies [p]. *)
Fixpoint all_chars (p : ascii -> bool) (s : string) : bool :=
  match s with
  | EmptyString => true
  | String c s' => p c && all_chars p s'
  end.

(** The line [print(n, file=f)] writes for an integer: [str(n)] and a line
    feed. *)
Definition written_line (n : Z) : string :=
  (PyStr.str_of_int n ++ String (ascii_of_nat 10) EmptyString)%string.

(** The number of digits of [n] in base ten. *)
Definition digits_of (n : Z) : nat := String.length (PyStr.str_of_int (Z.abs n)).

(** ** Strings *)

Section Strings.

Lemma prefix_spec (a b : string) :
  String.prefix a b = true <-> exists post, b = (a ++ post)%string.
Proof.
  revert b; induction a as [|c a IH]; intros [|d b]; simpl.
  - split; [intros _; exists EmptyString; reflexivity | reflexivity].
  - split; [intros _; exists (String d b); reflexivity | reflexivity].
  - split; [discriminate | intros [post H]; discriminate].
  - destruct (ascii_dec c d) as [->|Hne].
    + rewrite IH. split; intros [post H]; exists post.
      * now rewrite H.
      * now inversion H.
    + split; [discriminate | intros [post H]; inversion H; subst; now contradiction Hne].
Qed.

Lemma contains_cons (needle : string) (c : ascii) (hay : string) :
  PyStr.contains needle (String c hay)
  = String.prefix needle (String c hay) || PyStr.contains needle hay.
Proof. reflexivity. Qed.

Lemma contains_spec (needle hay : string) :
  PyStr.contains needle hay = true <-> occurs_in needle hay.
Proof.
  induction hay as [|c hay IH].
  - change (PyStr.contains needle EmptyString)
      with (String.prefix needle EmptyString || false).
    rewrite orb_false_r, prefix_spec. split.
    + intros [post H]. exists EmptyString, post. exact H.
    + intros [pre [post H]]. destruct pre; [exists post; exact H | discriminate].
  - rewrite contains_cons, orb_true_iff, prefix_spec, IH. split.
    + intros [[post H] | [pre [post H]]].
      * exists EmptyString, post. exact H.
      * exists (String c pre), post. simpl. now rewrite H.
    + intros [pre [post H]]. destruct pre as [|d pre]; simpl in H.
      * left. exists post. exact H.
      * right. inversion H. exists pre, post. reflexivity.
Qed.

Lemma string_app_assoc (a b c : string) :
  ((a ++ b) ++ c = a ++ (b ++ c))%string.
Proof. induction a as [|x a IH]; simpl; [reflexivity | now rewrite IH]. Qed.

Lemma occurs_in_app_l (a b hay : string) :
  occurs_in (a ++ b)%string hay -> occurs_in b hay.
Proof.
  intros [pre [post H]]. exists (pre ++ a)%string, post.
  rewrite H. now rewrite !string_app_assoc.
Qed.

Lemma lstrip_trimmed (s : string) : trimmed_left (PyStr.lstrip s).
Proof.
  induction s as [|c s IH]; simpl; [exact I|].
  destruct (PyStr.isspace c) eqn:E; [exact IH | exact E].
Qed.

Lemma lstrip_id (s : string) : trimmed_left s -> PyStr.lstrip s = s.
Proof. destruct s as [|c s]; simpl; [reflexivity | now intros ->]. Qed.

Lemma rstrip_trimmed (s : string) : trimmed_left s -> trimmed_left (PyStr.rstrip s).
Proof.
  destruct s as [|c s]; simpl; [exact id|]. intros H.
  destruct (PyStr.rstrip s); [rewrite H|]; exact H.
Qed.

Lemma rstrip_idem (s : string) : PyStr.rstrip (PyStr.rstrip s) = PyStr.rstrip s.
Proof.
  induction s as [|c s IH]; simpl; [reflexivity|].
  destruct (PyStr.rstrip s) as [|d r] eqn:E.
  - destruct (PyStr.isspace c) eqn:Ec; simpl; [reflexivity | now rewrite Ec].
  - change (PyStr.rstrip (String c (String d r)))
      with (match PyStr.rstrip (String d r) with
            | EmptyString => if PyStr.isspace c then EmptyString else String c EmptyString
            | x => String c x
            end).
    now rewrite IH.
Qed.

Lemma strip_idem (s : string) : PyStr.strip (PyStr.strip s) = PyStr.strip s.
Proof.
  unfold PyStr.strip.
  rewrite (lstrip_id (PyStr.rstrip (PyStr.lstrip s))).
  - apply rstrip_idem.
  - apply rstrip_trimmed, lstrip_trimmed.
Qed.

Lemma int_strip (limit : nat) (s : string) :
  PyStr.int limit (PyStr.strip s) = PyStr.int limit s.
Proof. unfold PyStr.int. now rewrite strip_idem. Qed.

Lemma int_of_blank (limit : nat) (s : string) :
  PyStr.truthy (PyStr.strip s) = false -> PyStr.int limit s = None.
Proof.
  unfold PyStr.int. destruct (PyStr.strip s); [reflexivity | discriminate].
Qed.

Lemma int_of_comment (limit : nat) (s : string) :
  PyStr.startswith (PyStr.strip s) "#" = true -> PyStr.int limit s = None.
Proof.
  unfold PyStr.int, PyStr.startswith. rewrite prefix_spec.
  intros [post ->]. reflexivity.
Qed.

Lemma int_of_blank_or_comment (limit : nat) (s : string) :
  blank_or_comment s = true -> PyStr.int limit s = None.
Proof.
  unfold blank_or_comment. rewrite orb_true_iff, negb_true_iff.
  intros [H|H]; [now apply int_of_blank | now apply int_of_comment].
Qed.

End Strings.

(** ** The identifier file *)

Section Reader.

Variable w : world.

Lemma read_lines_spec (lines : list string) :
  forall (line_num : nat) (quiz_ids : list Z),
    read_lines w line_num lines quiz_ids
    = (warnings_from (max_str_digits w) line_num lines,
       quiz_ids ++ valid_ids (max_str_digits w) lines).
Proof.
  induction lines as [|line rest IH]; intros line_num quiz_ids.
  - simpl. now rewrite app_nil_r.
  - cbn [read_lines warnings_from valid_ids flat_map].
    fold (valid_ids (max_str_digits w) rest).
    change (negb (PyStr.truthy (PyStr.strip line))
            || PyStr.startswith (PyStr.strip line) "#")
      with (blank_or_comment line).
    destruct (blank_or_comment line) eqn:Eb.
    + rewrite (int_of_blank_or_comment _ _ Eb), IH. reflexivity.
    + rewrite int_strip.
      destruct (PyStr.int (max_str_digits w) line) as [quiz_id|].
      * rewrite IH, <- app_assoc. reflexivity.
      * rewrite IH. reflexivity.
Qed.

End Reader.

(** ** Properties of the identifier file reader *)

(** C4 (as amended): for every readable identifier file, the result is the
    sequence of the integer values of the lines that parse, in the order of
    the lines and with repetitions kept, so blank, comment and non-numeric
    lines contribute nothing; the output holds one warning for each line
    that is neither blank nor a comment and does not parse, and none for a
    blank or comment line. *)
Theorem C4_reader_keeps_valid_lines_in_order (w : world) (file_path : string)
  (lines : list string) :
  read_quiz_ids_from_file w file_path (Lines lines false)
  = (EPrint (MsgReadingFrom file_path)
       :: warnings_from (max_str_digits w) 1 lines
       ++ [EPrint (match valid_ids (max_str_digits w) lines with
                   | [] => MsgNoValidIds
                   | _ => MsgFoundValidIds (length (valid_ids (max_str_digits w) lines))
                   end)],
     Some (valid_ids (max_str_digits w) lines)).
Proof.
  unfold read_quiz_ids_from_file.
  rewrite read_lines_spec. reflexivity.
Qed.

(** C4, as stated, fails: a comment line and a blank line are skipped and
    no warning is recorded for either. *)
Lemma C4_blank_and_comment_skipped_silently :
  read_quiz_ids_from_file (Examples.logged_in [] Examples.all_ok) "quiz_ids.txt"
    (Lines ["# term 1"; EmptyString; "12"] false)
  = ([EPrint (MsgReadingFrom "quiz_ids.txt"); EPrint (MsgFoundValidIds 1)], Some [12]).
Proof. reflexivity. Qed.

Lemma int_not_blank_or_comment (limit : nat) (line : string) (z : Z) :
  PyStr.int limit (PyStr.strip line) = Some z -> blank_or_comment line = false.
Proof.
  rewrite int_strip. intros H.
  destruct (blank_or_comment line) eqn:E; [|reflexivity].
  rewrite (int_of_blank_or_comment limit line E) in H. discriminate.
Qed.

(** C10: a line whose stripped text parses as an integer is appended to the
    identifier sequence whatever its sign; zero, negative values and values
    written with an explicit sign are read like any other. *)
Theorem C10_reader_accepts_any_integer (w : world) :
  (forall (line_num : nat) (line : string) (rest : list string) (quiz_ids : list Z) (z : Z),
      PyStr.int (max_str_digits w) (PyStr.strip line) = Some z ->
      read_lines w line_num (line :: rest) quiz_ids
      = read_lines w (S line_num) rest (quiz_ids ++ [z]))
  /\ (forall file_path : string,
         read_quiz_ids_from_file w file_path (Lines ["0"; "-5"; "+7"; " -0 "] false)
         = ([EPrint (MsgReadingFrom file_path); EPrint (MsgFoundValidIds 4)],
            Some [0; -5; 7; 0])).
Proof.
  split.
  - intros line_num line rest quiz_ids z H.
    cbn [read_lines].
    change (negb (PyStr.truthy (PyStr.strip line))
            || PyStr.startswith (PyStr.strip line) "#")
      with (blank_or_comment line).
    rewrite (int_not_blank_or_comment _ _ _ H), H. reflexivity.
  - intros file_path. unfold read_quiz_ids_from_file.
    destruct (max_str_digits w) as [|limit] eqn:E.
    + cbn. rewrite E. reflexivity.
    + cbn. rewrite E. reflexivity.
Qed.

(** C10 at a negative identifier. *)
Lemma C10_negative_identifier_read :
  PyStr.int 4300 (PyStr.strip "  -5 ") = Some (-5)
  /\ read_lines (Examples.logged_in [] Examples.all_ok) 3 ["  -5 "; "9"] [101]
     = read_lines (Examples.logged_in [] Examples.all_ok) 4 ["9"] [101; -5].
Proof.
  split; [reflexivity|].
  apply (proj1 (C10_reader_accepts_any_integer (Examples.logged_in [] Examples.all_ok))
           3%nat "  -5 " ["9"] [101] (-5)).
  reflexivity.
Defined.

(** ** One item of the batch *)

Section Item.

Variable cfg : config.
Variable w : world.

Lemma visit_judge (n i : nat) (quiz_id : Z) (c : counters) :
  exists msgs : list message,
    visit cfg w n i quiz_id c
    = (EPrint (MsgVisiting quiz_id (i + 1) n (stats_url cfg quiz_id))
         :: EGet (stats_url cfg quiz_id) :: map EPrint msgs,
       fst (settle (judge cfg (stats_page w i quiz_id)) c),
       snd (settle (judge cfg (stats_page w i quiz_id)) c))
    /\ Forall (fun m => is_summary (EPrint m) = false) msgs
    /\ (expiring (judge cfg (stats_page w i quiz_id)) = false ->
        Forall (fun m => is_expiry_notice (EPrint m) = false) msgs).
Proof.
  assert (Hdone : forall (msgs : list message) (P Q : Prop),
             P -> Forall (fun m => is_summary (EPrint m) = false) msgs ->
             (Q -> Forall (fun m => is_expiry_notice (EPrint m) = false) msgs) ->
             P /\ Forall (fun m => is_summary (EPrint m) = false) msgs
             /\ (Q -> Forall (fun m => is_expiry_notice (EPrint m) = false) msgs)).
  { intros msgs P Q HP HS HQ. repeat split; assumption. }
  unfold visit, try_body, session_get, judge, auth_status.
  destruct (stats_page w i quiz_id) as [r|e].
  - unfold inspect_stats, raise_for_status.
    cbn [call bind emit ret fst snd app].
    destruct (PyStr.contains (LOGIN_URL cfg) (url r)
              || PyStr.contains (login_path cfg) (url r)).
    + exists [MsgSessionLikelyExpired quiz_id].
      apply Hdone; [reflexivity | repeat constructor | discriminate].
    + destruct ((400 <=? status_code r) && (status_code r <? 600)).
      * cbn. destruct ((status_code r =? 401) || (status_code r =? 403)).
        -- exists [MsgHTTPErrorFor quiz_id (status_code r) (reason r);
                   MsgAuthenticationError].
           apply Hdone; [reflexivity | repeat constructor | discriminate].
        -- exists [MsgHTTPErrorFor quiz_id (status_code r) (reason r)].
           apply Hdone; [reflexivity | repeat constructor | repeat constructor].
      * unfold BeautifulSoup.
        destruct (parsed r) as [page|]; cbn [bind ret raise fst snd app];
          [| exists [MsgUnexpectedErrorFor quiz_id];
             apply Hdone; [reflexivity | repeat constructor | repeat constructor]].
        destruct (title page) as [[s|]|].
        -- cbn [bind ret fst snd app print emit raise].
           match goal with
           | |- context [if ?b then _ else _] => destruct b
           end.
           ++ exists [MsgPotentialIssue quiz_id; MsgVisited quiz_id].
              apply Hdone; [reflexivity | repeat constructor | repeat constructor].
           ++ exists [MsgVisited quiz_id].
              apply Hdone; [reflexivity | repeat constructor | repeat constructor].
        -- exists [MsgUnexpectedErrorFor quiz_id].
           apply Hdone; [reflexivity | repeat constructor | repeat constructor].
        -- cbn [bind ret fst snd app print emit raise].
           match goal with
           | |- context [if ?b then _ else _] => destruct b
           end.
           ++ exists [MsgPotentialIssue quiz_id; MsgVisited quiz_id].
              apply Hdone; [reflexivity | repeat constructor | repeat constructor].
           ++ exists [MsgVisited quiz_id].
              apply Hdone; [reflexivity | repeat constructor | repeat constructor].
  - destruct e as [| | | |r|r| | | | | | | |]; cbn;
      try (eexists [_]; apply Hdone; [reflexivity | repeat constructor | repeat constructor]);
      try (exists []; apply Hdone; [reflexivity | constructor | constructor]).
    destruct ((status_code r =? 401) || (status_code r =? 403)).
    + exists [MsgHTTPErrorFor quiz_id (status_code r) (reason r); MsgAuthenticationError].
      apply Hdone; [reflexivity | repeat constructor | discriminate].
    + exists [MsgHTTPErrorFor quiz_id (status_code r) (reason r)].
      apply Hdone; [reflexivity | repeat constructor | repeat constructor].
Qed.

Lemma filter_prints (p : event -> bool) (msgs : list message) :
  (forall m, p (EPrint m) = false) -> filter p (map EPrint msgs) = [].
Proof.
  intros H. induction msgs as [|m msgs IH]; cbn [map filter]; [reflexivity|].
  now rewrite H.
Qed.

Lemma filter_quiet_prints (msgs : list message) :
  Forall (fun m => is_summary (EPrint m) = false) msgs ->
  filter is_summary (map EPrint msgs) = [].
Proof.
  induction 1 as [|m msgs Hm _ IH]; cbn [map filter]; [reflexivity|].
  now rewrite Hm.
Qed.

(** The observable part of one item: one request, no pause, no summary
    line; the counters move as the verdict says. *)
Lemma visit_facts (n i : nat) (quiz_id : Z) (c : counters) :
  filter is_effect (trace_of (visit cfg w n i quiz_id c)) = [EGet (stats_url cfg quiz_id)]
  /\ filter is_request (trace_of (visit cfg w n i quiz_id c)) = [EGet (stats_url cfg quiz_id)]
  /\ filter is_summary (trace_of (visit cfg w n i quiz_id c)) = []
  /\ counters_of (visit cfg w n i quiz_id c)
     = fst (settle (judge cfg (stats_page w i quiz_id)) c)
  /\ result_of (visit cfg w n i quiz_id c)
     = snd (settle (judge cfg (stats_page w i quiz_id)) c).
Proof.
  destruct (visit_judge n i quiz_id c) as (msgs & -> & Hq & _).
  unfold trace_of, counters_of, result_of. cbn [fst snd filter is_effect is_request is_sleep is_summary orb].
  rewrite !filter_prints by reflexivity.
  rewrite (filter_quiet_prints _ Hq). repeat split; reflexivity.
Qed.

End Item.

(** ** The batch loop *)

Section Loop.

Variable cfg : config.
Variable w : world.

Lemma for_loop_expired (n i : nat) (rest : list Z) (c : counters) :
  session_expired c = true ->
  for_loop cfg w n i rest c
  = match rest with
    | [] => ([], c, Ret tt)
    | _ :: _ =>
        ([EPrint MsgSkippingRemaining], set_failure (Z.of_nat n - Z.of_nat i) c, Ret tt)
    end.
Proof. intros H. destruct rest; cbn [for_loop]; [reflexivity | now rewrite H]. Qed.


Lemma for_loop_cons (n i : nat) (quiz_id : Z) (rest : list Z) (c : counters) :
  session_expired c = false ->
  for_loop cfg w n i (quiz_id :: rest) c
  = let V := visit cfg w n i quiz_id c in
    match result_of V with
    | Exc e => (trace_of V, counters_of V, Exc e)
    | Ret Continue =>
        let R := for_loop cfg w n (S i) rest (counters_of V) in
        (trace_of V ++ trace_of R, counters_of R, result_of R)
    | Ret Fallthrough =>
        match pause cfg w n i with
        | (tp, Exc e) => (trace_of V ++ tp, counters_of V, Exc e)
        | (tp, Ret _) =>
            let R := for_loop cfg w n (S i) rest (counters_of V) in
            (trace_of V ++ tp ++ trace_of R, counters_of R, result_of R)
        end
    end.
Proof.
  intros Hc. cbn [for_loop]. rewrite Hc.
  destruct (visit cfg w n i quiz_id c) as [[t c'] [[]|e]];
    unfold trace_of, counters_of, result_of; cbn [fst snd].
  - destruct (pause cfg w n i) as [tp [[]|e]]; [|reflexivity].
    destruct (for_loop cfg w n (S i) rest c') as [[t' c''] r]. reflexivity.
  - destruct (for_loop cfg w n (S i) rest c') as [[t' c''] r]. reflexivity.
  - reflexivity.
Qed.

(** C7: when the request of an item fails with a Timeout, an HTTPError or
    another network error of the HTTP library (the call raises it, or the
    answer is not the login page and carries an error status, which
    [raise_for_status] turns into an HTTPError), the error does not leave
    the item: control reaches the pause of line 254 and, when the pause
    returns, the next iteration; the success count is unchanged and the
    failure count is one more; the expiry flag is set exactly when it was
    set before or the error is an HTTPError with status 401 or 403, and once
    it is set the rest of the loop issues no request. *)
Theorem C7_request_errors_counted_failed
  (n i : nat) (quiz_id : Z) (c : counters) (e : exn) :
  (stats_page w i quiz_id = Raised e /\ is_RequestException e = true)
  \/ (exists r : response,
         stats_page w i quiz_id = Returned r
         /\ PyStr.contains (LOGIN_URL cfg) (url r)
            || PyStr.contains (login_path cfg) (url r) = false
         /\ (400 <=? status_code r) && (status_code r <? 600) = true
         /\ e = HTTPError r) ->
  let auth := match e with
              | HTTPError r => (status_code r =? 401) || (status_code r =? 403)
              | _ => false
              end in
  let V := visit cfg w n i quiz_id c in
  result_of V = Ret Fallthrough
  /\ success_count (counters_of V) = success_count c
  /\ failure_count (counters_of V) = failure_count c + 1
  /\ session_expired (counters_of V) = session_expired c || auth
  /\ (forall rest : list Z,
        session_expired c = false ->
        for_loop cfg w n i (quiz_id :: rest) c
        = match pause cfg w n i with
          | (tp, Exc e') => (trace_of V ++ tp, counters_of V, Exc e')
          | (tp, Ret _) =>
              let R := for_loop cfg w n (S i) rest (counters_of V) in
              (trace_of V ++ tp ++ trace_of R, counters_of R, result_of R)
          end)
  /\ (auth = true ->
      forall rest : list Z,
        filter is_request (trace_of (for_loop cfg w n (S i) rest (counters_of V))) = []).
Proof.
  intros Hfail auth V.
  assert (Hraise : snd (try_body cfg w i quiz_id c) = Exc e
                   /\ is_RequestException e = true).
  { unfold try_body, session_get.
    destruct Hfail as [[Ha He] | (r & Ha & Hu & Hs & ->)]; rewrite Ha;
      cbn [call bind emit ret raise fst snd app].
    - split; [reflexivity | exact He].
    - unfold inspect_stats, raise_for_status. rewrite Hu, Hs.
      split; reflexivity. }
  destruct Hraise as [Hraise Hreq].
  assert (HV : result_of V = Ret Fallthrough
               /\ counters_of V = if auth then set_expired (incr_failure c)
                                  else incr_failure c).
  { subst V auth. unfold visit.
    destruct (try_body cfg w i quiz_id c) as [t r]. cbn [snd] in Hraise. subst r.
    unfold result_of, counters_of.
    destruct e; try discriminate Hreq; cbn; try (split; reflexivity).
    destruct ((status_code r =? 401) || (status_code r =? 403)); split; reflexivity. }
  destruct HV as [Hres Hcnt].
  split; [exact Hres|].
  split; [rewrite Hcnt; destruct auth; reflexivity|].
  split; [rewrite Hcnt; destruct auth; reflexivity|].
  split.
  { rewrite Hcnt. destruct auth; cbn [set_expired incr_failure session_expired].
    - now rewrite orb_true_r.
    - now rewrite orb_false_r. }
  split.
  - intros rest Hc. rewrite (for_loop_cons n i quiz_id rest c Hc).
    cbv zeta. fold V. rewrite Hres. reflexivity.
  - intros Hauth rest.
    rewrite for_loop_expired by (rewrite Hcnt, Hauth; reflexivity).
    destruct rest; reflexivity.
Qed.

Lemma filter_filter_weaker {A : Type} (p q : A -> bool) (l : list A) :
  (forall x, p x = true -> q x = true) ->
  filter p (filter q l) = filter p l.
Proof.
  intros H. induction l as [|x l IH]; cbn [filter]; [reflexivity|].
  destruct (q x) eqn:Eq; cbn [filter].
  - now rewrite IH.
  - destruct (p x) eqn:Ep; [|exact IH].
    rewrite (H x Ep) in Eq. discriminate.
Qed.

Lemma sleeps_of_paced (d : Q) (urls : list string) :
  filter is_sleep (paced d urls) = repeat (ESleep d) (length urls - 1).
Proof.
  induction urls as [|u urls IH]; [reflexivity|].
  cbn [paced filter is_sleep].
  destruct urls as [|u' urls]; [reflexivity|].
  cbn [filter is_sleep]. rewrite IH. cbn [length].
  replace (S (S (length urls)) - 1)%nat with (S (S (length urls) - 1)) by lia.
  reflexivity.
Qed.

Lemma requests_of_paced (d : Q) (urls : list string) :
  filter is_request (paced d urls) = map EGet urls.
Proof.
  induction urls as [|u urls IH]; [reflexivity|].
  cbn [paced filter is_request map]. f_equal.
  destruct urls as [|u' urls]; [reflexivity|].
  cbn [filter is_request]. exact IH.
Qed.

Lemma pause_last (n i : nat) :
  n = S i -> pause cfg w n i = ([], Ret tt).
Proof.
  intros ->. unfold pause.
  replace (Z.of_nat i <? Z.of_nat (S i) - 1) with false; [reflexivity|].
  symmetry. apply Z.ltb_ge. lia.
Qed.

Lemma pause_between (n i : nat) :
  (S i < n)%nat -> sleep_raises w i = None ->
  pause cfg w n i = ([ESleep (request_delay_seconds cfg)], Ret tt).
Proof.
  intros Hlt Hs. unfold pause.
  replace (Z.of_nat i <? Z.of_nat n - 1) with true.
  - now rewrite Hs.
  - symmetry. apply Z.ltb_lt. lia.
Qed.

Lemma settle_benign (v : verdict) (c : counters) :
  benign v = true ->
  snd (settle v c) = Ret Fallthrough
  /\ session_expired (fst (settle v c)) = session_expired c
  /\ success_count (fst (settle v c)) + failure_count (fst (settle v c))
     = success_count c + failure_count c + 1
  /\ success_count c <= success_count (fst (settle v c)) <= success_count c + 1
  /\ failure_count c <= failure_count (fst (settle v c)).
Proof.
  destruct v; try discriminate; intros _; cbn; repeat split; lia.
Qed.

(** A run in which every answer is benign and every pause returns: the
    requests and pauses alternate, and every identifier is counted once. *)
Lemma benign_run (n : nat) (rest : list Z) :
  forall (i : nat) (c : counters),
    session_expired c = false ->
    n = (i + length rest)%nat ->
    (forall j q, nth_error rest j = Some q ->
                 benign (judge cfg (stats_page w (i + j) q)) = true) ->
    (forall j, (S (i + j) < n)%nat -> sleep_raises w (i + j) = None) ->
    filter is_effect (trace_of (for_loop cfg w n i rest c))
    = paced (request_delay_seconds cfg) (map (stats_url cfg) rest)
    /\ filter is_summary (trace_of (for_loop cfg w n i rest c)) = []
    /\ result_of (for_loop cfg w n i rest c) = Ret tt
    /\ session_expired (counters_of (for_loop cfg w n i rest c)) = false
    /\ success_count (counters_of (for_loop cfg w n i rest c))
       + failure_count (counters_of (for_loop cfg w n i rest c))
       = success_count c + failure_count c + Z.of_nat (length rest).
Proof.
  induction rest as [|q rest IH]; intros i c Hc Hn Hb Hs.
  - cbn. repeat split; try reflexivity; try assumption. lia.
  - rewrite (for_loop_cons n i q rest c Hc). cbv zeta.
    destruct (visit_facts cfg w n i q c) as (He & _ & Hsum & Hcnt & Hres).
    assert (Hq : benign (judge cfg (stats_page w i q)) = true).
    { specialize (Hb 0%nat q eq_refl). now rewrite Nat.add_0_r in Hb. }
    destruct (settle_benign _ c Hq) as (S1 & S2 & S3 & _).
    rewrite Hres, S1.
    set (c' := counters_of (visit cfg w n i q c)) in *.
    assert (Hc' : session_expired c' = false) by (rewrite Hcnt, S2; exact Hc).
    assert (Hn' : n = (S i + length rest)%nat) by (cbn [length] in Hn; lia).
    assert (Hb' : forall j q0, nth_error rest j = Some q0 ->
                    benign (judge cfg (stats_page w (S i + j) q0)) = true).
    { intros j q0 Hj. specialize (Hb (S j) q0 Hj).
      now replace (i + S j)%nat with (S i + j)%nat in Hb by lia. }
    assert (Hs' : forall j, (S (S i + j) < n)%nat -> sleep_raises w (S i + j) = None).
    { intros j Hj. specialize (Hs (S j)).
      replace (i + S j)%nat with (S i + j)%nat in Hs by lia. apply Hs. exact Hj. }
    destruct (IH (S i) c' Hc' Hn' Hb' Hs') as (I1 & I2 & I3 & I4 & I5).
    destruct rest as [|q' rest].
    + rewrite pause_last by (cbn [length] in Hn; lia).
      unfold trace_of, counters_of, result_of in *. cbn [fst snd for_loop app] in *.
      rewrite app_nil_r, He, Hsum. repeat split; try reflexivity; try assumption.
      rewrite Hcnt. cbn [length]. lia.
    + rewrite pause_between.
      2:{ cbn [length] in Hn. lia. }
      2:{ specialize (Hs 0%nat). rewrite Nat.add_0_r in Hs. apply Hs.
          cbn [length] in Hn. lia. }
      unfold trace_of, counters_of, result_of in *. cbn [fst snd] in *.
      rewrite !filter_app, He, Hsum, I1, I2.
      repeat split; try reflexivity; try assumption.
      rewrite I5, Hcnt. cbn [length] in *. lia.
Qed.

(** C8: in a run over N identifiers in which no answer signals expiry, no
    exception leaves the loop and every pause returns, the requests and the
    pauses alternate, one pause of the configured length after every request
    but the last: N requests and N-1 pauses. *)
Theorem C8_pause_after_all_but_last (quiz_ids : list Z) :
  (forall i q, nth_error quiz_ids i = Some q ->
               benign (judge cfg (stats_page w i q)) = true) ->
  (forall i, (S i < length quiz_ids)%nat -> sleep_raises w i = None) ->
  let R := stage4_batch cfg w quiz_ids in
  filter is_effect (trace_of R)
  = paced (request_delay_seconds cfg) (map (stats_url cfg) quiz_ids)
  /\ filter is_sleep (trace_of R)
     = repeat (ESleep (request_delay_seconds cfg)) (length quiz_ids - 1)
  /\ filter is_request (trace_of R) = map EGet (map (stats_url cfg) quiz_ids)
  /\ result_of R = Ret tt.
Proof.
  intros Hb Hs R.
  destruct (benign_run (length quiz_ids) quiz_ids 0 initial_counters
              eq_refl eq_refl Hb Hs) as (H1 & _ & H3 & _).
  assert (HR : trace_of R
               = EPrint (MsgProcessing (length quiz_ids))
                   :: trace_of (for_loop cfg w (length quiz_ids) 0 quiz_ids initial_counters)
               /\ result_of R
                  = result_of (for_loop cfg w (length quiz_ids) 0 quiz_ids initial_counters)).
  { subst R. unfold stage4_batch.
    destruct (for_loop cfg w (length quiz_ids) 0 quiz_ids initial_counters) as [[t c] r].
    split; reflexivity. }
  destruct HR as [Ht Hr].
  assert (He : filter is_effect (trace_of R)
               = paced (request_delay_seconds cfg) (map (stats_url cfg) quiz_ids)).
  { rewrite Ht. cbn [filter is_effect is_request is_sleep orb]. exact H1. }
  split; [exact He|].
  split.
  { rewrite <- (filter_filter_weaker is_sleep is_effect) by
      (intros x Hx; unfold is_effect; rewrite Hx; apply orb_true_r).
    rewrite He, sleeps_of_paced. now rewrite length_map. }
  split.
  { rewrite <- (filter_filter_weaker is_request is_effect) by
      (intros x Hx; unfold is_effect; now rewrite Hx).
    rewrite He. apply requests_of_paced. }
  rewrite Hr. exact H3.
Qed.

(** The part of a run before the first answer that is not benign. *)
Lemma benign_prefix (n : nat) (pre : list Z) :
  forall (i : nat) (c : counters) (rest : list Z),
    session_expired c = false ->
    (i + length pre < n)%nat ->
    (forall j q, nth_error pre j = Some q ->
                 benign (judge cfg (stats_page w (i + j) q)) = true) ->
    (forall j, (j < length pre)%nat -> sleep_raises w (i + j) = None) ->
    exists (t1 : list event) (c1 : counters),
      for_loop cfg w n i (pre ++ rest) c
      = (t1 ++ trace_of (for_loop cfg w n (i + length pre) rest c1),
         counters_of (for_loop cfg w n (i + length pre) rest c1),
         result_of (for_loop cfg w n (i + length pre) rest c1))
      /\ filter is_request t1 = map EGet (map (stats_url cfg) pre)
      /\ filter is_summary t1 = []
      /\ session_expired c1 = false
      /\ success_count c1 + failure_count c1
         = success_count c + failure_count c + Z.of_nat (length pre)
      /\ success_count c <= success_count c1
      /\ failure_count c <= failure_count c1.
Proof.
  induction pre as [|q pre IH]; intros i c rest Hc Hlt Hb Hs.
  - exists [], c. cbn [app length]. rewrite Nat.add_0_r.
    destruct (for_loop cfg w n i rest c) as [[t c'] r].
    unfold trace_of, counters_of, result_of. cbn.
    repeat split; try reflexivity; try assumption; lia.
  - cbn [app]. rewrite (for_loop_cons n i q (pre ++ rest) c Hc). cbv zeta.
    destruct (visit_facts cfg w n i q c) as (_ & Hreq & Hsum & Hcnt & Hres).
    assert (Hq : benign (judge cfg (stats_page w i q)) = true).
    { specialize (Hb 0%nat q eq_refl). now rewrite Nat.add_0_r in Hb. }
    destruct (settle_benign _ c Hq) as (S1 & S2 & S3 & S4 & S5).
    rewrite Hres, S1.
    rewrite pause_between.
    2:{ cbn [length] in Hlt. lia. }
    2:{ specialize (Hs 0%nat). rewrite Nat.add_0_r in Hs. apply Hs. cbn [length]. lia. }
    set (c' := counters_of (visit cfg w n i q c)) in *.
    assert (Hc' : session_expired c' = false) by (rewrite Hcnt, S2; exact Hc).
    destruct (IH (S i) c' rest Hc') as (t1 & c1 & E & R1 & R2 & R3 & R4 & R5 & R6).
    { cbn [length] in Hlt. lia. }
    { intros j q0 Hj. specialize (Hb (S j) q0 Hj).
      now replace (i + S j)%nat with (S i + j)%nat in Hb by lia. }
    { intros j Hj. specialize (Hs (S j)).
      replace (i + S j)%nat with (S i + j)%nat in Hs by lia. apply Hs.
      cbn [length]. lia. }
    exists (trace_of (visit cfg w n i q c) ++ [ESleep (request_delay_seconds cfg)] ++ t1), c1.
    rewrite E. unfold trace_of at 2, counters_of at 1, result_of at 1. cbn [fst snd].
    replace (i + length (q :: pre))%nat with (S i + length pre)%nat by (cbn [length]; lia).
    split; [now rewrite <- !app_assoc|].
    rewrite !filter_app, Hreq, Hsum, R1, R2. cbn [filter is_request is_summary app map].
    rewrite Hcnt in *. cbn [length].
    repeat split; try reflexivity; try assumption; lia.
Qed.

(** Expiry detected on the request for [q], after [pre] and before a
    non-empty [suf]: the requests are those for [pre] and [q], and the loop
    ends with the failure count set to the number of identifiers in [suf]. *)
Lemma expiry_run (pre : list Z) (q : Z) (suf : list Z) :
  let quiz_ids := pre ++ q :: suf in
  let R := for_loop cfg w (length quiz_ids) 0 quiz_ids initial_counters in
  suf <> [] ->
  (forall i q', nth_error pre i = Some q' ->
                benign (judge cfg (stats_page w i q')) = true) ->
  expiring (judge cfg (stats_page w (length pre) q)) = true ->
  (forall i, (i <= length pre)%nat -> sleep_raises w i = None) ->
  filter is_request (trace_of R) = map EGet (map (stats_url cfg) (pre ++ [q]))
  /\ result_of R = Ret tt
  /\ 0 <= success_count (counters_of R) <= Z.of_nat (length pre)
  /\ failure_count (counters_of R) = Z.of_nat (length suf).
Proof.
  intros quiz_ids R Hsuf Hb He Hs.
  assert (Hlen : length quiz_ids = (length pre + S (length suf))%nat).
  { subst quiz_ids. now rewrite length_app. }
  destruct (benign_prefix (length quiz_ids) pre 0 initial_counters (q :: suf) eq_refl)
    as (t1 & c1 & E & R1 & _ & R3 & R4 & R5 & R6).
  { lia. }
  { exact Hb. }
  { intros j Hj. apply Hs. cbn. lia. }
  cbn [Nat.add] in E.
  destruct (visit_facts cfg w (length quiz_ids) (length pre) q c1)
    as (_ & Hreq & _ & Hcnt & Hres).
  assert (HV : session_expired (counters_of (visit cfg w (length quiz_ids) (length pre) q c1))
               = true
               /\ success_count (counters_of (visit cfg w (length quiz_ids) (length pre) q c1))
                  = success_count c1
               /\ (result_of (visit cfg w (length quiz_ids) (length pre) q c1) = Ret Continue
                   \/ result_of (visit cfg w (length quiz_ids) (length pre) q c1)
                      = Ret Fallthrough)).
  { rewrite Hcnt, Hres.
    destruct (judge cfg (stats_page w (length pre) q)); try discriminate He; cbn; auto. }
  destruct HV as (Hflag & Hsucc & Hctl).
  assert (Hrest : for_loop cfg w (length quiz_ids) (S (length pre)) suf
                    (counters_of (visit cfg w (length quiz_ids) (length pre) q c1))
                  = ([EPrint MsgSkippingRemaining],
                     set_failure (Z.of_nat (length quiz_ids) - Z.of_nat (S (length pre)))
                       (counters_of (visit cfg w (length quiz_ids) (length pre) q c1)),
                     Ret tt)).
  { rewrite (for_loop_expired _ _ _ _ Hflag).
    destruct suf; [now contradiction Hsuf | reflexivity]. }
  assert (Hpause : pause cfg w (length quiz_ids) (length pre)
                   = ([ESleep (request_delay_seconds cfg)], Ret tt)).
  { apply pause_between; [|apply Hs; lia].
    rewrite Hlen. destruct suf; [now contradiction Hsuf | cbn [length]; lia]. }
  cbn [initial_counters success_count failure_count] in R4, R5, R6.
  subst R. fold quiz_ids in E. rewrite E.
  rewrite (for_loop_cons _ _ q suf c1 R3). cbv zeta.
  destruct Hctl as [Hk|Hk]; rewrite Hk, ?Hpause, Hrest;
    unfold trace_of, counters_of, result_of in *; cbn [fst snd] in *;
    rewrite !filter_app, R1, Hreq; cbn [filter is_request app];
    cbn [set_failure success_count failure_count];
    rewrite Hsucc, !map_app;
    repeat split; try reflexivity; try lia.
Qed.

(** Expiry detected on the k-th request, with identifiers left after it:
    exactly the first k requests are issued, the loop ends normally, and at
    most k-1 visits are counted as successful. *)
Theorem expiry_stops_requests (pre : list Z) (q : Z) (suf : list Z) :
  let quiz_ids := pre ++ q :: suf in
  let R := for_loop cfg w (length quiz_ids) 0 quiz_ids initial_counters in
  suf <> [] ->
  (forall i q', nth_error pre i = Some q' ->
                benign (judge cfg (stats_page w i q')) = true) ->
  expiring (judge cfg (stats_page w (length pre) q)) = true ->
  (forall i, (i <= length pre)%nat -> sleep_raises w i = None) ->
  filter is_request (trace_of R) = map EGet (map (stats_url cfg) (pre ++ [q]))
  /\ result_of R = Ret tt
  /\ 0 <= success_count (counters_of R) <= Z.of_nat (length pre).
Proof.
  intros quiz_ids R Hsuf Hb He Hs.
  destruct (expiry_run pre q suf Hsuf Hb He Hs) as (H1 & H2 & H3 & _).
  repeat split; try assumption; apply H3.
Qed.

Lemma filter_quiet_notices (msgs : list message) :
  Forall (fun m => is_expiry_notice (EPrint m) = false) msgs ->
  filter is_expiry_notice (map EPrint msgs) = [].
Proof.
  induction 1 as [|m msgs Hm _ IH]; cbn [map filter]; [reflexivity|].
  now rewrite Hm.
Qed.

(** Every trace of the loop is a part without expiry notice followed by a
    part without request. *)
Lemma for_loop_notice_split (n : nat) (rest : list Z) :
  forall (i : nat) (c : counters),
  exists a b : list event,
    trace_of (for_loop cfg w n i rest c) = a ++ b
    /\ filter is_expiry_notice a = []
    /\ filter is_request b = [].
Proof.
  induction rest as [|q rest IH]; intros i c.
  - exists [], []. repeat split; reflexivity.
  - destruct (session_expired c) eqn:Hc.
    + rewrite (for_loop_expired n i (q :: rest) c Hc).
      exists [], [EPrint MsgSkippingRemaining]. repeat split; reflexivity.
    + rewrite (for_loop_cons n i q rest c Hc). cbv zeta.
      destruct (visit_judge cfg w n i q c) as (msgs & HV & _ & Hnot).
      rewrite HV. unfold result_of, counters_of, trace_of in *.
      cbn [fst snd].
      assert (Hp : exists tp r, pause cfg w n i = (tp, r)
                                /\ filter is_request tp = []
                                /\ filter is_expiry_notice tp = []).
      { unfold pause. destruct (Z.of_nat i <? Z.of_nat n - 1).
        - destruct (sleep_raises w i).
          + exists [], (Exc e). repeat split; reflexivity.
          + exists [ESleep (request_delay_seconds cfg)], (Ret tt). repeat split; reflexivity.
        - exists [], (Ret tt). repeat split; reflexivity. }
      destruct Hp as (tp & rp & Ep & Hp1 & Hp2). rewrite Ep.
      destruct (judge cfg (stats_page w i q)) eqn:Ej; cbn [settle fst snd].
      * (* Success *)
        destruct (IH (S i) (incr_success c)) as (a & b & E & Ha & Hb).
        specialize (Hnot eq_refl).
        destruct rp as [[]|e].
        -- exists (EPrint (MsgVisiting q (i + 1) n (stats_url cfg q))
                     :: EGet (stats_url cfg q) :: map EPrint msgs ++ tp ++ a), b.
           cbn [fst]. rewrite E.
           split; [cbn [app]; now rewrite <- !app_assoc|].
           split; [|exact Hb].
           cbn [filter is_expiry_notice].
           now rewrite !filter_app, (filter_quiet_notices _ Hnot), Hp2, Ha.
        -- exists (EPrint (MsgVisiting q (i + 1) n (stats_url cfg q))
                     :: EGet (stats_url cfg q) :: map EPrint msgs ++ tp), [].
           cbn [fst].
           split; [now rewrite app_nil_r|].
           split; [|reflexivity].
           cbn [filter is_expiry_notice].
           now rewrite !filter_app, (filter_quiet_notices _ Hnot), Hp2.
      * (* Redirect *)
        rewrite (for_loop_expired n (S i) rest (set_expired (incr_failure c)) eq_refl).
        exists [EPrint (MsgVisiting q (i + 1) n (stats_url cfg q)); EGet (stats_url cfg q)],
          (map EPrint msgs
             ++ match rest with [] => [] | _ :: _ => [EPrint MsgSkippingRemaining] end).
        destruct rest; cbn [fst];
          (split; [reflexivity|]); (split; [reflexivity|]);
          rewrite filter_app, filter_prints by reflexivity; reflexivity.
      * (* Failure *)
        destruct (IH (S i) (incr_failure c)) as (a & b & E & Ha & Hb).
        specialize (Hnot eq_refl).
        destruct rp as [[]|e].
        -- exists (EPrint (MsgVisiting q (i + 1) n (stats_url cfg q))
                     :: EGet (stats_url cfg q) :: map EPrint msgs ++ tp ++ a), b.
           cbn [fst]. rewrite E.
           split; [cbn [app]; now rewrite <- !app_assoc|].
           split; [|exact Hb].
           cbn [filter is_expiry_notice].
           now rewrite !filter_app, (filter_quiet_notices _ Hnot), Hp2, Ha.
        -- exists (EPrint (MsgVisiting q (i + 1) n (stats_url cfg q))
                     :: EGet (stats_url cfg q) :: map EPrint msgs ++ tp), [].
           cbn [fst].
           split; [now rewrite app_nil_r|].
           split; [|reflexivity].
           cbn [filter is_expiry_notice].
           now rewrite !filter_app, (filter_quiet_notices _ Hnot), Hp2.
      * (* AuthFailure *)
        exists [EPrint (MsgVisiting q (i + 1) n (stats_url cfg q)); EGet (stats_url cfg q)].
        destruct rp as [[]|e].
        -- rewrite (for_loop_expired n (S i) rest (set_expired (incr_failure c)) eq_refl).
           exists (map EPrint msgs ++ tp
                     ++ match rest with [] => [] | _ :: _ => [EPrint MsgSkippingRemaining] end).
           destruct rest; cbn [fst];
             (split; [reflexivity|]); (split; [reflexivity|]);
             rewrite !filter_app, filter_prints, Hp1 by reflexivity; reflexivity.
        -- exists (map EPrint msgs ++ tp).
           cbn [fst].
           split; [reflexivity|]. split; [reflexivity|].
           rewrite !filter_app, filter_prints, Hp1 by reflexivity; reflexivity.
      * (* Escape *)
        specialize (Hnot eq_refl).
        exists (EPrint (MsgVisiting q (i + 1) n (stats_url cfg q))
                  :: EGet (stats_url cfg q) :: map EPrint msgs), [].
        cbn [fst].
        split; [now rewrite app_nil_r|].
        split; [|reflexivity].
        cbn [filter is_expiry_notice]. apply (filter_quiet_notices _ Hnot).
Qed.

Lemma split_after_marked {A : Type} (p : A -> bool) (a : list A) :
  forall (b t1 t2 : list A) (e : A),
    a ++ b = t1 ++ e :: t2 ->
    filter p a = [] ->
    p e = true ->
    exists b1, b = b1 ++ e :: t2.
Proof.
  induction a as [|x a IH]; intros b t1 t2 e E Ha He.
  - exists t1. exact E.
  - cbn [filter] in Ha. destruct (p x) eqn:Ex; [discriminate|].
    destruct t1 as [|y t1]; cbn [app] in E; inversion E; subst.
    + rewrite He in Ex. discriminate.
    + eapply IH; eassumption.
Qed.

(** In every run of the batch stage, nothing that follows a notice of a
    lost session (the redirect to the login page, or HTTP 401/403) is a
    request. *)
Theorem no_request_after_expiry_notice (quiz_ids : list Z)
  (t1 : list event) (e : event) (t2 : list event) :
  trace_of (stage4_batch cfg w quiz_ids) = t1 ++ e :: t2 ->
  is_expiry_notice e = true ->
  filter is_request t2 = [].
Proof.
  intros Ht He.
  destruct (for_loop_notice_split (length quiz_ids) quiz_ids 0 initial_counters)
    as (a & b & E & Ha & Hb).
  assert (Ht' : (EPrint (MsgProcessing (length quiz_ids)) :: a) ++ b = t1 ++ e :: t2).
  { rewrite <- Ht. unfold stage4_batch.
    destruct (for_loop cfg w (length quiz_ids) 0 quiz_ids initial_counters) as [[t c] r].
    unfold trace_of in *. cbn [fst] in *. now rewrite E. }
  destruct (split_after_marked is_expiry_notice _ _ _ _ _ Ht') as [b1 Hb1];
    [exact Ha | exact He |].
  subst b. rewrite filter_app in Hb. apply app_eq_nil in Hb. destruct Hb as [_ Hb].
  cbn [filter] in Hb. destruct (is_request e); [discriminate | exact Hb].
Qed.

End Loop.

(** C7 at a request answered with 403 Forbidden, and at one that times
    out. *)
Lemma C7_forbidden_counted_and_flagged :
  let w := Examples.logged_in [] (fun _ _ => Returned Examples.forbidden) in
  let V := visit Examples.cfg w 3 0 7 initial_counters in
  let w' := Examples.logged_in [] (fun _ _ => Raised ReadTimeout) in
  let V' := visit Examples.cfg w' 3 0 7 initial_counters in
  (result_of V = Ret Fallthrough
   /\ failure_count (counters_of V) = 1
   /\ session_expired (counters_of V) = true)
  /\ (result_of V' = Ret Fallthrough
      /\ success_count (counters_of V') = 0
      /\ failure_count (counters_of V') = 1
      /\ session_expired (counters_of V') = false).
Proof.
  intros w V w' V'.
  pose proof (C7_request_errors_counted_failed Examples.cfg w 3 0 7 initial_counters
                (HTTPError Examples.forbidden)
                (or_intror (ex_intro _ Examples.forbidden
                              (conj eq_refl (conj eq_refl (conj eq_refl eq_refl))))))
    as H.
  pose proof (C7_request_errors_counted_failed Examples.cfg w' 3 0 7 initial_counters
                ReadTimeout (or_introl (conj eq_refl eq_refl))) as H'.
  cbv zeta in H, H'. fold V in H. fold V' in H'.
  destruct H as (H1 & _ & H3 & H4 & _).
  destruct H' as (H1' & H2' & H3' & H4' & _).
  repeat split; assumption.
Defined.

(** C8 on three identifiers that all load: two pauses of the default delay. *)
Lemma C8_three_identifiers_two_pauses :
  filter is_sleep
    (trace_of (stage4_batch Examples.cfg
                 (Examples.logged_in [] Examples.all_ok) [101; 102; 103]))
  = [ESleep default_request_delay_seconds; ESleep default_request_delay_seconds].
Proof.
  refine (proj1 (proj2 (C8_pause_after_all_but_last Examples.cfg
                          (Examples.logged_in [] Examples.all_ok) [101; 102; 103] _ _))).
  - intros [|[|[|i]]] q H; try (destruct i; discriminate H);
      inversion H; subst; reflexivity.
  - intros i _. reflexivity.
Defined.


(** C1 at three identifiers with the second request redirected to the login
    page (N = 3, k = 2): two requests are issued and one visit succeeds, but
    the failure count ends at 1 = N - k, not at N - k + 1 = 2: line 222
    assigns the number of skipped identifiers to [failure_count] instead of
    adding it, so the failure counted for the redirected request is lost.
    The summary reports 2 attempted out of 3 read. *)
Lemma C1_expiry_tally_overwritten :
  let w := Examples.logged_in ["101"; "102"; "103"] (Examples.expiry_at 1) in
  let R := stage4_batch Examples.cfg w [101; 102; 103] in
  filter is_request (trace_of R)
  = [EGet "https://example.org/mod/quiz/report.php?id=101&mode=statistics";
     EGet "https://example.org/mod/quiz/report.php?id=102&mode=statistics"]
  /\ result_of R = Ret tt
  /\ success_count (counters_of R) = 1
  /\ failure_count (counters_of R) = 1
  /\ filter is_summary (fst (main Examples.cfg w))
     = [EPrint MsgSummaryHeader; EPrint (MsgTotalRead 3); EPrint (MsgAttempted 2);
        EPrint (MsgSucceeded 1); EPrint (MsgFailedSkipped 1)].
Proof. vm_compute. repeat split; reflexivity. Qed.

(** ** Verdicts on single responses *)

Section Verdicts.

Variable cfg : config.

(** An item whose request is answered with a page that is not the login
    page, has no error status, is accepted by the HTML parser and has no
    title tag or one with a single text in it counts as a visit: the
    success count goes up and control reaches the pause.  A marker (an
    error box, the login-page id, an error-message element, "error" or
    "notice" in the title, one of the two phrases in the body) adds one
    warning line before the success line and changes nothing else. *)
Theorem marker_only_warns (w : world) (n i : nat) (quiz_id : Z) (c : counters)
  (r : response) (page : soup) :
  stats_page w i quiz_id = Returned r ->
  PyStr.contains (LOGIN_URL cfg) (url r) || PyStr.contains (login_path cfg) (url r) = false ->
  (400 <=? status_code r) && (status_code r <? 600) = false ->
  parsed r = Some page ->
  title page <> Some None ->
  let page_title :=
    match title page with
    | Some (Some s) => PyStr.lower s
    | _ => EmptyString
    end in
  let warned :=
    has_errorbox page || has_page_login_index page || has_errormessage page
    || PyStr.contains "error" page_title
    || PyStr.contains "notice" page_title
    || PyStr.contains "invalid course module id" (PyStr.lower (text r))
    || PyStr.contains "you do not have permission" (PyStr.lower (text r)) in
  visit cfg w n i quiz_id c
  = (EPrint (MsgVisiting quiz_id (i + 1) n (stats_url cfg quiz_id))
       :: EGet (stats_url cfg quiz_id)
       :: (if warned then [EPrint (MsgPotentialIssue quiz_id)] else [])
       ++ [EPrint (MsgVisited quiz_id)],
     incr_success c, Ret Fallthrough).
Proof.
  intros Hw Hurl Hst Hp Ht page_title warned. subst page_title warned.
  unfold visit, try_body, session_get, inspect_stats, raise_for_status, BeautifulSoup.
  rewrite Hw. cbn [call bind emit ret fst snd app]. rewrite Hurl, Hst, Hp.
  cbn [bind ret fst snd app].
  destruct (title page) as [[s|]|]; [| now contradiction Ht |];
    cbn [bind ret fst snd app print emit];
    match goal with
    | |- context [if ?b then _ else _] => destruct b
    end; reflexivity.
Qed.

(** An item whose request is answered with a page that is not the login
    page and has no error status, but whose markup the HTML parser rejects,
    is counted as failed by the last handler of the item; the success count
    and the flag stay as they were and control reaches the pause. *)
Theorem rejected_markup_counted_failed (w : world) (n i : nat) (quiz_id : Z)
  (c : counters) (r : response) :
  stats_page w i quiz_id = Returned r ->
  PyStr.contains (LOGIN_URL cfg) (url r) || PyStr.contains (login_path cfg) (url r) = false ->
  (400 <=? status_code r) && (status_code r <? 600) = false ->
  parsed r = None ->
  visit cfg w n i quiz_id c
  = ([EPrint (MsgVisiting quiz_id (i + 1) n (stats_url cfg quiz_id));
      EGet (stats_url cfg quiz_id);
      EPrint (MsgUnexpectedErrorFor quiz_id)],
     incr_failure c, Ret Fallthrough).
Proof.
  intros Hw Hurl Hst Hp.
  unfold visit, try_body, session_get, inspect_stats, raise_for_status, BeautifulSoup.
  rewrite Hw. cbn [call bind emit ret fst snd app]. rewrite Hurl, Hst, Hp.
  reflexivity.
Qed.

(** C6 at a page that loads with status 200, is not the login page and has
    an empty title tag: [soup.title.string] is [None], calling [lower] on it
    raises, the generic handler counts the item as failed, and the success
    count stays where it was. *)
Lemma C6_empty_title_counted_failed :
  let w := Examples.logged_in ["7"] (fun _ _ => Returned Examples.stats_empty_title) in
  let V := visit Examples.cfg w 1 0 7 initial_counters in
  status_code Examples.stats_empty_title = 200
  /\ PyStr.contains (LOGIN_URL Examples.cfg) (url Examples.stats_empty_title)
     || PyStr.contains (login_path Examples.cfg) (url Examples.stats_empty_title) = false
  /\ trace_of V
     = [EPrint (MsgVisiting 7 1 1
                  "https://example.org/mod/quiz/report.php?id=7&mode=statistics");
        EGet "https://example.org/mod/quiz/report.php?id=7&mode=statistics";
        EPrint (MsgUnexpectedErrorFor 7)]
  /\ success_count (counters_of V) = 0
  /\ failure_count (counters_of V) = 1
  /\ filter is_summary (fst (main Examples.cfg w))
     = [EPrint MsgSummaryHeader; EPrint (MsgTotalRead 1); EPrint (MsgAttempted 1);
        EPrint (MsgSucceeded 0); EPrint (MsgFailedSkipped 1)].
Proof. vm_compute. repeat split; reflexivity. Qed.

(** The full login URL ends with the login path, so the first of the two
    tests of lines 192 and 231 never decides alone. *)
Lemma login_url_test_redundant (u : string) :
  occurs_in (LOGIN_URL cfg) u -> occurs_in (login_path cfg) u.
Proof. unfold LOGIN_URL. apply occurs_in_app_l. Qed.

Lemma raise_for_status_ok (r : response) :
  status_code r < 400 \/ 600 <= status_code r -> raise_for_status r = ret tt.
Proof.
  intros H. unfold raise_for_status.
  replace ((400 <=? status_code r) && (status_code r <? 600)) with false; [reflexivity|].
  symmetry. apply andb_false_iff. rewrite Z.leb_gt, Z.ltb_ge. lia.
Qed.

(** Lines 192-201 on a response to the credentials. *)
Lemma check_login_cases (r : response) :
  check_login cfg r
  = if PyStr.contains (LOGIN_URL cfg) (url r) || PyStr.contains (login_path cfg) (url r)
    then match parsed r with
         | Some page => ([EPrint (MsgLoginFailed (login_error_text page))],
                         Exc (SystemExit 1))
         | None => ([], Exc ParserRejectedMarkup)
         end
    else ([EPrint (MsgLoginSuccessful (url r))], Ret tt).
Proof.
  unfold check_login, BeautifulSoup.
  destruct (PyStr.contains (LOGIN_URL cfg) (url r)
            || PyStr.contains (login_path cfg) (url r)); [|reflexivity].
  destruct (parsed r) as [page|]; [|reflexivity].
  unfold login_error_text, first_found, unknown_reason.
  cbn [bind ret fst snd app].
  destruct (div_loginerrormessage page); [reflexivity|].
  destruct (div_loginerrors page); [reflexivity|].
  destruct (div_alert_danger page); reflexivity.
Qed.

(** The login stage up to the test of line 192: the form loads and is
    parsed, its token (if any) is read, and the credentials are answered
    without an error status. *)
Lemma stage1_reaches_check (w : world) (r0 r : response) (page0 : soup) :
  login_page w = Returned r0 ->
  (status_code r0 < 400 \/ 600 <= status_code r0) ->
  parsed r0 = Some page0 ->
  logintoken_input page0 <> Some None ->
  login_submit w (login_payload cfg (token_of page0)) = Returned r ->
  (status_code r < 400 \/ 600 <= status_code r) ->
  stage1_login cfg w
  = ([EPrint (MsgAccessingLogin (LOGIN_URL cfg));
      EGet (LOGIN_URL cfg);
      EPrint (match token_of page0 with
              | Some v => MsgFoundLogintoken v
              | None => MsgNoLogintoken
              end);
      EPrint (MsgSubmittingLogin (cfg_username cfg));
      EPost (LOGIN_URL cfg) (login_payload cfg (token_of page0))]
       ++ fst (check_login cfg r),
     snd (check_login cfg r)).
Proof.
  intros Hget Hst0 Hp0 Htok Hpost Hst.
  unfold stage1_login, session_get, session_post, read_logintoken, BeautifulSoup.
  rewrite Hget. cbn [call bind print emit ret fst snd app].
  rewrite (raise_for_status_ok r0 Hst0). cbn [bind ret fst snd app]. rewrite Hp0.
  cbn [bind ret fst snd app].
  unfold token_of in *.
  destruct (logintoken_input page0) as [[v|]|]; [| now contradiction Htok |];
    cbn [bind ret fst snd app].
  - assert (Hp : login_payload cfg (Some v)
                 = login_payload cfg (if PyStr.truthy v then Some v else None)).
    { unfold login_payload. destruct (PyStr.truthy v) eqn:Ev; [now rewrite Ev | reflexivity]. }
    rewrite Hp, Hpost.
    destruct (PyStr.truthy v); cbn [call bind ret print emit fst snd app];
      rewrite (raise_for_status_ok r Hst); cbn [bind ret fst snd app];
      destruct (check_login cfg r) as [t x]; reflexivity.
  - rewrite Hpost. cbn [call bind ret print emit fst snd app].
    rewrite (raise_for_status_ok r Hst). cbn [bind ret fst snd app].
    destruct (check_login cfg r) as [t x]. reflexivity.
Qed.

(** C9 (as amended): the test for the login page is substring containment.
    An item whose request is answered takes the redirect branch ("Session
    likely expired", failure counted, flag set, straight to the next
    iteration) exactly when the final URL of the answer has the full login
    URL or the login path as a substring; the flag is set after the item
    exactly when it was set before, or that test holds, or the status of the
    answer is 401 or 403.  When the login form loads and the credentials are
    answered without an error status, the login stage goes on exactly when
    the final URL of that answer has neither as a substring; otherwise it
    ends the run with [sys.exit(1)], or with the parser's error when the
    page cannot be parsed. *)
Theorem C9_login_page_test_is_substring (w : world) :
  (forall (n i : nat) (quiz_id : Z) (c : counters) (r : response),
      stats_page w i quiz_id = Returned r ->
      let V := visit cfg w n i quiz_id c in
      let on_login :=
        occurs_in (LOGIN_URL cfg) (url r) \/ occurs_in (login_path cfg) (url r) in
      (V = ([EPrint (MsgVisiting quiz_id (i + 1) n (stats_url cfg quiz_id));
             EGet (stats_url cfg quiz_id);
             EPrint (MsgSessionLikelyExpired quiz_id)],
            set_expired (incr_failure c), Ret Continue)
       <-> on_login)
      /\ (session_expired (counters_of V) = true
          <-> session_expired c = true \/ on_login
              \/ status_code r = 401 \/ status_code r = 403))
  /\ (forall (r0 r : response) (page0 : soup),
         login_page w = Returned r0 ->
         (status_code r0 < 400 \/ 600 <= status_code r0) ->
         parsed r0 = Some page0 ->
         logintoken_input page0 <> Some None ->
         login_submit w (login_payload cfg (token_of page0)) = Returned r ->
         (status_code r < 400 \/ 600 <= status_code r) ->
         let on_login :=
           occurs_in (LOGIN_URL cfg) (url r) \/ occurs_in (login_path cfg) (url r) in
         (on_login
          /\ snd (stage1_login cfg w)
             = match parsed r with
               | Some _ => Exc (SystemExit 1)
               | None => Exc ParserRejectedMarkup
               end)
         \/ (~ on_login
             /\ snd (stage1_login cfg w) = Ret tt
             /\ In (EPrint (MsgLoginSuccessful (url r))) (fst (stage1_login cfg w)))).
Proof.
  split.
  - intros n i quiz_id c r Ha V on_login. subst V on_login.
    rewrite <- !contains_spec, <- orb_true_iff.
    unfold counters_of.
    destruct (visit_judge cfg w n i quiz_id c) as (msgs & E & _).
    rewrite Ha in E. unfold judge in E.
    destruct (PyStr.contains (LOGIN_URL cfg) (url r)
              || PyStr.contains (login_path cfg) (url r)) eqn:Eu.
    + split.
      * split; [reflexivity | intros _].
        unfold visit, try_body, session_get, inspect_stats.
        rewrite Ha. cbn [call bind emit ret fst snd app]. rewrite Eu. reflexivity.
      * rewrite E. cbn. split; [intros _; right; left; reflexivity | reflexivity].
    + split.
      * split; [|discriminate]. rewrite E. intros H.
        apply (f_equal snd) in H. cbn [snd] in H.
        destruct ((400 <=? status_code r) && (status_code r <? 600)).
        -- destruct (auth_status (status_code r)); discriminate H.
        -- destruct (parsed r) as [page|]; [|discriminate H].
           destruct (title page) as [[t|]|]; discriminate H.
      * rewrite E. cbn [fst snd]. unfold auth_status.
        destruct ((400 <=? status_code r) && (status_code r <? 600)) eqn:Es.
        -- destruct ((status_code r =? 401) || (status_code r =? 403)) eqn:Ea;
             cbn [settle fst set_expired incr_failure session_expired].
           ++ split; [intros _ | reflexivity].
              apply orb_true_iff in Ea. rewrite !Z.eqb_eq in Ea. tauto.
           ++ apply orb_false_iff in Ea. rewrite !Z.eqb_neq in Ea.
              split; [tauto | intros [H|[H|H]]; [exact H | discriminate H | tauto]].
        -- assert (Hno : status_code r <> 401 /\ status_code r <> 403).
           { apply andb_false_iff in Es. rewrite Z.leb_gt, Z.ltb_ge in Es. lia. }
           assert (Hc : session_expired
                          (fst (settle
                                  match parsed r with
                                  | Some page =>
                                      match title page with
                                      | Some None => Failure
                                      | _ => Success
                                      end
                                  | None => Failure
                                  end c))
                        = session_expired c).
           { destruct (parsed r) as [page|]; [|reflexivity].
             destruct (title page) as [[t|]|]; reflexivity. }
           rewrite Hc.
           split; [tauto | intros [H|[H|H]]; [exact H | discriminate H | tauto]].
  - intros r0 r page0 Hget Hst0 Hp0 Htok Hpost Hst on_login. subst on_login.
    rewrite (stage1_reaches_check w r0 r page0 Hget Hst0 Hp0 Htok Hpost Hst).
    rewrite check_login_cases.
    rewrite <- !contains_spec, <- orb_true_iff.
    destruct (PyStr.contains (LOGIN_URL cfg) (url r)
              || PyStr.contains (login_path cfg) (url r)).
    + left. split; [reflexivity|].
      destruct (parsed r); reflexivity.
    + right. split; [discriminate|]. split; [reflexivity|].
      cbn [fst]. apply in_or_app. right. left. reflexivity.
Qed.

End Verdicts.

(** ** The main stage *)

Section Main.

Variable cfg : config.
Variable w : world.

Lemma quiet_ret {A : Type} (a : A) : quiet (ret a).
Proof. reflexivity. Qed.

Lemma quiet_raise {A : Type} (e : exn) : quiet (@raise A e).
Proof. reflexivity. Qed.

Lemma quiet_emit (e : event) : is_summary e = false -> quiet (emit e).
Proof. intros H. unfold quiet, emit. cbn [fst filter]. now rewrite H. Qed.

Lemma quiet_bind {A B : Type} (m : io A) (k : A -> io B) :
  quiet m -> (forall a, quiet (k a)) -> quiet (bind m k).
Proof.
  unfold quiet, bind. intros Hm Hk. destruct m as [t [a|e]]; cbn [fst] in *.
  - specialize (Hk a). destruct (k a) as [t' r]. cbn [fst] in *.
    now rewrite filter_app, Hm, Hk.
  - exact Hm.
Qed.

Ltac quiet_steps :=
  repeat first
    [ apply quiet_ret
    | apply quiet_raise
    | apply quiet_emit; reflexivity
    | apply quiet_bind; [|intro]
    | match goal with
      | |- quiet (match ?x with _ => _ end) => destruct x
      end ].

Lemma stage1_quiet : quiet (stage1_login cfg w).
Proof.
  unfold stage1_login, session_get, session_post, raise_for_status, read_logintoken,
    check_login, BeautifulSoup, call, print, sys_exit.
  quiet_steps.
Qed.

Lemma stage2_quiet : quiet (stage2_cookie w).
Proof. unfold stage2_cookie, print, sys_exit. quiet_steps. Qed.

Lemma warnings_quiet (limit : nat) (lines : list string) :
  forall line_num, filter is_summary (warnings_from limit line_num lines) = [].
Proof.
  induction lines as [|line rest IH]; intros line_num; [reflexivity|].
  cbn [warnings_from]. rewrite filter_app, IH, app_nil_r.
  destruct (blank_or_comment line); [reflexivity|].
  destruct (PyStr.int limit line); reflexivity.
Qed.

Lemma reader_quiet (file_path : string) (f : file_content) :
  filter is_summary (fst (read_quiz_ids_from_file w file_path f)) = [].
Proof.
  unfold read_quiz_ids_from_file. destruct f as [|lines fails]; [reflexivity|].
  rewrite read_lines_spec.
  destruct fails; cbn [fst filter is_summary];
    rewrite filter_app, warnings_quiet; cbn [filter is_summary app];
    [reflexivity|].
  destruct (valid_ids (max_str_digits w) lines); reflexivity.
Qed.

Lemma pause_quiet (n i : nat) : quiet (pause cfg w n i).
Proof. unfold pause. quiet_steps. Qed.

Lemma for_loop_quiet (n : nat) (rest : list Z) :
  forall (i : nat) (c : counters),
    filter is_summary (trace_of (for_loop cfg w n i rest c)) = [].
Proof.
  induction rest as [|q rest IH]; intros i c; [reflexivity|].
  destruct (session_expired c) eqn:Hc.
  - rewrite (for_loop_expired cfg w n i (q :: rest) c Hc). reflexivity.
  - rewrite (for_loop_cons cfg w n i q rest c Hc). cbv zeta.
    destruct (visit_facts cfg w n i q c) as (_ & _ & Hsum & _).
    pose proof (pause_quiet n i) as Hp. unfold quiet in Hp.
    specialize (IH (S i) (counters_of (visit cfg w n i q c))).
    destruct (result_of (visit cfg w n i q c)) as [[]|e].
    + destruct (pause cfg w n i) as [tp [[]|e]]; cbn [fst] in Hp;
        unfold trace_of at 1; cbn [fst]; rewrite !filter_app, Hsum, Hp, ?IH; reflexivity.
    + unfold trace_of at 1; cbn [fst]. rewrite filter_app, Hsum, IH. reflexivity.
    + exact Hsum.
Qed.

Lemma stage4_quiet (ids : list Z) :
  filter is_summary (trace_of (stage4_batch cfg w ids)) = [].
Proof.
  unfold stage4_batch.
  pose proof (for_loop_quiet (length ids) ids 0 initial_counters) as H.
  destruct (for_loop cfg w (length ids) 0 ids initial_counters) as [[t c] r].
  exact H.
Qed.

Lemma except_main_quiet (e : exn) : filter is_summary (fst (except_main cfg e)) = [].
Proof. destruct e as [| | | | |[r|]| | | | | | | |]; reflexivity. Qed.

Lemma finally_after_batch (ids : list Z) (c : counters) :
  finally_block {| quiz_ids := Some (Some ids); counts := Some c |}
  = (summary (length ids) c ++ [EClose; EPrint MsgScriptFinished], Ret tt).
Proof. reflexivity. Qed.

Lemma finally_before_list (l : locals) :
  quiz_ids l = None \/ quiz_ids l = Some None ->
  finally_block l = ([EClose; EPrint MsgScriptFinished], Ret tt).
Proof. unfold finally_block. intros [-> | ->]; reflexivity. Qed.

(** C2 (as amended): when login and the cookie check pass and the file
    yields a non-empty identifier list, the summary is printed exactly once,
    with the counters of the batch stage, as the last output before the
    session is closed and the final line, however the batch stage ends;
    when the run stops before that list is read (an error or a rejected
    login in stages 1 and 2, or a file that cannot be read) no line of the
    summary is printed. *)
Theorem C2_summary_once_after_batch :
  (forall ids : list Z,
      snd (stage1_login cfg w ;; stage2_cookie w) = Ret tt ->
      snd (read_quiz_ids_from_file w (quiz_id_file_to_use cfg) (quiz_file w)) = Some ids ->
      ids <> [] ->
      exists pre : list event,
        fst (main cfg w)
        = pre ++ summary (length ids) (counters_of (stage4_batch cfg w ids))
              ++ [EClose; EPrint MsgScriptFinished]
        /\ filter is_summary pre = [])
  /\ ((exists e, snd (stage1_login cfg w ;; stage2_cookie w) = Exc e)
      \/ snd (read_quiz_ids_from_file w (quiz_id_file_to_use cfg) (quiz_file w)) = None ->
      filter is_summary (fst (main cfg w)) = []).
Proof.
  pose proof (quiet_bind _ (fun _ => stage2_cookie w) stage1_quiet (fun _ => stage2_quiet))
    as H12.
  pose proof (reader_quiet (quiz_id_file_to_use cfg) (quiz_file w)) as H3.
  unfold quiet in H12. unfold main, try_block.
  destruct (stage1_login cfg w ;; stage2_cookie w) as [t12 [[]|e12]]; cbn [fst snd] in *.
  - destruct (read_quiz_ids_from_file w (quiz_id_file_to_use cfg) (quiz_file w))
      as [t3 [[|q ids]|]]; cbn [fst snd] in *.
    + split.
      * intros ids _ Hids Hne. inversion Hids; subst. now contradiction Hne.
      * intros [[e He]|Hn]; discriminate.
    + split.
      * intros ids' _ Hids _. inversion Hids; subst ids'. clear Hids.
        pose proof (stage4_quiet (q :: ids)) as H4.
        destruct (stage4_batch cfg w (q :: ids)) as [[t4 c] r].
        unfold trace_of, counters_of in *. cbn [fst snd] in *.
        assert (Hh : exists th pending,
                   match r with Ret _ => ([], None) | Exc e => except_main cfg e end
                   = (th, pending) /\ filter is_summary th = []).
        { destruct r as [[]|e].
          - exists [], None. split; reflexivity.
          - pose proof (except_main_quiet e) as He.
            destruct (except_main cfg e) as [th p]. exists th, p. split; [reflexivity | exact He]. }
        destruct Hh as (th & pending & -> & Hth).
        rewrite finally_after_batch. cbn [fst].
        exists ((t12 ++ t3 ++ t4) ++ th). split.
        -- now rewrite <- !app_assoc.
        -- now rewrite !filter_app, H12, H3, H4, Hth.
      * intros [[e He]|Hn]; discriminate.
    + split.
      * intros ids _ Hids. discriminate.
      * intros _. cbn [except_main is_SSLError is_ConnectionError is_RequestException
                         is_Exception fst snd].
        rewrite finally_before_list by (right; reflexivity). cbn [fst].
        rewrite !filter_app, H12, H3. reflexivity.
  - split.
    + intros ids He. discriminate.
    + intros _. pose proof (except_main_quiet e12) as He.
      destruct (except_main cfg e12) as [th p].
      rewrite finally_before_list by (left; reflexivity). cbn [fst] in *.
      rewrite !filter_app, H12, He. reflexivity.
Qed.

(** C5 (as amended): when the login form loads and is parsed, the
    credentials are answered with a status outside 400..599 and the final
    URL of that answer has the login URL or the login path as a substring,
    no request is issued beyond the two of the login and the session is
    closed.  When the page of that answer is parsed, the run prints the
    login failure with the text of the first error place present in the page
    (or the fallback) and exits with status 1; when the parser rejects the
    page, the run reports an unexpected error instead and exits with
    status 0. *)
Theorem C5_rejected_login_stops_run (r0 r : response) (page0 : soup) :
  login_page w = Returned r0 ->
  (status_code r0 < 400 \/ 600 <= status_code r0) ->
  parsed r0 = Some page0 ->
  logintoken_input page0 <> Some None ->
  login_submit w (login_payload cfg (token_of page0)) = Returned r ->
  (status_code r < 400 \/ 600 <= status_code r) ->
  (occurs_in (LOGIN_URL cfg) (url r) \/ occurs_in (login_path cfg) (url r)) ->
  main cfg w
  = ([EPrint (MsgAccessingLogin (LOGIN_URL cfg));
      EGet (LOGIN_URL cfg);
      EPrint (match token_of page0 with
              | Some v => MsgFoundLogintoken v
              | None => MsgNoLogintoken
              end);
      EPrint (MsgSubmittingLogin (cfg_username cfg));
      EPost (LOGIN_URL cfg) (login_payload cfg (token_of page0));
      EPrint (match parsed r with
              | Some page => MsgLoginFailed (login_error_text page)
              | None => MsgUnexpectedError
              end);
      EClose;
      EPrint MsgScriptFinished],
     match parsed r with
     | Some _ => Exited 1
     | None => Exited 0
     end).
Proof.
  intros Hget Hst0 Hp0 Htok Hpost Hst Hurl.
  rewrite <- !contains_spec, <- orb_true_iff in Hurl.
  unfold main, try_block.
  rewrite (stage1_reaches_check cfg w r0 r page0 Hget Hst0 Hp0 Htok Hpost Hst).
  rewrite check_login_cases, Hurl.
  destruct (parsed r) as [page|]; reflexivity.
Qed.

(** When the login succeeds and no cookie name contains "moodlesession"
    (case ignored), the run reports the missing cookie, issues no further
    request, closes the session and exits with status 1. *)
Theorem missing_cookie_stops_run :
  snd (stage1_login cfg w) = Ret tt ->
  (forall n, In n (cookie_names w) ->
             PyStr.contains "moodlesession" (PyStr.lower n) = false) ->
  main cfg w
  = (fst (stage1_login cfg w) ++ [EPrint MsgNoSessionCookie; EClose; EPrint MsgScriptFinished],
     Exited 1).
Proof.
  intros H1 Hnone.
  assert (Hfind : List.find (fun n => PyStr.contains "moodlesession" (PyStr.lower n))
                    (cookie_names w) = None).
  { induction (cookie_names w) as [|n l IH]; [reflexivity|].
    cbn [List.find]. rewrite (Hnone n (or_introl eq_refl)).
    apply IH. intros m Hm. apply Hnone. now right. }
  unfold main, try_block, stage2_cookie. rewrite Hfind.
  destruct (stage1_login cfg w) as [t1 r1]. cbn [snd] in H1. subst r1.
  cbn [bind print emit sys_exit raise fst snd app except_main is_SSLError
         is_ConnectionError is_RequestException is_Exception finally_block quiz_ids
         unbound ret].
  now rewrite <- app_assoc.
Qed.

End Main.

(** C2, as stated, fails: a run whose login is rejected leaves the main
    stage through [sys.exit(1)] before [quiz_ids] is bound, and the summary
    is not printed. *)
Lemma C2_no_summary_after_rejected_login :
  main Examples.cfg Examples.login_fails
  = ([EPrint (MsgAccessingLogin "https://example.org/login/index.php");
      EGet "https://example.org/login/index.php";
      EPrint (MsgFoundLogintoken "tok123");
      EPrint (MsgSubmittingLogin "teacher");
      EPost "https://example.org/login/index.php"
        [("username", "teacher"); ("password", "secret"); ("logintoken", "tok123")];
      EPrint (MsgLoginFailed "Invalid login, please try again");
      EClose;
      EPrint MsgScriptFinished],
     Exited 1)
  /\ filter is_summary (fst (main Examples.cfg Examples.login_fails)) = [].
Proof. split; reflexivity. Qed.

(** C2 on a run that stops at an expired session: one summary, at the end. *)
Lemma C2_summary_after_expiry :
  exists pre : list event,
    fst (main Examples.cfg
           (Examples.logged_in ["101"; "102"; "103"] (Examples.expiry_at 1)))
    = pre ++ summary 3 {| success_count := 1; failure_count := 1; session_expired := true |}
          ++ [EClose; EPrint MsgScriptFinished]
    /\ filter is_summary pre = [].
Proof.
  exact (proj1 (C2_summary_once_after_batch Examples.cfg
                  (Examples.logged_in ["101"; "102"; "103"] (Examples.expiry_at 1)))
           [101; 102; 103] eq_refl eq_refl
           (fun H => @eq_ind (list Z) [] (fun l => match l with [] => True | _ => False end)
                       I [101; 102; 103] (eq_sym H))).
Defined.

(** C5, as stated, fails: the credentials are answered from the login URL
    with status 503; the status check of line 190 raises before the URL is
    looked at, the error is reported as an HTTP error during setup, no login
    failure is printed and the exit status is 0. *)
Lemma C5_server_error_on_login_url :
  PyStr.contains (LOGIN_URL Examples.cfg) (url Examples.login_unavailable) = true
  /\ main Examples.cfg Examples.login_down
     = ([EPrint (MsgAccessingLogin "https://example.org/login/index.php");
         EGet "https://example.org/login/index.php";
         EPrint (MsgFoundLogintoken "tok123");
         EPrint (MsgSubmittingLogin "teacher");
         EPost "https://example.org/login/index.php"
           [("username", "teacher"); ("password", "secret"); ("logintoken", "tok123")];
         EPrint MsgHTTPErrorDuringSetup;
         EPrint (MsgStatusAndBody 503 "maintenance");
         EClose;
         EPrint MsgScriptFinished],
        Exited 0).
Proof. split; reflexivity. Qed.

(** C5 on the login page shown again with Moodle's error message. *)
Lemma C5_invalid_login_reported :
  main Examples.cfg Examples.login_fails
  = ([EPrint (MsgAccessingLogin "https://example.org/login/index.php");
      EGet "https://example.org/login/index.php";
      EPrint (MsgFoundLogintoken "tok123");
      EPrint (MsgSubmittingLogin "teacher");
      EPost "https://example.org/login/index.php"
        [("username", "teacher"); ("password", "secret"); ("logintoken", "tok123")];
      EPrint (MsgLoginFailed "Invalid login, please try again");
      EClose;
      EPrint MsgScriptFinished],
     Exited 1).
Proof.
  refine (C5_rejected_login_stops_run Examples.cfg Examples.login_fails
            Examples.login_form Examples.login_rejected _ _ _ eq_refl _ _ _ _).
  - reflexivity.
  - left. reflexivity.
  - discriminate.
  - reflexivity.
  - left. reflexivity.
  - right. exists "https://example.org", EmptyString. reflexivity.
Defined.

(** ** Further runs *)

(** The batch stage on three identifiers with the second request redirected
    to the login page: two requests, at most one success. *)
Lemma expiry_on_second_of_three :
  let w := Examples.logged_in [] (Examples.expiry_at 1) in
  let R := for_loop Examples.cfg w 3 0 [101; 102; 103] initial_counters in
  filter is_request (trace_of R)
  = map EGet (map (stats_url Examples.cfg) [101; 102])
  /\ result_of R = Ret tt
  /\ 0 <= success_count (counters_of R) <= 1.
Proof.
  intros w R.
  apply (expiry_stops_requests Examples.cfg w [101] 102 [103]).
  - discriminate.
  - intros [|i] q H; [inversion H; reflexivity | destruct i; discriminate H].
  - reflexivity.
  - intros i _. reflexivity.
Defined.

(** A page with an error box, an error title and a permission message is
    still a visit. *)
Lemma marker_page_counted_as_visit :
  let w := Examples.logged_in [] (fun _ _ => Returned Examples.stats_with_marker) in
  visit Examples.cfg w 1 0 7 initial_counters
  = ([EPrint (MsgVisiting 7 1 1
                "https://example.org/mod/quiz/report.php?id=7&mode=statistics");
      EGet "https://example.org/mod/quiz/report.php?id=7&mode=statistics";
      EPrint (MsgPotentialIssue 7);
      EPrint (MsgVisited 7)],
     incr_success initial_counters, Ret Fallthrough).
Proof.
  intros w.
  refine (marker_only_warns Examples.cfg w 1 0 7 initial_counters
            Examples.stats_with_marker _ eq_refl eq_refl eq_refl eq_refl _).
  discriminate.
Defined.

(** A page the parser rejects is counted as a failure. *)
Lemma rejected_page_counted_as_failure :
  let w := Examples.logged_in [] (fun _ _ => Returned Examples.stats_rejected_markup) in
  visit Examples.cfg w 1 0 7 initial_counters
  = ([EPrint (MsgVisiting 7 1 1
                "https://example.org/mod/quiz/report.php?id=7&mode=statistics");
      EGet "https://example.org/mod/quiz/report.php?id=7&mode=statistics";
      EPrint (MsgUnexpectedErrorFor 7)],
     incr_failure initial_counters, Ret Fallthrough).
Proof.
  intros w.
  exact (rejected_markup_counted_failed Examples.cfg w 1 0 7 initial_counters
           Examples.stats_rejected_markup eq_refl eq_refl eq_refl eq_refl).
Defined.

(** C9 on a statistics request redirected to the login page, and on the
    login page shown again after the credentials. *)
Lemma C9_redirect_and_rejected_login :
  let w := Examples.logged_in [] (fun _ _ => Returned Examples.redirected_to_login) in
  visit Examples.cfg w 3 0 7 initial_counters
  = ([EPrint (MsgVisiting 7 1 3
                "https://example.org/mod/quiz/report.php?id=7&mode=statistics");
      EGet "https://example.org/mod/quiz/report.php?id=7&mode=statistics";
      EPrint (MsgSessionLikelyExpired 7)],
     set_expired (incr_failure initial_counters), Ret Continue)
  /\ snd (stage1_login Examples.cfg Examples.login_fails) = Exc (SystemExit 1).
Proof.
  intros w.
  assert (Hon : occurs_in (LOGIN_URL Examples.cfg) "https://example.org/login/index.php"
                \/ occurs_in (login_path Examples.cfg) "https://example.org/login/index.php").
  { right. exists "https://example.org", EmptyString. reflexivity. }
  split.
  - pose proof (proj1 (C9_login_page_test_is_substring Examples.cfg w)
                  3%nat 0%nat 7 initial_counters Examples.redirected_to_login eq_refl) as H.
    cbv zeta in H. destruct H as [[_ H] _]. exact (H Hon).
  - pose proof (proj2 (C9_login_page_test_is_substring Examples.cfg Examples.login_fails)
                  Examples.login_form Examples.login_rejected _
                  eq_refl (or_introl eq_refl) eq_refl) as H.
    cbv zeta in H.
    destruct H as [[_ H] | [Hn _]].
    + discriminate.
    + reflexivity.
    + left. reflexivity.
    + exact H.
    + exfalso. exact (Hn Hon).
Defined.

(** C9, as stated, fails for a batch item: a request answered with 403 from
    an address that has neither the login URL nor the login path in it sets
    the expiry flag, and the two identifiers after it are not requested. *)
Lemma C9_forbidden_flagged_off_login_page :
  let w := Examples.logged_in [] (fun _ _ => Returned Examples.forbidden) in
  let V := visit Examples.cfg w 3 0 7 initial_counters in
  PyStr.contains (LOGIN_URL Examples.cfg) (url Examples.forbidden)
  || PyStr.contains (login_path Examples.cfg) (url Examples.forbidden) = false
  /\ trace_of V
     = [EPrint (MsgVisiting 7 1 3
                  "https://example.org/mod/quiz/report.php?id=7&mode=statistics");
        EGet "https://example.org/mod/quiz/report.php?id=7&mode=statistics";
        EPrint (MsgHTTPErrorFor 7 403 "Forbidden");
        EPrint MsgAuthenticationError]
  /\ session_expired (counters_of V) = true
  /\ filter is_request
       (trace_of (for_loop Examples.cfg w 3 0 [7; 8; 9] initial_counters))
     = [EGet "https://example.org/mod/quiz/report.php?id=7&mode=statistics"].
Proof. vm_compute. repeat split; reflexivity. Qed.

(** Nothing is requested after the notice of the redirect in a run of three. *)
Lemma nothing_requested_after_redirect :
  let w := Examples.logged_in [] (Examples.expiry_at 1) in
  exists t1 t2 : list event,
    trace_of (stage4_batch Examples.cfg w [101; 102; 103])
    = t1 ++ EPrint (MsgSessionLikelyExpired 102) :: t2
    /\ filter is_request t2 = [].
Proof.
  intros w.
  exists [EPrint (MsgProcessing 3);
          EPrint (MsgVisiting 101 1 3
                    "https://example.org/mod/quiz/report.php?id=101&mode=statistics");
          EGet "https://example.org/mod/quiz/report.php?id=101&mode=statistics";
          EPrint (MsgVisited 101);
          ESleep default_request_delay_seconds;
          EPrint (MsgVisiting 102 2 3
                    "https://example.org/mod/quiz/report.php?id=102&mode=statistics");
          EGet "https://example.org/mod/quiz/report.php?id=102&mode=statistics"],
    [EPrint MsgSkippingRemaining].
  assert (E : trace_of (stage4_batch Examples.cfg w [101; 102; 103])
              = [EPrint (MsgProcessing 3);
                 EPrint (MsgVisiting 101 1 3
                    "https://example.org/mod/quiz/report.php?id=101&mode=statistics");
                 EGet "https://example.org/mod/quiz/report.php?id=101&mode=statistics";
                 EPrint (MsgVisited 101);
                 ESleep default_request_delay_seconds;
                 EPrint (MsgVisiting 102 2 3
                    "https://example.org/mod/quiz/report.php?id=102&mode=statistics");
                 EGet "https://example.org/mod/quiz/report.php?id=102&mode=statistics"]
                ++ EPrint (MsgSessionLikelyExpired 102) :: [EPrint MsgSkippingRemaining])
    by reflexivity.
  split; [exact E|].
  exact (no_request_after_expiry_notice Examples.cfg w [101; 102; 103] _ _ _ E eq_refl).
Defined.

(** The scenario of three identifiers that all load: the summary reports 3
    read, 3 attempted, 3 succeeded and 0 failed, and the exit status is 0. *)
Lemma scenario_all_succeed :
  let w := Examples.logged_in ["101"; "102"; "103"] Examples.all_ok in
  filter is_summary (fst (main Examples.cfg w))
  = summary 3 {| success_count := 3; failure_count := 0; session_expired := false |}
  /\ filter is_request (fst (main Examples.cfg w))
     = [EGet "https://example.org/login/index.php";
        EPost "https://example.org/login/index.php"
          [("username", "teacher"); ("password", "secret"); ("logintoken", "tok123")];
        EGet "https://example.org/mod/quiz/report.php?id=101&mode=statistics";
        EGet "https://example.org/mod/quiz/report.php?id=102&mode=statistics";
        EGet "https://example.org/mod/quiz/report.php?id=103&mode=statistics"]
  /\ snd (main Examples.cfg w) = Exited 0.
Proof. vm_compute. repeat split; reflexivity. Qed.

(** An identifier file without identifiers: [sys.exit(0)] of line 211 is
    taken before the counters are bound, the [finally] block prints the
    summary header and then fails on [success_count]; the session is not
    closed and the run ends with an uncaught NameError. *)
Lemma empty_list_ends_in_name_error :
  let w := Examples.logged_in ["# no quiz yet"] Examples.all_ok in
  main Examples.cfg w
  = ([EPrint (MsgAccessingLogin "https://example.org/login/index.php");
      EGet "https://example.org/login/index.php";
      EPrint (MsgFoundLogintoken "tok123");
      EPrint (MsgSubmittingLogin "teacher");
      EPost "https://example.org/login/index.php"
        [("username", "teacher"); ("password", "secret"); ("logintoken", "tok123")];
      EPrint (MsgLoginSuccessful "https://example.org/my/");
      EPrint (MsgFoundSessionCookie "MoodleSession");
      EPrint (MsgReadingFrom "quiz_ids.txt");
      EPrint MsgNoValidIds;
      EPrint MsgNothingToProcess;
      EPrint MsgSummaryHeader],
     Uncaught NameError).
Proof. reflexivity. Qed.

(** A login that succeeds in a world without session cookie. *)
Lemma login_without_cookie_stops :
  let w := {| login_page := Returned Examples.login_form;
              login_submit := fun _ => Returned Examples.dashboard;
              cookie_names := ["MoodleID_"; "MOODLEID1_"];
              quiz_file := Lines ["101"] false;
              stats_page := Examples.all_ok;
              sleep_raises := fun _ => None;
              max_str_digits := 4300 |} in
  snd (main Examples.cfg w) = Exited 1
  /\ filter is_request (fst (main Examples.cfg w))
     = [EGet "https://example.org/login/index.php";
        EPost "https://example.org/login/index.php"
          [("username", "teacher"); ("password", "secret"); ("logintoken", "tok123")]].
Proof.
  intros w.
  assert (E : main Examples.cfg w
              = (fst (stage1_login Examples.cfg w)
                   ++ [EPrint MsgNoSessionCookie; EClose; EPrint MsgScriptFinished],
                 Exited 1)).
  { apply missing_cookie_stops_run; [reflexivity|].
    intros n [<-|[<-|[]]]; reflexivity. }
  rewrite E. split; reflexivity.
Defined.

(** ** The batch loop: order, pacing and tally *)

Section Pacing.

Variable cfg : config.
Variable w : world.

Lemma prefix_of_nil {A : Type} (l : list A) : prefix_of [] l.
Proof. exists l. reflexivity. Qed.

Lemma prefix_of_cons {A : Type} (x : A) (l1 l2 : list A) :
  prefix_of l1 l2 -> prefix_of (x :: l1) (x :: l2).
Proof. intros [rest ->]. exists rest. reflexivity. Qed.

Lemma prefix_of_filter {A : Type} (p : A -> bool) (l1 l2 : list A) :
  prefix_of l1 l2 -> prefix_of (filter p l1) (filter p l2).
Proof. intros [rest ->]. exists (filter p rest). apply filter_app. Qed.

Lemma expired_loop_effects (n i : nat) (rest : list Z) (c : counters) :
  session_expired c = true ->
  filter is_effect (trace_of (for_loop cfg w n i rest c)) = [].
Proof.
  intros Hc. rewrite (for_loop_expired cfg w n i rest c Hc). destruct rest; reflexivity.
Qed.

(** The pause of line 254: none after the last item; after another item,
    either one pause of the configured length or an exception. *)
Lemma pause_cases (n i : nat) (rest : list Z) :
  n = (i + S (length rest))%nat ->
  (rest = [] /\ pause cfg w n i = ([], Ret tt))
  \/ (rest <> [] /\ pause cfg w n i = ([ESleep (request_delay_seconds cfg)], Ret tt))
  \/ (rest <> [] /\ exists e, pause cfg w n i = ([], Exc e)).
Proof.
  intros Hn. destruct rest as [|q rest].
  - left. split; [reflexivity|]. apply pause_last. cbn [length] in Hn. lia.
  - right. unfold pause.
    replace (Z.of_nat i <? Z.of_nat n - 1) with true
      by (symmetry; apply Z.ltb_lt; cbn [length] in Hn; lia).
    destruct (sleep_raises w i) as [e|].
    + right. split; [discriminate|]. exists e. reflexivity.
    + left. split; [discriminate | reflexivity].
Qed.

Lemma for_loop_effects_prefix (n : nat) (rest : list Z) :
  forall (i : nat) (c : counters),
    n = (i + length rest)%nat ->
    prefix_of (filter is_effect (trace_of (for_loop cfg w n i rest c)))
      (paced (request_delay_seconds cfg) (map (stats_url cfg) rest)).
Proof.
  induction rest as [|q rest IH]; intros i c Hn.
  - apply prefix_of_nil.
  - destruct (session_expired c) eqn:Hc.
    { rewrite (expired_loop_effects n i (q :: rest) c Hc). apply prefix_of_nil. }
    rewrite (for_loop_cons cfg w n i q rest c Hc). cbv zeta.
    destruct (visit_facts cfg w n i q c) as (He & _ & _ & Hcnt & Hres).
    assert (Hn' : n = (S i + length rest)%nat) by (cbn [length] in Hn; lia).
    specialize (IH (S i) (counters_of (visit cfg w n i q c)) Hn').
    assert (Hflag : expiring (judge cfg (stats_page w i q)) = true ->
                    filter is_effect
                      (trace_of (for_loop cfg w n (S i) rest
                                   (counters_of (visit cfg w n i q c)))) = []).
    { intros Hx. apply expired_loop_effects. rewrite Hcnt.
      destruct (judge cfg (stats_page w i q)); try discriminate Hx; reflexivity. }
    assert (Hn2 : n = (i + S (length rest))%nat) by lia.
    cbn [map paced].
    destruct (result_of (visit cfg w n i q c)) as [[]|e] eqn:Er.
    + (* on to the pause *)
      destruct (pause_cases n i rest Hn2) as [[-> Hp]|[[Hne Hp]|[Hne [e Hp]]]];
        rewrite Hp; unfold trace_of at 1; cbn [fst].
      * cbn [for_loop trace_of fst app]. rewrite app_nil_r, He. exists []. reflexivity.
      * rewrite !filter_app, He. cbn [filter is_effect is_request is_sleep orb app].
        apply prefix_of_cons.
        destruct rest as [|q' rest]; [now contradiction Hne|].
        apply prefix_of_cons. exact IH.
      * rewrite app_nil_r, He. apply prefix_of_cons, prefix_of_nil.
    + (* continue: the redirect to the login page *)
      unfold trace_of at 1; cbn [fst]. rewrite filter_app, He, Hflag.
      * apply prefix_of_cons, prefix_of_nil.
      * destruct (judge cfg (stats_page w i q)); try discriminate Hres; reflexivity.
    + unfold trace_of at 1; cbn [fst]. rewrite He. apply prefix_of_cons, prefix_of_nil.
Qed.

(** Every run of the batch stage issues its requests in the order of the
    list, one per identifier from the first on without skipping any, and
    never two of them without a pause of the configured length in between:
    its network and clock events are an initial part of GET, pause, GET,
    ..., GET over the whole list. *)
Theorem requests_in_order_and_paced (quiz_ids : list Z) :
  prefix_of (filter is_effect (trace_of (stage4_batch cfg w quiz_ids)))
    (paced (request_delay_seconds cfg) (map (stats_url cfg) quiz_ids))
  /\ prefix_of (filter is_request (trace_of (stage4_batch cfg w quiz_ids)))
       (map EGet (map (stats_url cfg) quiz_ids)).
Proof.
  assert (H : prefix_of (filter is_effect (trace_of (stage4_batch cfg w quiz_ids)))
                (paced (request_delay_seconds cfg) (map (stats_url cfg) quiz_ids))).
  { pose proof (for_loop_effects_prefix (length quiz_ids) quiz_ids 0 initial_counters eq_refl)
      as Hp.
    unfold stage4_batch.
    destruct (for_loop cfg w (length quiz_ids) 0 quiz_ids initial_counters) as [[t c] r].
    exact Hp. }
  split; [exact H|].
  apply (prefix_of_filter is_request) in H.
  rewrite filter_filter_weaker in H
    by (intros x Hx; unfold is_effect; now rewrite Hx).
  now rewrite requests_of_paced in H.
Qed.

Lemma visit_visited (n i : nat) (quiz_id : Z) (c : counters) :
  length (filter is_visited (trace_of (visit cfg w n i quiz_id c)))
  = if is_success (judge cfg (stats_page w i quiz_id)) then 1%nat else 0%nat.
Proof.
  unfold visit, try_body, session_get, judge, auth_status, trace_of.
  destruct (stats_page w i quiz_id) as [r|e].
  - unfold inspect_stats, raise_for_status.
    cbn [call bind emit ret fst snd app].
    destruct (PyStr.contains (LOGIN_URL cfg) (url r)
              || PyStr.contains (login_path cfg) (url r)); [reflexivity|].
    destruct ((400 <=? status_code r) && (status_code r <? 600)).
    + cbn. destruct ((status_code r =? 401) || (status_code r =? 403)); reflexivity.
    + unfold BeautifulSoup.
      destruct (parsed r) as [page|]; cbn [bind ret raise fst snd app]; [|reflexivity].
      destruct (title page) as [[s|]|]; cbn [bind ret fst snd app print emit raise];
        try reflexivity;
        match goal with
        | |- context [if ?b then _ else _] => destruct b
        end; reflexivity.
  - destruct e as [| | | |r|r| | | | | | | |]; cbn; try reflexivity.
    destruct ((status_code r =? 401) || (status_code r =? 403)); reflexivity.
Qed.

Lemma settle_tally (v : verdict) (c : counters) :
  success_count (fst (settle v c))
  = success_count c + (if is_success v then 1 else 0)
  /\ failure_count c <= failure_count (fst (settle v c))
  /\ success_count (fst (settle v c)) + failure_count (fst (settle v c))
     <= success_count c + failure_count c + 1.
Proof. destruct v; cbn; repeat split; lia. Qed.

(** Whatever happens in the loop, the counters stay within the list: from a
    state reached after [i] items, the counts stay non-negative, their sum
    does not exceed [n], and the success count grows by the number of
    success lines printed. *)
Lemma for_loop_tally (n : nat) (rest : list Z) :
  forall (i : nat) (c : counters),
    n = (i + length rest)%nat ->
    0 <= success_count c ->
    0 <= failure_count c ->
    success_count c + failure_count c <= Z.of_nat i ->
    0 <= failure_count (counters_of (for_loop cfg w n i rest c))
    /\ success_count (counters_of (for_loop cfg w n i rest c))
       + failure_count (counters_of (for_loop cfg w n i rest c)) <= Z.of_nat n
    /\ success_count (counters_of (for_loop cfg w n i rest c))
       = success_count c
         + Z.of_nat (length (filter is_visited (trace_of (for_loop cfg w n i rest c)))).
Proof.
  induction rest as [|q rest IH]; intros i c Hn Hs Hf Hsum.
  - cbn. cbn [length] in Hn. repeat split; lia.
  - destruct (session_expired c) eqn:Hc.
    { rewrite (for_loop_expired cfg w n i (q :: rest) c Hc).
      cbn. cbn [length] in Hn. repeat split; lia. }
    rewrite (for_loop_cons cfg w n i q rest c Hc). cbv zeta.
    destruct (visit_facts cfg w n i q c) as (_ & _ & _ & Hcnt & _).
    pose proof (visit_visited n i q c) as Hvis.
    destruct (settle_tally (judge cfg (stats_page w i q)) c) as (T1 & T2 & T3).
    rewrite <- Hcnt in T1, T2, T3.
    assert (Hvis' : success_count (counters_of (visit cfg w n i q c))
                    = success_count c
                      + Z.of_nat (length (filter is_visited
                                            (trace_of (visit cfg w n i q c))))).
    { rewrite T1, Hvis. destruct (is_success (judge cfg (stats_page w i q))); reflexivity. }
    assert (Hn' : n = (S i + length rest)%nat) by (cbn [length] in Hn; lia).
    destruct (IH (S i) (counters_of (visit cfg w n i q c)) Hn') as (I1 & I2 & I3); try lia.
    assert (Hq : filter is_visited (fst (pause cfg w n i)) = []).
    { unfold pause.
      destruct (Z.of_nat i <? Z.of_nat n - 1); [destruct (sleep_raises w i)|];
        reflexivity. }
    clear IH Hcnt Hvis T1.
    unfold trace_of, counters_of, result_of in *.
    destruct (visit cfg w n i q c) as [[tv cv] rv]. cbn [fst snd] in *.
    destruct (for_loop cfg w n (S i) rest cv) as [[t' c''] r']. cbn [fst snd] in *.
    destruct rv as [[]|e]; cbn [fst snd].
    + destruct (pause cfg w n i) as [tp [[]|e]]; cbn [fst snd] in *.
      * rewrite !filter_app, !length_app, Hq. cbn [length]. repeat split; lia.
      * rewrite filter_app, length_app, Hq. cbn [length]. repeat split; lia.
    + rewrite filter_app, length_app. repeat split; lia.
    + repeat split; lia.
Qed.

(** In every run of the batch stage the counters printed by the summary are
    consistent with the list: neither count is negative and "attempted"
    (their sum) never exceeds the number of identifiers read. *)
Theorem tally_within_list (quiz_ids : list Z) :
  0 <= success_count (counters_of (stage4_batch cfg w quiz_ids))
  /\ 0 <= failure_count (counters_of (stage4_batch cfg w quiz_ids))
  /\ success_count (counters_of (stage4_batch cfg w quiz_ids))
     + failure_count (counters_of (stage4_batch cfg w quiz_ids))
     <= Z.of_nat (length quiz_ids).
Proof.
  destruct (for_loop_tally (length quiz_ids) quiz_ids 0 initial_counters eq_refl)
    as (H1 & H2 & H3); cbn; try lia.
  unfold stage4_batch.
  destruct (for_loop cfg w (length quiz_ids) 0 quiz_ids initial_counters) as [[t c] r].
  unfold counters_of, trace_of in *. cbn [fst snd] in *.
  cbn [initial_counters success_count] in H3. repeat split; lia.
Qed.

(** In every run of the batch stage the success count is the number of
    "Successfully visited" lines printed: the skip on expiry, which rewrites
    the failure count, leaves it alone. *)
Theorem success_count_matches_log (quiz_ids : list Z) :
  success_count (counters_of (stage4_batch cfg w quiz_ids))
  = Z.of_nat (length (filter is_visited (trace_of (stage4_batch cfg w quiz_ids)))).
Proof.
  destruct (for_loop_tally (length quiz_ids) quiz_ids 0 initial_counters eq_refl)
    as (_ & _ & H3); cbn; try lia.
  unfold stage4_batch.
  destruct (for_loop cfg w (length quiz_ids) 0 quiz_ids initial_counters) as [[t c] r].
  unfold counters_of, trace_of in *. cbn [fst snd filter is_visited] in *.
  exact H3.
Qed.

Lemma benign_run_successes (n : nat) (rest : list Z) :
  forall (i : nat) (c : counters),
    session_expired c = false ->
    n = (i + length rest)%nat ->
    (forall j q, nth_error rest j = Some q ->
                 benign (judge cfg (stats_page w (i + j) q)) = true) ->
    (forall j, (S (i + j) < n)%nat -> sleep_raises w (i + j) = None) ->
    success_count (counters_of (for_loop cfg w n i rest c))
    = success_count c
      + Z.of_nat (length (filter is_success (verdicts_from cfg w i rest))).
Proof.
  induction rest as [|q rest IH]; intros i c Hc Hn Hb Hs.
  - cbn. lia.
  - rewrite (for_loop_cons cfg w n i q rest c Hc). cbv zeta.
    destruct (visit_facts cfg w n i q c) as (_ & _ & _ & Hcnt & Hres).
    assert (Hq : benign (judge cfg (stats_page w i q)) = true).
    { specialize (Hb 0%nat q eq_refl). now rewrite Nat.add_0_r in Hb. }
    destruct (settle_benign _ c Hq) as (S1 & S2 & _).
    destruct (settle_tally (judge cfg (stats_page w i q)) c) as (T1 & _).
    rewrite Hres, S1. rewrite <- Hcnt in S2, T1.
    assert (Hp : pause cfg w n i = ([], Ret tt)
                 \/ pause cfg w n i = ([ESleep (request_delay_seconds cfg)], Ret tt)).
    { destruct rest as [|q' rest].
      - left. apply pause_last. cbn [length] in Hn. lia.
      - right. apply pause_between; [cbn [length] in Hn; lia|].
        specialize (Hs 0%nat). rewrite Nat.add_0_r in Hs. apply Hs.
        cbn [length] in Hn. lia. }
    assert (IH' : success_count
                    (counters_of (for_loop cfg w n (S i) rest
                                    (counters_of (visit cfg w n i q c))))
                  = success_count (counters_of (visit cfg w n i q c))
                    + Z.of_nat (length (filter is_success
                                          (verdicts_from cfg w (S i) rest)))).
    { apply IH.
      - rewrite S2. exact Hc.
      - cbn [length] in Hn. lia.
      - intros j q0 Hj. specialize (Hb (S j) q0 Hj).
        now replace (i + S j)%nat with (S i + j)%nat in Hb by lia.
      - intros j Hj. specialize (Hs (S j)).
        replace (i + S j)%nat with (S i + j)%nat in Hs by lia. apply Hs. exact Hj. }
    cbn [verdicts_from filter].
    destruct Hp as [-> | ->]; unfold counters_of at 1; cbn [fst snd];
      rewrite IH', T1;
      destruct (is_success (judge cfg (stats_page w i q))); cbn [length]; lia.
Qed.

(** A run in which no answer signals expiry, no exception leaves the loop
    and every pause returns counts exactly: the success count is the number
    of answers that were visits, the failure count the number of the others,
    and the two add up to the number of identifiers. *)
Theorem full_run_tally (quiz_ids : list Z) :
  (forall i q, nth_error quiz_ids i = Some q ->
               benign (judge cfg (stats_page w i q)) = true) ->
  (forall i, (S i < length quiz_ids)%nat -> sleep_raises w i = None) ->
  let c := counters_of (stage4_batch cfg w quiz_ids) in
  success_count c
  = Z.of_nat (length (filter is_success (verdicts_from cfg w 0 quiz_ids)))
  /\ failure_count c = Z.of_nat (length quiz_ids) - success_count c
  /\ session_expired c = false
  /\ result_of (stage4_batch cfg w quiz_ids) = Ret tt.
Proof.
  intros Hb Hs c.
  pose proof (benign_run_successes (length quiz_ids) quiz_ids 0 initial_counters
                eq_refl eq_refl Hb Hs) as H1.
  destruct (benign_run cfg w (length quiz_ids) quiz_ids 0 initial_counters
              eq_refl eq_refl Hb Hs) as (_ & _ & H3 & H4 & H5).
  subst c. unfold stage4_batch.
  destruct (for_loop cfg w (length quiz_ids) 0 quiz_ids initial_counters) as [[t c] r].
  unfold counters_of, result_of in *. cbn [fst snd initial_counters success_count
                                            failure_count] in *.
  repeat split; try assumption; lia.
Qed.

(** When no exception other than an Exception is raised by a request and
    every pause returns, the loop ends normally, whatever the answers are. *)
Lemma for_loop_returns (n : nat) (rest : list Z) :
  forall (i : nat) (c : counters),
    (forall j q, nth_error rest j = Some q ->
                 is_escape (judge cfg (stats_page w (i + j) q)) = false) ->
    (forall j, sleep_raises w (i + j) = None) ->
    result_of (for_loop cfg w n i rest c) = Ret tt.
Proof.
  induction rest as [|q rest IH]; intros i c He Hs; [reflexivity|].
  destruct (session_expired c) eqn:Hc.
  { now rewrite (for_loop_expired cfg w n i (q :: rest) c Hc). }
  rewrite (for_loop_cons cfg w n i q rest c Hc). cbv zeta.
  destruct (visit_facts cfg w n i q c) as (_ & _ & _ & _ & Hres).
  assert (Hq : is_escape (judge cfg (stats_page w i q)) = false).
  { specialize (He 0%nat q eq_refl). now rewrite Nat.add_0_r in He. }
  assert (IH' : result_of (for_loop cfg w n (S i) rest (counters_of (visit cfg w n i q c)))
                = Ret tt).
  { apply IH.
    - intros j q0 Hj. specialize (He (S j) q0 Hj).
      now replace (i + S j)%nat with (S i + j)%nat in He by lia.
    - intros j. specialize (Hs (S j)).
      now replace (i + S j)%nat with (S i + j)%nat in Hs by lia. }
  assert (Hp : exists tp, pause cfg w n i = (tp, Ret tt)).
  { unfold pause. specialize (Hs 0%nat). rewrite Nat.add_0_r in Hs. rewrite Hs.
    destruct (Z.of_nat i <? Z.of_nat n - 1); eexists; reflexivity. }
  destruct Hp as [tp Hp].
  rewrite Hres.
  destruct (judge cfg (stats_page w i q)); try discriminate Hq; cbn [settle snd];
    rewrite ?Hp; exact IH'.
Qed.

End Pacing.

(** ** How a run ends *)

Section Exits.

Variable cfg : config.
Variable w : world.

Lemma avoids_ret {A : Type} (p : event -> bool) (a : A) : avoids p (ret a).
Proof. reflexivity. Qed.

Lemma avoids_raise {A : Type} (p : event -> bool) (e : exn) : avoids p (@raise A e).
Proof. reflexivity. Qed.

Lemma avoids_emit (p : event -> bool) (e : event) : p e = false -> avoids p (emit e).
Proof. intros H. unfold avoids, emit. cbn [fst filter]. now rewrite H. Qed.

Lemma avoids_bind {A B : Type} (p : event -> bool) (m : io A) (k : A -> io B) :
  avoids p m -> (forall a, avoids p (k a)) -> avoids p (bind m k).
Proof.
  unfold avoids, bind. intros Hm Hk. destruct m as [t [a|e]]; cbn [fst] in *.
  - specialize (Hk a). destruct (k a) as [t' r]. cbn [fst] in *.
    now rewrite filter_app, Hm, Hk.
  - exact Hm.
Qed.

Ltac avoid_steps Hp :=
  repeat first
    [ apply avoids_ret
    | apply avoids_raise
    | apply avoids_emit; first [apply Hp | reflexivity]
    | apply avoids_bind; [|intro]
    | match goal with
      | |- avoids _ (match ?x with _ => _ end) => destruct x
      end ].

Section Kind.

Variable p : event -> bool.
Hypothesis Hp : outside_batch p.

Lemma stage2_avoids : avoids p (stage2_cookie w).
Proof.
  destruct Hp as (H1 & H2 & H3).
  unfold stage2_cookie, print, sys_exit. avoid_steps H1.
Qed.

Lemma reader_avoids (file_path : string) (f : file_content) :
  filter p (fst (read_quiz_ids_from_file w file_path f)) = [].
Proof.
  destruct Hp as (H1 & H2 & H3).
  assert (Hw : forall lines line_num,
             filter p (warnings_from (max_str_digits w) line_num lines) = []).
  { induction lines as [|line rest IH]; intros line_num; [reflexivity|].
    cbn [warnings_from]. rewrite filter_app, IH, app_nil_r.
    destruct (blank_or_comment line); [reflexivity|].
    destruct (PyStr.int (max_str_digits w) line); [reflexivity|].
    cbn [filter]. now rewrite H1. }
  unfold read_quiz_ids_from_file. destruct f as [|lines fails].
  - cbn [fst filter]. now rewrite H1.
  - rewrite read_lines_spec.
    destruct fails; cbn [fst filter]; rewrite H1, filter_app, Hw;
      cbn [filter app]; now rewrite H1.
Qed.

Lemma for_loop_avoids (n : nat) (rest : list Z) :
  forall (i : nat) (c : counters),
    filter p (trace_of (for_loop cfg w n i rest c)) = [].
Proof.
  destruct Hp as (H1 & H2 & H3).
  induction rest as [|q rest IH]; intros i c; [reflexivity|].
  destruct (session_expired c) eqn:Hc.
  - rewrite (for_loop_expired cfg w n i (q :: rest) c Hc).
    unfold trace_of. cbn [fst filter]. now rewrite H1.
  - rewrite (for_loop_cons cfg w n i q rest c Hc). cbv zeta.
    destruct (visit_judge cfg w n i q c) as (msgs & HV & _).
    assert (Hv : filter p (trace_of (visit cfg w n i q c)) = []).
    { rewrite HV. unfold trace_of. cbn [fst filter]. rewrite H1, H2.
      apply filter_prints. exact H1. }
    assert (Hq : filter p (fst (pause cfg w n i)) = []).
    { unfold pause.
      destruct (Z.of_nat i <? Z.of_nat n - 1); [destruct (sleep_raises w i)|];
        cbn [fst emit raise ret filter]; rewrite ?H3; reflexivity. }
    specialize (IH (S i) (counters_of (visit cfg w n i q c))).
    destruct (result_of (visit cfg w n i q c)) as [[]|e].
    + destruct (pause cfg w n i) as [tp [[]|e]]; cbn [fst] in Hq;
        unfold trace_of at 1; cbn [fst]; rewrite !filter_app, Hv, Hq, ?IH; reflexivity.
    + unfold trace_of at 1; cbn [fst]. rewrite filter_app, Hv, IH. reflexivity.
    + exact Hv.
Qed.

Lemma stage4_avoids (ids : list Z) :
  filter p (trace_of (stage4_batch cfg w ids)) = [].
Proof.
  unfold stage4_batch.
  pose proof (for_loop_avoids (length ids) ids 0 initial_counters) as H.
  destruct (for_loop cfg w (length ids) 0 ids initial_counters) as [[t c] r].
  unfold trace_of in *. cbn [fst filter] in *.
  destruct Hp as (H1 & _). now rewrite H1.
Qed.

Lemma except_main_avoids (e : exn) : filter p (fst (except_main cfg e)) = [].
Proof.
  destruct Hp as (H1 & _).
  destruct e as [| | | | |[r|]| | | | | | | |]; cbn; rewrite ?H1; reflexivity.
Qed.

Lemma summary_avoids (n : nat) (c : counters) : filter p (summary n c) = [].
Proof. destruct Hp as (H1 & _). unfold summary. cbn [filter]. now rewrite !H1. Qed.

End Kind.

Lemma close_outside_batch : outside_batch is_close.
Proof. repeat split. Qed.

Lemma post_outside_batch : outside_batch is_post.
Proof. repeat split. Qed.

Lemma stage1_never_closes : avoids is_close (stage1_login cfg w).
Proof.
  unfold stage1_login, session_get, session_post, raise_for_status, read_logintoken,
    check_login, BeautifulSoup, call, print, sys_exit.
  avoid_steps close_outside_batch.
Qed.

(** The main stage, case by case. *)
Lemma main_cases :
  main cfg w
  = match stage1_login cfg w ;; stage2_cookie w with
    | (t12, Exc e) =>
        (t12 ++ fst (except_main cfg e) ++ farewell, ending_after (snd (except_main cfg e)))
    | (t12, Ret _) =>
        match read_quiz_ids_from_file w (quiz_id_file_to_use cfg) (quiz_file w) with
        | (t3, None) => (t12 ++ t3 ++ farewell, Exited 1)
        | (t3, Some []) =>
            (t12 ++ t3 ++ [EPrint MsgNothingToProcess; EPrint MsgSummaryHeader],
             Uncaught NameError)
        | (t3, Some ids) =>
            match result_of (stage4_batch cfg w ids) with
            | Ret _ =>
                (t12 ++ t3 ++ trace_of (stage4_batch cfg w ids)
                   ++ summary (length ids) (counters_of (stage4_batch cfg w ids))
                   ++ farewell,
                 Exited 0)
            | Exc e =>
                (t12 ++ t3 ++ trace_of (stage4_batch cfg w ids)
                   ++ fst (except_main cfg e)
                   ++ summary (length ids) (counters_of (stage4_batch cfg w ids))
                   ++ farewell,
                 ending_after (snd (except_main cfg e)))
            end
        end
    end.
Proof.
  unfold main, try_block.
  destruct (stage1_login cfg w ;; stage2_cookie w) as [t12 [[]|e12]].
  - destruct (read_quiz_ids_from_file w (quiz_id_file_to_use cfg) (quiz_file w))
      as [t3 [[|q ids]|]].
    + cbn. now rewrite <- !app_assoc.
    + destruct (stage4_batch cfg w (q :: ids)) as [[t4 c] [[]|e]];
        unfold trace_of, counters_of, result_of; cbn [fst snd].
      * rewrite finally_after_batch. cbn [app]. now rewrite <- !app_assoc.
      * destruct (except_main cfg e) as [th pending]. rewrite finally_after_batch.
        cbn [fst snd]. now rewrite <- !app_assoc.
    + cbn. now rewrite <- !app_assoc.
  - destruct (except_main cfg e12) as [th pending]. reflexivity.
Qed.

Lemma stage12_never_closes : avoids is_close (stage1_login cfg w ;; stage2_cookie w).
Proof.
  apply avoids_bind; [apply stage1_never_closes|].
  intros _. apply stage2_avoids, close_outside_batch.
Qed.

(** Except when the identifier file yields an empty list, every run ends by
    closing the session and printing the final line, and the session is
    closed once only: this holds after a rejected login, after an error
    handled by one of the outer handlers, and when an exception that no
    handler takes (an interrupt) is on its way out. *)
Theorem session_closed_last :
  snd (read_quiz_ids_from_file w (quiz_id_file_to_use cfg) (quiz_file w)) <> Some [] ->
  exists pre : list event,
    fst (main cfg w) = pre ++ [EClose; EPrint MsgScriptFinished]
    /\ filter is_close pre = [].
Proof.
  intros Hne. rewrite main_cases.
  pose proof stage12_never_closes as H12. unfold avoids in H12.
  pose proof (reader_avoids is_close close_outside_batch
                (quiz_id_file_to_use cfg) (quiz_file w)) as H3.
  destruct (stage1_login cfg w ;; stage2_cookie w) as [t12 [[]|e12]]; cbn [fst] in H12.
  - destruct (read_quiz_ids_from_file w (quiz_id_file_to_use cfg) (quiz_file w))
      as [t3 [[|q ids]|]]; cbn [fst snd] in *.
    + now contradiction Hne.
    + pose proof (stage4_avoids is_close close_outside_batch (q :: ids)) as H4.
      pose proof (summary_avoids is_close close_outside_batch (length (q :: ids))
                    (counters_of (stage4_batch cfg w (q :: ids)))) as H5.
      destruct (result_of (stage4_batch cfg w (q :: ids))) as [[]|e]; cbn [fst].
      * exists (t12 ++ t3 ++ trace_of (stage4_batch cfg w (q :: ids))
                  ++ summary (length (q :: ids))
                       (counters_of (stage4_batch cfg w (q :: ids)))).
        split; [unfold farewell; now rewrite <- !app_assoc|].
        now rewrite !filter_app, H12, H3, H4, H5.
      * pose proof (except_main_avoids is_close close_outside_batch e) as H6.
        exists (t12 ++ t3 ++ trace_of (stage4_batch cfg w (q :: ids))
                  ++ fst (except_main cfg e)
                  ++ summary (length (q :: ids))
                       (counters_of (stage4_batch cfg w (q :: ids)))).
        split; [unfold farewell; now rewrite <- !app_assoc|].
        now rewrite !filter_app, H12, H3, H4, H5, H6.
    + exists (t12 ++ t3). split; [unfold farewell; now rewrite <- !app_assoc|].
      now rewrite !filter_app, H12, H3.
  - pose proof (except_main_avoids is_close close_outside_batch e12) as H6.
    exists (t12 ++ fst (except_main cfg e12)).
    split; [unfold farewell; now rewrite <- !app_assoc|].
    now rewrite !filter_app, H12, H6.
Qed.

Lemma filter_bind {A B : Type} (p : event -> bool) (m : io A) (k : A -> io B) :
  filter p (fst (bind m k))
  = filter p (fst m)
      ++ match snd m with
         | Ret a => filter p (fst (k a))
         | Exc _ => []
         end.
Proof.
  unfold bind. destruct m as [t [a|e]]; cbn [fst snd].
  - destruct (k a) as [t' r]. cbn [fst]. apply filter_app.
  - now rewrite app_nil_r.
Qed.

Lemma stage1_posts :
  filter is_post (fst (stage1_login cfg w))
  = match login_page w with
    | Returned r0 =>
        if (400 <=? status_code r0) && (status_code r0 <? 600) then []
        else
          match parsed r0 with
          | Some page0 =>
              match logintoken_input page0 with
              | Some None => []
              | _ => [EPost (LOGIN_URL cfg) (login_payload cfg (token_of page0))]
              end
          | None => []
          end
    | Raised _ => []
    end.
Proof.
  assert (Hpost : forall r : response,
             filter is_post (fst (raise_for_status r ;; check_login cfg r)) = []).
  { intros r. rewrite filter_bind, check_login_cases. unfold raise_for_status.
    destruct ((400 <=? status_code r) && (status_code r <? 600)); [reflexivity|].
    cbn [ret raise fst snd filter app].
    destruct (PyStr.contains (LOGIN_URL cfg) (url r)
              || PyStr.contains (login_path cfg) (url r)); [|reflexivity].
    destruct (parsed r); reflexivity. }
  assert (Hsend : forall logintoken : option string,
             filter is_post
               (fst (print (MsgSubmittingLogin (cfg_username cfg)) ;;
                     response_post <-
                       session_post (LOGIN_URL cfg) (login_payload cfg logintoken)
                         (login_submit w) ;;
                     raise_for_status response_post ;;
                     check_login cfg response_post))
             = [EPost (LOGIN_URL cfg) (login_payload cfg logintoken)]).
  { intros logintoken. unfold session_post. rewrite !filter_bind.
    cbn [print emit fst snd filter is_post app].
    destruct (login_submit w (login_payload cfg logintoken)) as [r|e];
      cbn [call bind emit ret raise fst snd filter is_post app];
      [now rewrite Hpost | reflexivity]. }
  unfold stage1_login, session_get.
  rewrite filter_bind. cbn [print emit fst snd filter is_post app].
  rewrite filter_bind. rewrite filter_bind.
  destruct (login_page w) as [r0|e];
    cbn [call bind emit ret raise fst snd filter is_post app]; [|reflexivity].
  rewrite filter_bind. unfold raise_for_status.
  destruct ((400 <=? status_code r0) && (status_code r0 <? 600));
    cbn [ret raise fst snd filter app]; [reflexivity|].
  rewrite filter_bind. unfold BeautifulSoup.
  destruct (parsed r0) as [page0|]; cbn [ret raise fst snd filter app]; [|reflexivity].
  rewrite filter_bind. unfold read_logintoken, token_of.
  destruct (logintoken_input page0) as [[v|]|];
    cbn [ret raise fst snd filter app]; [| reflexivity |].
  - rewrite filter_bind.
    assert (Hp : login_payload cfg (Some v)
                 = login_payload cfg (if PyStr.truthy v then Some v else None)).
    { unfold login_payload. destruct (PyStr.truthy v) eqn:Ev; [now rewrite Ev | reflexivity]. }
    rewrite <- Hp.
    destruct (PyStr.truthy v); cbn [print emit fst snd filter is_post app];
      apply Hsend.
  - rewrite filter_bind.
    cbn [print emit fst snd filter is_post app]. apply Hsend.
Qed.

Lemma filter_fst_bind {A B : Type} (p : event -> bool) (m : io A) (k : A -> io B) :
  (forall a, avoids p (k a)) ->
  filter p (fst (bind m k)) = filter p (fst m).
Proof.
  intros Hk. unfold bind. destruct m as [t [a|e]]; cbn [fst]; [|reflexivity].
  specialize (Hk a). unfold avoids in Hk. destruct (k a) as [t' r]. cbn [fst] in *.
  now rewrite filter_app, Hk, app_nil_r.
Qed.

(** In every run the credentials are sent at most once, and only in the
    POST to the login URL.  That one request is made exactly when the login
    form loads without an error status, is parsed, and its token field, if
    it has one, carries a value; it holds the user name, the password and
    the token of that form when the token is not empty.  Apart from it
    nothing is ever posted. *)
Theorem credentials_posted_once :
  filter is_post (fst (main cfg w))
  = match login_page w with
    | Returned r0 =>
        if (400 <=? status_code r0) && (status_code r0 <? 600) then []
        else
          match parsed r0 with
          | Some page0 =>
              match logintoken_input page0 with
              | Some None => []
              | _ => [EPost (LOGIN_URL cfg) (login_payload cfg (token_of page0))]
              end
          | None => []
          end
    | Raised _ => []
    end
  /\ forall page0 : soup,
       login_payload cfg (token_of page0)
       = [("username", cfg_username cfg); ("password", cfg_password cfg)]
           ++ match token_of page0 with
              | Some v => [("logintoken", v)]
              | None => []
              end.
Proof.
  split.
  2:{ intros page0. unfold login_payload, token_of.
      destruct (logintoken_input page0) as [[v|]|]; try reflexivity.
      destruct (PyStr.truthy v) eqn:Ev; [now rewrite Ev | reflexivity]. }
  assert (H : filter is_post (fst (main cfg w)) = filter is_post (fst (stage1_login cfg w))).
  { rewrite main_cases.
    pose proof (filter_fst_bind is_post (stage1_login cfg w) (fun _ => stage2_cookie w)
                  (fun _ => stage2_avoids is_post post_outside_batch)) as H12.
    pose proof (reader_avoids is_post post_outside_batch
                  (quiz_id_file_to_use cfg) (quiz_file w)) as H3.
    destruct (stage1_login cfg w ;; stage2_cookie w) as [t12 [[]|e12]]; cbn [fst] in H12.
    - destruct (read_quiz_ids_from_file w (quiz_id_file_to_use cfg) (quiz_file w))
        as [t3 [[|q ids]|]]; cbn [fst snd] in *.
      + rewrite !filter_app, H12, H3. cbn. now rewrite app_nil_r.
      + pose proof (stage4_avoids is_post post_outside_batch (q :: ids)) as H4.
        pose proof (summary_avoids is_post post_outside_batch (length (q :: ids))
                      (counters_of (stage4_batch cfg w (q :: ids)))) as H5.
        destruct (result_of (stage4_batch cfg w (q :: ids))) as [[]|e]; cbn [fst].
        * rewrite !filter_app, H12, H3, H4, H5. cbn. now rewrite app_nil_r.
        * rewrite !filter_app, H12, H3, H4, H5,
            (except_main_avoids is_post post_outside_batch e).
          cbn. now rewrite app_nil_r.
      + rewrite !filter_app, H12, H3. cbn. now rewrite app_nil_r.
    - cbn [fst].
      rewrite !filter_app, H12, (except_main_avoids is_post post_outside_batch e12).
      cbn. now rewrite app_nil_r. }
  rewrite H. apply stage1_posts.
Qed.

Lemma except_main_handled (e : exn) :
  is_Exception e = true -> snd (except_main cfg e) = None.
Proof. destruct e as [| | | | |[r|]| | | | | | | |]; try discriminate; reflexivity. Qed.

(** When the login stage raises an exception of class Exception (no answer
    from the site, an error status for the login form or for the
    credentials, a page the parser rejects, a token field without value),
    the matching outer handler
    reports it, no statistics request is made, no summary is printed, the
    session is closed, and the process ends with exit status 0. *)
Theorem login_error_exits_zero (e : exn) :
  snd (stage1_login cfg w) = Exc e ->
  is_Exception e = true ->
  main cfg w
  = (fst (stage1_login cfg w) ++ fst (except_main cfg e)
       ++ [EClose; EPrint MsgScriptFinished],
     Exited 0)
  /\ filter is_request (fst (main cfg w)) = filter is_request (fst (stage1_login cfg w))
  /\ filter is_summary (fst (main cfg w)) = [].
Proof.
  intros H1 He.
  assert (Hm : main cfg w
               = (fst (stage1_login cfg w) ++ fst (except_main cfg e) ++ farewell,
                  Exited 0)).
  { rewrite main_cases. unfold bind at 1.
    destruct (stage1_login cfg w) as [t1 r1]. cbn [snd] in H1. subst r1. cbn [fst].
    now rewrite (except_main_handled e He). }
  split; [exact Hm|].
  rewrite Hm. cbn [fst]. rewrite !filter_app.
  pose proof (stage1_quiet cfg w) as Hq. unfold quiet in Hq.
  rewrite Hq, (except_main_quiet cfg e).
  split; [|reflexivity].
  assert (Hx : filter is_request (fst (except_main cfg e)) = []).
  { destruct e as [| | | | |[r|]| | | | | | | |]; reflexivity. }
  rewrite Hx. cbn. now rewrite app_nil_r.
Qed.

(** When the login and the cookie check pass and the identifier file is
    missing or cannot be read to its end, the run stops there: whatever was
    read is dropped, no statistics request is made, no summary is printed,
    the session is closed and the exit status is 1. *)
Theorem unreadable_file_stops_run :
  snd (stage1_login cfg w ;; stage2_cookie w) = Ret tt ->
  (quiz_file w = NotAFile \/ exists lines, quiz_file w = Lines lines true) ->
  main cfg w
  = (fst (stage1_login cfg w ;; stage2_cookie w)
       ++ fst (read_quiz_ids_from_file w (quiz_id_file_to_use cfg) (quiz_file w))
       ++ [EClose; EPrint MsgScriptFinished],
     Exited 1)
  /\ filter is_request (fst (main cfg w))
     = filter is_request (fst (stage1_login cfg w))
  /\ filter is_summary (fst (main cfg w)) = [].
Proof.
  intros H12 Hf.
  assert (Hr : snd (read_quiz_ids_from_file w (quiz_id_file_to_use cfg) (quiz_file w))
               = None).
  { destruct Hf as [-> | [lines ->]]; [reflexivity|].
    unfold read_quiz_ids_from_file. now destruct (read_lines w 1 lines []). }
  assert (Hm : main cfg w
               = (fst (stage1_login cfg w ;; stage2_cookie w)
                    ++ fst (read_quiz_ids_from_file w (quiz_id_file_to_use cfg) (quiz_file w))
                    ++ farewell,
                  Exited 1)).
  { rewrite main_cases.
    destruct (stage1_login cfg w ;; stage2_cookie w) as [t12 r12]. cbn [snd] in H12.
    subst r12.
    destruct (read_quiz_ids_from_file w (quiz_id_file_to_use cfg) (quiz_file w))
      as [t3 r3]. cbn [snd] in Hr. subst r3. reflexivity. }
  split; [exact Hm|].
  rewrite Hm. cbn [fst]. rewrite !filter_app.
  pose proof (quiet_bind _ (fun _ => stage2_cookie w) (stage1_quiet cfg w)
                (fun _ => stage2_quiet w)) as Hq.
  unfold quiet in Hq. rewrite Hq, (reader_quiet w).
  split; [|reflexivity].
  rewrite (filter_fst_bind is_request (stage1_login cfg w) (fun _ => stage2_cookie w)).
  - assert (H3 : filter is_request
                   (fst (read_quiz_ids_from_file w (quiz_id_file_to_use cfg) (quiz_file w)))
                 = []).
    { destruct Hf as [-> | [lines ->]]; [reflexivity|].
      unfold read_quiz_ids_from_file. rewrite read_lines_spec.
      cbn [fst filter is_request]. rewrite filter_app. cbn [filter is_request].
      rewrite app_nil_r. clear.
      generalize 1%nat. induction lines as [|l lines IH]; intros k; [reflexivity|].
      cbn [warnings_from]. rewrite filter_app, IH, app_nil_r.
      destruct (blank_or_comment l); [reflexivity|].
      destruct (PyStr.int (max_str_digits w) l); reflexivity. }
    rewrite H3. cbn. now rewrite app_nil_r.
  - intros _. unfold avoids, stage2_cookie.
    destruct (find _ (cookie_names w)) as [n|]; [destruct (PyStr.truthy n)|]; reflexivity.
Qed.

(** Failures of single items never change the exit status: when the login
    and the cookie check pass, the file yields a non-empty list, no request
    raises anything but an Exception and every pause returns, the run ends
    with exit status 0 after the summary, however many items failed and
    whether or not the session expired on the way. *)
Theorem item_failures_keep_exit_zero (ids : list Z) :
  snd (stage1_login cfg w ;; stage2_cookie w) = Ret tt ->
  snd (read_quiz_ids_from_file w (quiz_id_file_to_use cfg) (quiz_file w)) = Some ids ->
  ids <> [] ->
  (forall i q, nth_error ids i = Some q ->
               is_escape (judge cfg (stats_page w i q)) = false) ->
  (forall i, sleep_raises w i = None) ->
  snd (main cfg w) = Exited 0
  /\ filter is_summary (fst (main cfg w))
     = summary (length ids) (counters_of (stage4_batch cfg w ids)).
Proof.
  intros H12 Hr Hne He Hs.
  assert (Hret : result_of (stage4_batch cfg w ids) = Ret tt).
  { pose proof (for_loop_returns cfg w (length ids) ids 0 initial_counters He Hs) as H.
    unfold stage4_batch.
    destruct (for_loop cfg w (length ids) 0 ids initial_counters) as [[t c] r]. exact H. }
  pose proof (quiet_bind _ (fun _ => stage2_cookie w) (stage1_quiet cfg w)
                (fun _ => stage2_quiet w)) as Hq12.
  pose proof (reader_quiet w (quiz_id_file_to_use cfg) (quiz_file w)) as Hq3.
  pose proof (stage4_quiet cfg w ids) as Hq4.
  unfold quiet in Hq12.
  rewrite main_cases.
  destruct (stage1_login cfg w ;; stage2_cookie w) as [t12 r12]. cbn [fst snd] in *.
  subst r12.
  destruct (read_quiz_ids_from_file w (quiz_id_file_to_use cfg) (quiz_file w))
    as [t3 r3]. cbn [fst snd] in *. subst r3.
  destruct ids as [|q ids]; [now contradiction Hne|].
  rewrite Hret. cbn [fst snd]. split; [reflexivity|].
  rewrite !filter_app, Hq12, Hq3, Hq4. cbn [app]. unfold farewell.
  cbn [filter is_summary summary]. reflexivity.
Qed.

End Exits.

(** ** Runs that show the hypotheses at work *)

(** Three identifiers, the second answered with 404: two visits and one
    failure are counted. *)
Lemma tally_of_one_failure_in_three :
  let w := Examples.logged_in []
             (fun i q => if (i =? 1)%nat then Returned Examples.not_found
                         else Returned (Examples.stats_ok q)) in
  let c := counters_of (stage4_batch Examples.cfg w [101; 102; 103]) in
  success_count c = 2 /\ failure_count c = 1 /\ session_expired c = false.
Proof.
  intros w c.
  destruct (full_run_tally Examples.cfg w [101; 102; 103]) as (H1 & H2 & H3 & _).
  - intros [|[|[|i]]] q H; try (destruct i; discriminate H);
      inversion H; subst; reflexivity.
  - intros i _. reflexivity.
  - fold c in H1, H2, H3. rewrite H2, H1. repeat split; reflexivity || exact H3.
Defined.

(** A rejected login still closes the session, once, at the very end. *)
Lemma session_closed_after_rejected_login :
  exists pre : list event,
    fst (main Examples.cfg Examples.login_fails) = pre ++ [EClose; EPrint MsgScriptFinished]
    /\ filter is_close pre = [].
Proof.
  apply (session_closed_last Examples.cfg Examples.login_fails). discriminate.
Defined.

(** A site that cannot be reached: the connection error is reported and the
    exit status is 0. *)
Lemma unreachable_site_exits_zero :
  main Examples.cfg MoreExamples.site_down
  = ([EPrint (MsgAccessingLogin "https://example.org/login/index.php");
      EGet "https://example.org/login/index.php";
      EPrint (MsgConnectionError "https://example.org");
      EClose;
      EPrint MsgScriptFinished],
     Exited 0).
Proof.
  exact (proj1 (login_error_exits_zero Examples.cfg MoreExamples.site_down
                  ConnectionError eq_refl eq_refl)).
Defined.

(** No identifier file: exit status 1 after the login, without summary. *)
Lemma missing_file_exits_one :
  snd (main Examples.cfg MoreExamples.no_file) = Exited 1
  /\ filter is_summary (fst (main Examples.cfg MoreExamples.no_file)) = [].
Proof.
  destruct (unreadable_file_stops_run Examples.cfg MoreExamples.no_file eq_refl
              (or_introl eq_refl)) as (H1 & _ & H3).
  split; [now rewrite H1 | exact H3].
Defined.

(** Every page missing: three failures, and exit status 0 all the same. *)
Lemma all_items_failed_exit_zero :
  let w := Examples.logged_in ["101"; "102"; "103"] MoreExamples.all_missing in
  snd (main Examples.cfg w) = Exited 0
  /\ filter is_summary (fst (main Examples.cfg w))
     = summary 3 {| success_count := 0; failure_count := 3; session_expired := false |}.
Proof.
  intros w.
  destruct (item_failures_keep_exit_zero Examples.cfg w [101; 102; 103]) as (H1 & H2);
    try reflexivity.
  - discriminate.
  - split; [exact H1 | exact H2].
Defined.

(** ** The identifier file, line by line *)

Section Lines.

Variable w : world.

Lemma warnings_are_skip_warnings (limit : nat) (lines : list string) :
  forall line_num,
    filter is_skip_warning (warnings_from limit line_num lines)
    = warnings_from limit line_num lines.
Proof.
  induction lines as [|line rest IH]; intros line_num; [reflexivity|].
  cbn [warnings_from]. rewrite filter_app, IH.
  destruct (blank_or_comment line); [reflexivity|].
  destruct (PyStr.int limit line); reflexivity.
Qed.

Lemma lines_partition (limit : nat) (lines : list string) :
  forall line_num,
    (length (valid_ids limit lines) + length (warnings_from limit line_num lines)
     + length (filter blank_or_comment lines) = length lines)%nat.
Proof.
  induction lines as [|line rest IH]; intros line_num; [reflexivity|].
  cbn [valid_ids flat_map warnings_from filter length].
  fold (valid_ids limit rest). rewrite !length_app.
  specialize (IH (S line_num)).
  destruct (blank_or_comment line) eqn:Eb.
  - rewrite (int_of_blank_or_comment limit line Eb). cbn [length]. lia.
  - destruct (PyStr.int limit line); cbn [length]; lia.
Qed.

(** Every line of a readable identifier file is accounted for exactly once:
    it gives one identifier, or one warning, or it is blank or a comment. *)
Theorem every_line_accounted_for (file_path : string) (lines : list string) :
  exists ids : list Z,
    snd (read_quiz_ids_from_file w file_path (Lines lines false)) = Some ids
    /\ (length ids
        + length (filter is_skip_warning
                    (fst (read_quiz_ids_from_file w file_path (Lines lines false))))
        + length (filter blank_or_comment lines)
        = length lines)%nat.
Proof.
  exists (valid_ids (max_str_digits w) lines).
  unfold read_quiz_ids_from_file. rewrite read_lines_spec. cbn [fst snd].
  split; [reflexivity|].
  assert (Hlast : forall ids : list Z,
             filter is_skip_warning
               [EPrint match ids with
                       | [] => MsgNoValidIds
                       | _ :: _ => MsgFoundValidIds (length ids)
                       end] = []) by (intros []; reflexivity).
  cbn [filter is_skip_warning].
  rewrite filter_app, warnings_are_skip_warnings, Hlast, app_nil_r.
  apply lines_partition.
Qed.

Lemma warning_in_warnings (limit : nat) (lines : list string) :
  forall (line_num k : nat) (s : string),
    In (EPrint (MsgSkippingInvalid k s)) (warnings_from limit line_num lines)
    <-> exists (j : nat) (line : string),
          k = (line_num + j)%nat
          /\ nth_error lines j = Some line
          /\ s = PyStr.strip line
          /\ blank_or_comment line = false
          /\ PyStr.int limit line = None.
Proof.
  induction lines as [|line rest IH]; intros line_num k s.
  - cbn. split; [intros [] | intros (j & l & _ & H & _); destruct j; discriminate H].
  - cbn [warnings_from]. rewrite in_app_iff, IH. split.
    + intros [H | (j & l & Hk & Hj & Hrest)].
      * destruct (blank_or_comment line) eqn:Eb; [destruct H|].
        destruct (PyStr.int limit line) eqn:Ei; [destruct H|].
        destruct H as [H|[]]. inversion H; subst.
        exists 0%nat, line. rewrite Nat.add_0_r. repeat split; assumption.
      * exists (S j), l. split; [lia|]. split; [exact Hj | exact Hrest].
    + intros (j & l & Hk & Hj & Hs & Hb & Hi). destruct j as [|j].
      * left. cbn in Hj. inversion Hj; subst l. rewrite Hb, Hi.
        left. rewrite Nat.add_0_r in Hk. now subst.
      * right. exists j, l. split; [lia|]. repeat split; assumption.
Qed.

(** The warnings of the reader name their lines: a warning with number [k]
    and text [s] is printed exactly when line [k] of the file (counted from
    1) is neither blank nor a comment, does not parse as an integer, and [s]
    is that line with the surrounding blanks removed.  This holds whether or
    not the file can be read to its end. *)
Theorem warning_names_its_line (file_path : string) (lines : list string)
  (fails : bool) (k : nat) (s : string) :
  In (EPrint (MsgSkippingInvalid k s))
     (fst (read_quiz_ids_from_file w file_path (Lines lines fails)))
  <-> exists line : string,
        (1 <= k)%nat
        /\ nth_error lines (k - 1) = Some line
        /\ s = PyStr.strip line
        /\ blank_or_comment line = false
        /\ PyStr.int (max_str_digits w) line = None.
Proof.
  assert (H : In (EPrint (MsgSkippingInvalid k s))
                (fst (read_quiz_ids_from_file w file_path (Lines lines fails)))
              <-> In (EPrint (MsgSkippingInvalid k s))
                    (warnings_from (max_str_digits w) 1 lines)).
  { unfold read_quiz_ids_from_file. rewrite read_lines_spec.
    destruct fails; cbn [fst]; cbn [In]; rewrite in_app_iff; cbn [In]; split.
    - intros [H|[H|[H|[]]]]; try discriminate H; exact H.
    - intros H. right. left. exact H.
    - intros [H|[H|[H|[]]]]; try exact H; try discriminate H.
      destruct (valid_ids (max_str_digits w) lines); discriminate H.
    - intros H. right. left. exact H. }
  rewrite H, warning_in_warnings. split.
  - intros (j & line & -> & Hj & Hrest). exists line.
    split; [lia|]. replace (1 + j - 1)%nat with j by lia. split; assumption.
  - intros (line & Hk & Hj & Hrest). exists (k - 1)%nat, line.
    split; [lia|]. split; assumption.
Qed.

End Lines.

(** ** The URLs *)

Section Urls.

Lemma run_of_snoc (c : ascii) (k : nat) :
  String c (run_of c k) = (run_of c k ++ String c EmptyString)%string.
Proof. induction k as [|k IH]; cbn; [reflexivity | now rewrite <- IH]. Qed.

Lemma rstrip_char_spec (c : ascii) (s : string) :
  no_trailing c (PyStr.rstrip_char c s)
  /\ exists k, s = (PyStr.rstrip_char c s ++ run_of c k)%string.
Proof.
  induction s as [|d s [IH1 [k IH2]]].
  - split; [intros [|x t] H; discriminate H | exists 0%nat; reflexivity].
  - cbn [PyStr.rstrip_char].
    destruct (PyStr.rstrip_char c s) as [|e r] eqn:Er.
    + destruct (Ascii.eqb d c) eqn:Ed.
      * apply Ascii.eqb_eq in Ed. subst d. split.
        -- intros [|x t] H; discriminate H.
        -- exists (S k). cbn in IH2. now rewrite IH2.
      * apply Ascii.eqb_neq in Ed. split.
        -- intros [|x t] H; cbn in H; inversion H; subst.
           ++ now contradiction Ed.
           ++ destruct t; discriminate.
        -- exists k. cbn in *. now rewrite <- IH2.
    + split.
      * intros [|x t] H; cbn in H; inversion H; subst.
        match goal with
        | H' : String e r = _ |- _ => exact (IH1 _ H')
        end.
      * exists k. cbn [append]. f_equal. exact IH2.
Qed.

Lemma lstrip_char_spec (c : ascii) (s : string) :
  no_leading c (PyStr.lstrip_char c s)
  /\ exists k, s = (run_of c k ++ PyStr.lstrip_char c s)%string.
Proof.
  induction s as [|d s [IH1 [k IH2]]].
  - split; [intros t H; discriminate H | exists 0%nat; reflexivity].
  - cbn [PyStr.lstrip_char]. destruct (Ascii.eqb d c) eqn:Ed.
    + apply Ascii.eqb_eq in Ed. subst d. split; [exact IH1|].
      exists (S k). cbn. now rewrite <- IH2.
    + apply Ascii.eqb_neq in Ed. split.
      * intros t H. inversion H. now contradiction Ed.
      * exists 0%nat. reflexivity.
Qed.

(** However many slashes the configured base URL ends with and the
    configured login path starts with, the base URL is used without any of
    them and the login URL joins the two parts with exactly one slash; the
    statistics URLs start from the same trimmed base. *)
Theorem login_url_joined_by_one_slash (cfg : config) :
  exists (base path : string) (j k : nat),
    cfg_base_url cfg = (base ++ run_of "/" j)%string
    /\ cfg_login_path cfg = (run_of "/" k ++ path)%string
    /\ no_trailing "/" base
    /\ no_leading "/" path
    /\ moodle_base_url cfg = base
    /\ LOGIN_URL cfg = (base ++ String "/" path)%string
    /\ (forall quiz_id,
           stats_url cfg quiz_id
           = (base ++ "/mod/quiz/report.php?id=" ++ PyStr.str_of_int quiz_id
                ++ "&mode=statistics")%string).
Proof.
  destruct (rstrip_char_spec "/" (cfg_base_url cfg)) as [Hb [j Hj]].
  destruct (lstrip_char_spec "/" (cfg_login_path cfg)) as [Hp [k Hk]].
  exists (PyStr.rstrip_char "/" (cfg_base_url cfg)),
    (PyStr.lstrip_char "/" (cfg_login_path cfg)), j, k.
  repeat split; try assumption; reflexivity.
Qed.

End Urls.

(** * The configuration stage *)

Section Startup.

Local Ltac stopped :=
  right; split;
  [ unfold config_complete; cbn;
    intros (H1 & H2 & H3 & (b' & Hb & Tb) & (u' & Hu & Tu) & (p' & Hp)
            & (l' & Hl) & (c' & Hc) & (q' & Hq) & [Hf | (d' & Hf)] & [Hv | (v' & Hv)]);
    congruence
  | cbn; repeat (match goal with H : PyStr.truthy _ = _ |- _ => rewrite H end; cbn);
    auto ].

(** The configuration stage either goes through, with a complete
    configuration and the settings read from it, or stops: with status 1, or
    interrupted. *)
Lemma startup_cases (a : args) (src : config_source) :
  (config_complete src /\ snd (startup a src) = Done (settings_of a src))
  \/ (~ config_complete src
      /\ (snd (startup a src) = Exiting 1
          \/ snd (startup a src) = Raising (FromLibrary ConfigInterrupt))).
Proof.
  destruct src as [pe rc mic gb gu gp gl gc gq gf gv].
  unfold startup, load_settings, settings_of.
  cbn [path_exists read_config moodle_in_config get_base_url get_username
       get_password get_login_path get_post_login_check_path
       get_quiz_id_file_path getfloat_request_delay getboolean_verify_ssl].
  destruct pe; [| stopped].
  destruct rc as [[]|]; try solve [stopped].
  destruct mic; [| stopped].
  destruct gb as [[b|]|[]]; try solve [stopped];
    destruct gu as [[u|]|[]]; try solve [stopped];
    destruct gp as [[p|]|[]]; try solve [stopped];
    try (destruct (PyStr.truthy b) eqn:Eb; try solve [stopped]);
    try (destruct (PyStr.truthy u) eqn:Eu; try solve [stopped]).
  destruct gl as [l|[]]; try solve [stopped].
  destruct gc as [c|[]]; try solve [stopped].
  destruct gq as [q|[]]; try solve [stopped].
  destruct gf as [d|[]]; try solve [stopped];
    (destruct gv as [v|[]]; try solve [stopped]);
    (left; split;
     [ unfold config_complete; cbn; repeat split; eauto
     | destruct a as [[[|ch f]|] path]; cbn; rewrite Eb; cbn; rewrite Eu; cbn;
       try (destruct v); reflexivity ]).
Qed.

(** With a complete configuration the main stage runs, and it runs with the
    settings of the file: the password may be empty, a delay that is no
    number leaves the default of half a second, a flag that is no boolean
    leaves verification off, and a non-empty file name on the command line
    replaces the file's. *)
Theorem complete_config_reaches_main (a : args) (src : config_source) (w : world) :
  config_complete src ->
  snd (startup a src) = Done (settings_of a src)
  /\ script a src w
     = (fst (startup a src), fst (main (settings_of a src) w),
        snd (main (settings_of a src) w)).
Proof.
  intros Hc.
  destruct (startup_cases a src) as [[_ Hs] | [Hn _]]; [| contradiction].
  split; [exact Hs |].
  unfold script. destruct (startup a src) as [t r]. cbn [snd] in Hs. subst r.
  reflexivity.
Qed.

(** Without a complete configuration nothing of the main stage happens: no
    request, no file read; the script exits with status 1, unless a call
    was interrupted. *)
Theorem incomplete_config_stops_before_network
  (a : args) (src : config_source) (w : world) :
  ~ config_complete src ->
  script a src w = (fst (startup a src), [], Exited 1)
  \/ script a src w = (fst (startup a src), [], Uncaught KeyboardInterrupt).
Proof.
  intros Hn.
  destruct (startup_cases a src) as [[Hc _] | [_ Hs]]; [contradiction |].
  unfold script. destruct (startup a src) as [t r]. cbn [fst snd] in *.
  destruct Hs as [-> | ->]; auto.
Qed.

End Startup.

Lemma sloppy_config_runs_with_defaults :
  config_complete StartupExamples.sloppy
  /\ snd (startup StartupExamples.args_with_file StartupExamples.sloppy)
     = Done (settings_of StartupExamples.args_with_file StartupExamples.sloppy)
  /\ script StartupExamples.args_with_file StartupExamples.sloppy Examples.login_down
     = (fst (startup StartupExamples.args_with_file StartupExamples.sloppy),
        fst (main (settings_of StartupExamples.args_with_file StartupExamples.sloppy)
                  Examples.login_down),
        snd (main (settings_of StartupExamples.args_with_file StartupExamples.sloppy)
                  Examples.login_down)).
Proof.
  assert (H : config_complete StartupExamples.sloppy).
  { unfold config_complete; cbn. repeat split; eauto. }
  split; [exact H |].
  exact (complete_config_reaches_main StartupExamples.args_with_file
           StartupExamples.sloppy Examples.login_down H).
Defined.

Lemma missing_username_stops :
  ~ config_complete StartupExamples.no_username
  /\ (script StartupExamples.plain_args StartupExamples.no_username Examples.login_down
      = (fst (startup StartupExamples.plain_args StartupExamples.no_username), [],
         Exited 1)
      \/ script StartupExamples.plain_args StartupExamples.no_username Examples.login_down
         = (fst (startup StartupExamples.plain_args StartupExamples.no_username), [],
            Uncaught KeyboardInterrupt)).
Proof.
  assert (H : ~ config_complete StartupExamples.no_username).
  { unfold config_complete; cbn.
    intros (_ & _ & _ & _ & (u & Hu & _) & _). discriminate Hu. }
  split; [exact H |].
  exact (incomplete_config_stops_before_network StartupExamples.plain_args
           StartupExamples.no_username Examples.login_down H).
Defined.

(** * Identifiers in decimal *)

Section Decimal.

Lemma scan_digit (c : ascii) (v : Z) (s : string) (prev : bool) (k : nat) (acc : Z) :
  Ascii.eqb c "_" = false -> PyStr.digit_value c = Some v ->
  PyStr.scan_digits (String c s) prev k acc
  = PyStr.scan_digits s false (S k) (acc * 10 + v).
Proof. intros Hu Hv. cbn [PyStr.scan_digits]. now rewrite Hu, Hv. Qed.

Local Ltac digit_step :=
  erewrite scan_digit by (vm_compute; reflexivity).

Lemma scan_digits_acc (d : Decimal.uint) :
  forall (k : nat) (p : positive),
    PyStr.scan_digits (NilEmpty.string_of_uint d) false k (Z.pos p)
    = Some ((k + Decimal.nb_digits d)%nat, Z.pos (Pos.of_uint_acc d p)).
Proof.
  induction d; intros k p;
    cbn [NilEmpty.string_of_uint Decimal.nb_digits Pos.of_uint_acc].
  - cbn [PyStr.scan_digits]. now rewrite Nat.add_0_r.
  - digit_step.
    replace (Z.pos p * 10 + 0) with (Z.pos (10 * p)) by lia.
    rewrite IHd. f_equal. f_equal. lia.
  - digit_step.
    replace (Z.pos p * 10 + 1) with (Z.pos (1 + 10 * p)) by lia.
    rewrite IHd. f_equal. f_equal. lia.
  - digit_step.
    replace (Z.pos p * 10 + 2) with (Z.pos (2 + 10 * p)) by lia.
    rewrite IHd. f_equal. f_equal. lia.
  - digit_step.
    replace (Z.pos p * 10 + 3) with (Z.pos (3 + 10 * p)) by lia.
    rewrite IHd. f_equal. f_equal. lia.
  - digit_step.
    replace (Z.pos p * 10 + 4) with (Z.pos (4 + 10 * p)) by lia.
    rewrite IHd. f_equal. f_equal. lia.
  - digit_step.
    replace (Z.pos p * 10 + 5) with (Z.pos (5 + 10 * p)) by lia.
    rewrite IHd. f_equal. f_equal. lia.
  - digit_step.
    replace (Z.pos p * 10 + 6) with (Z.pos (6 + 10 * p)) by lia.
    rewrite IHd. f_equal. f_equal. lia.
  - digit_step.
    replace (Z.pos p * 10 + 7) with (Z.pos (7 + 10 * p)) by lia.
    rewrite IHd. f_equal. f_equal. lia.
  - digit_step.
    replace (Z.pos p * 10 + 8) with (Z.pos (8 + 10 * p)) by lia.
    rewrite IHd. f_equal. f_equal. lia.
  - digit_step.
    replace (Z.pos p * 10 + 9) with (Z.pos (9 + 10 * p)) by lia.
    rewrite IHd. f_equal. f_equal. lia.
Qed.

Lemma scan_digits_uint (d : Decimal.uint) :
  forall k : nat,
    PyStr.scan_digits (NilEmpty.string_of_uint d) false k 0
    = Some ((k + Decimal.nb_digits d)%nat, Z.of_N (Pos.of_uint d)).
Proof.
  induction d; intros k;
    cbn [NilEmpty.string_of_uint Decimal.nb_digits Pos.of_uint];
    [ cbn [PyStr.scan_digits]; now rewrite Nat.add_0_r
    | digit_step; cbn [Z.mul Z.add]; rewrite IHd; f_equal; f_equal; lia
    | digit_step; cbn [Z.mul Z.add]; rewrite scan_digits_acc; f_equal; f_equal; lia .. ].
Qed.

Lemma length_string_of_uint (d : Decimal.uint) :
  String.length (NilEmpty.string_of_uint d) = Decimal.nb_digits d.
Proof. induction d; cbn; congruence. Qed.

Lemma no_blank_in_uint (d : Decimal.uint) :
  all_chars (fun c => negb (PyStr.isspace c)) (NilEmpty.string_of_uint d) = true.
Proof. induction d; cbn [NilEmpty.string_of_uint all_chars]; [reflexivity | exact IHd ..]. Qed.

Lemma rstrip_line_feed (s : string) :
  all_chars (fun c => negb (PyStr.isspace c)) s = true ->
  PyStr.rstrip (s ++ String (ascii_of_nat 10) EmptyString) = s.
Proof.
  induction s as [|c s IH]; intros H; [reflexivity|].
  cbn [all_chars] in H. apply andb_true_iff in H as [Hc Hs].
  apply negb_true_iff in Hc.
  cbn [append PyStr.rstrip]. rewrite (IH Hs), Hc.
  destruct s; reflexivity.
Qed.

Lemma strip_written (s : string) :
  all_chars (fun c => negb (PyStr.isspace c)) s = true ->
  PyStr.strip (s ++ String (ascii_of_nat 10) EmptyString) = s.
Proof.
  intros H. unfold PyStr.strip.
  destruct s as [|c s]; [reflexivity|].
  pose proof H as H'. cbn [all_chars] in H'.
  apply andb_true_iff in H' as [Hc _]. apply negb_true_iff in Hc.
  cbn [append PyStr.lstrip]. rewrite Hc.
  exact (rstrip_line_feed (String c s) H).
Qed.

Lemma int_of_uint (limit : nat) (d : Decimal.uint) (negative : bool) :
  d <> Decimal.Nil ->
  limit = 0%nat \/ (Decimal.nb_digits d <= limit)%nat ->
  PyStr.int limit
    ((if negative then String "-" (NilEmpty.string_of_uint d)
      else NilEmpty.string_of_uint d)
     ++ String (ascii_of_nat 10) EmptyString)
  = Some (if negative then - Z.of_N (Pos.of_uint d) else Z.of_N (Pos.of_uint d)).
Proof.
  intros Hd Hl.
  assert (Hok : (limit =? 0)%nat || (Decimal.nb_digits d <=? limit)%nat = true).
  { apply orb_true_iff. destruct Hl as [->|Hl]; [now left | right].
    now apply Nat.leb_le. }
  unfold PyStr.int. rewrite strip_written.
  2:{ destruct negative; [cbn [all_chars]|]; now rewrite no_blank_in_uint. }
  pose proof (scan_digits_uint d 0) as Hs. cbn [Nat.add] in Hs.
  destruct negative.
  - destruct d; try congruence; cbn [NilEmpty.string_of_uint] in *;
      rewrite Hs, Hok; reflexivity.
  - destruct d; try congruence; cbn [NilEmpty.string_of_uint] in *;
      rewrite Hs, Hok; reflexivity.
Qed.

Lemma int_written_line (limit : nat) (n : Z) :
  limit = 0%nat \/ (digits_of n <= limit)%nat ->
  PyStr.int limit (written_line n) = Some n.
Proof.
  unfold digits_of, written_line, PyStr.str_of_int. intros Hl.
  destruct n as [|p|p]; cbn [Z.abs Z.to_int NilZero.string_of_int] in *.
  - destruct Hl as [->|Hl]; [reflexivity|].
    cbn in Hl. unfold PyStr.int. cbn.
    destruct limit; [lia | reflexivity].
  - pose proof (DecimalPos.Unsigned.to_uint_nonnil p) as Hn.
    assert (E : NilZero.string_of_uint (Pos.to_uint p)
                = NilEmpty.string_of_uint (Pos.to_uint p)).
    { destruct (Pos.to_uint p); [congruence | reflexivity ..]. }
    rewrite E in *. rewrite length_string_of_uint in Hl.
    rewrite (int_of_uint limit (Pos.to_uint p) false Hn Hl).
    now rewrite DecimalPos.Unsigned.of_to.
  - pose proof (DecimalPos.Unsigned.to_uint_nonnil p) as Hn.
    assert (E : NilZero.string_of_uint (Pos.to_uint p)
                = NilEmpty.string_of_uint (Pos.to_uint p)).
    { destruct (Pos.to_uint p); [congruence | reflexivity ..]. }
    rewrite E in *. rewrite length_string_of_uint in Hl.
    rewrite (int_of_uint limit (Pos.to_uint p) true Hn Hl).
    now rewrite DecimalPos.Unsigned.of_to.
Qed.


Lemma written_lines_valid (limit : nat) (ids : list Z) :
  limit = 0%nat \/ Forall (fun n => (digits_of n <= limit)%nat) ids ->
  valid_ids limit (map written_line ids) = ids
  /\ forall line_num, warnings_from limit line_num (map written_line ids) = [].
Proof.
  intros Hl.
  induction ids as [|n rest IH]; [split; reflexivity|].
  assert (Hn : limit = 0%nat \/ (digits_of n <= limit)%nat).
  { destruct Hl as [->|Hl]; [now left | right]. now inversion Hl. }
  assert (Hr : limit = 0%nat \/ Forall (fun n => (digits_of n <= limit)%nat) rest).
  { destruct Hl as [->|Hl]; [now left | right]. now inversion Hl. }
  destruct (IH Hr) as [IHv IHw].
  cbn [map valid_ids flat_map warnings_from].
  fold (valid_ids limit (map written_line rest)).
  rewrite (int_written_line limit n Hn), IHv. split; [reflexivity|].
  intros line_num. rewrite IHw.
  destruct (blank_or_comment (written_line n)); reflexivity.
Qed.

(** A file that holds integers in decimal, one to a line, is read back as
    these integers, in order and without a warning; the limit on the number
    of digits, where there is one, must allow each of them. *)
Theorem decimal_file_read_back (w : world) (file_path : string) (ids : list Z) :
  max_str_digits w = 0%nat
  \/ Forall (fun n => (digits_of n <= max_str_digits w)%nat) ids ->
  read_quiz_ids_from_file w file_path (Lines (map written_line ids) false)
  = ([EPrint (MsgReadingFrom file_path);
      EPrint (match ids with
              | [] => MsgNoValidIds
              | _ :: _ => MsgFoundValidIds (length ids)
              end)],
     Some ids).
Proof.
  intros Hl.
  destruct (written_lines_valid (max_str_digits w) ids Hl) as [Hv Hw].
  unfold read_quiz_ids_from_file.
  rewrite read_lines_spec, Hv, Hw. reflexivity.
Qed.

Lemma str_of_int_inj (a b : Z) : PyStr.str_of_int a = PyStr.str_of_int b -> a = b.
Proof.
  intros H.
  assert (E : PyStr.int 0 (written_line a) = PyStr.int 0 (written_line b)).
  { unfold written_line. now rewrite H. }
  rewrite !int_written_line in E by now left.
  now injection E.
Qed.

Lemma length_append (s t : string) :
  String.length (s ++ t) = (String.length s + String.length t)%nat.
Proof. induction s as [|c s IH]; cbn; [reflexivity | now rewrite IH]. Qed.

Lemma append_cancel_l (p s t : string) : (p ++ s = p ++ t)%string -> s = t.
Proof.
  induction p as [|c p IH]; cbn [append]; intros H; [exact H|].
  injection H as H. exact (IH H).
Qed.

Lemma append_cancel_r (t : string) :
  forall s1 s2 : string, (s1 ++ t = s2 ++ t)%string -> s1 = s2.
Proof.
  induction s1 as [|a s1 IH]; intros [|b s2] H; cbn [append] in H.
  - reflexivity.
  - apply (f_equal String.length) in H. cbn [String.length] in H.
    rewrite length_append in H. lia.
  - apply (f_equal String.length) in H. cbn [String.length] in H.
    rewrite length_append in H. lia.
  - injection H as Ha H. subst b. f_equal. exact (IH s2 H).
Qed.

(** Each identifier has an address of its own: two identifiers with the
    same statistics address are equal. *)
Theorem stats_url_of_one_identifier (cfg : config) (a b : Z) :
  stats_url cfg a = stats_url cfg b -> a = b.
Proof.
  unfold stats_url. intros H.
  apply append_cancel_l, append_cancel_l, append_cancel_r in H.
  exact (str_of_int_inj a b H).
Qed.

End Decimal.

Lemma three_identifiers_read_back :
  (max_str_digits (Examples.logged_in [] Examples.all_ok) = 0%nat
   \/ Forall (fun n => (digits_of n <= max_str_digits (Examples.logged_in [] Examples.all_ok))%nat)
        [101; -7; 0])
  /\ read_quiz_ids_from_file (Examples.logged_in [] Examples.all_ok) "quiz_ids.txt"
       (Lines (map written_line [101; -7; 0]) false)
     = ([EPrint (MsgReadingFrom "quiz_ids.txt"); EPrint (MsgFoundValidIds 3)],
        Some [101; -7; 0]).
Proof.
  assert (H : max_str_digits (Examples.logged_in [] Examples.all_ok) = 0%nat
              \/ Forall (fun n => (digits_of n
                         <= max_str_digits (Examples.logged_in [] Examples.all_ok))%nat)
                   [101; -7; 0]).
  { right. repeat constructor; vm_compute; lia. }
  split; [exact H |].
  exact (decimal_file_read_back (Examples.logged_in [] Examples.all_ok)
           "quiz_ids.txt" [101; -7; 0] H).
Defined.

Lemma same_address_same_identifier :
  stats_url Examples.cfg 101 = stats_url Examples.cfg (100 + 1)
  /\ 101 = 100 + 1.
Proof.
  assert (H : stats_url Examples.cfg 101 = stats_url Examples.cfg (100 + 1))
    by reflexivity.
  split; [exact H |].
  exact (stats_url_of_one_identifier Examples.cfg 101 (100 + 1) H).
Defined.
